(** * pandas.io.data: the Yahoo! options chain reader

    A shallow embedding of the [Options] class of [pandas/io/data.py] and of
    the module-level helpers it uses ([_unpack], [_parse_options_data],
    [_two_char_month]), followed by the properties of the chain accessor,
    the date validation, the underlying-quote extraction, the row
    post-processing and the near-price filter.

    Python values are modelled as follows:
    - [int] is [Z]; [float] is the binary64 type [PrimFloat.float], so that
      not-a-number, signed zeros and comparisons behave as in the interpreter;
    - [str] is [string]; slices follow Python's rules for negative and
      out-of-range bounds;
    - the instance dictionary of an [Options] object is a [gmap] from attribute
      names to attribute values;
    - exceptions and the mutation of [self] are threaded through a small
      state-and-exception monad [Py]. *)

From Stdlib Require Import ZArith Floats String Ascii List Lia Bool.
From stdpp Require Import gmap strings list pretty.

Local Open Scope string_scope.
Local Open Scope Z_scope.

(** ** Python sequences and strings *)

Module PyStr.

(** One bound of [l[start:stop]]: a negative bound counts from the end,
    and every bound is clamped to [0 .. len]. *)
Definition slice_bound (len : Z) (default : Z) (i : option Z) : Z :=
  match i with
  | None => default
  | Some i => if i <? 0 then Z.max 0 (i + len) else Z.min i len
  end.

(** [l[start:stop]] on a sequence. *)
Definition slice {A} (start stop : option Z) (l : list A) : list A :=
  let len := Z.of_nat (length l) in
  let a := slice_bound len 0 start in
  let b := slice_bound len len stop in
  take (Z.to_nat (b - a)) (drop (Z.to_nat a) l).

(** [s[start:stop]] on a string. *)
Definition str_slice (start stop : option Z) (s : string) : string :=
  string_of_list_ascii (slice start stop (list_ascii_of_string s)).

(** [str(n)] for an [int]. *)
Definition str_of_Z (n : Z) : string := pretty n.

(** ['{0:0>w}'.format(s)]: [s] right-aligned in a field of width [w]
    filled with zeros; longer strings are left as they are. *)
Definition rjust0 (w : nat) (s : string) : string :=
  string_of_list_ascii (replicate (w - String.length s) "0"%char) ++ s.

(** [s.replace(c, '')] for a one-character [c]. *)
Definition remove_char (c : ascii) (s : string) : string :=
  string_of_list_ascii
    (List.filter (fun x => negb (Ascii.eqb x c)) (list_ascii_of_string s)).

Definition upper_char (c : ascii) : ascii :=
  let n := nat_of_ascii c in
  if (97 <=? n)%nat && (n <=? 122)%nat then ascii_of_nat (n - 32) else c.

(** [s.upper()] on ASCII text. *)
Definition upper (s : string) : string :=
  string_of_list_ascii (List.map upper_char (list_ascii_of_string s)).

Definition lower_char (c : ascii) : ascii :=
  let n := nat_of_ascii c in
  if (65 <=? n)%nat && (n <=? 90)%nat then ascii_of_nat (n + 32) else c.

Definition lower (s : string) : string :=
  string_of_list_ascii (List.map lower_char (list_ascii_of_string s)).

(** The characters [str.strip()] and [float()] remove, a character standing
    for the code point of its number: the white space below 256, which is
    the ASCII one, the separators 28 to 31, the next-line character and the
    no-break space. *)
Definition is_space (c : ascii) : bool :=
  let n := nat_of_ascii c in
  (n =? 32)%nat || ((9 <=? n)%nat && (n <=? 13)%nat)
  || ((28 <=? n)%nat && (n <=? 31)%nat) || (n =? 133)%nat || (n =? 160)%nat.

Fixpoint lstrip_chars (l : list ascii) : list ascii :=
  match l with
  | c :: l' => if is_space c then lstrip_chars l' else l
  | [] => []
  end.

Definition strip_chars (l : list ascii) : list ascii :=
  rev (lstrip_chars (rev (lstrip_chars l))).

(** [s.strip()] *)
Definition strip (s : string) : string :=
  string_of_list_ascii (strip_chars (list_ascii_of_string s)).

(** The pieces of [l] between the occurrences of [c]; [cur] holds the
    piece being read, reversed. *)
Fixpoint split_chars (c : ascii) (cur : list ascii) (l : list ascii)
  : list string :=
  match l with
  | [] => [string_of_list_ascii (rev cur)]
  | x :: l' =>
      if Ascii.eqb x c then
        string_of_list_ascii (rev cur) :: split_chars c [] l'
      else split_chars c (x :: cur) l'
  end.

(** [s.split(c)] for a one-character separator [c]. *)
Definition split (c : ascii) (s : string) : list string :=
  split_chars c [] (list_ascii_of_string s).

(** [s.zfill(w)]: zeros are inserted after a leading sign. *)
Definition zfill (w : nat) (s : string) : string :=
  let pad := string_of_list_ascii (replicate (w - String.length s) "0"%char) in
  match s with
  | String c s' =>
      if Ascii.eqb c "+" || Ascii.eqb c "-" then String c (pad ++ s')
      else pad ++ s
  | EmptyString => pad
  end.

(** [repr(s)] for a string without quotes or escapes. *)
Definition repr (s : string) : string := "'" ++ s ++ "'".

End PyStr.

(** ** Python floats *)

Module PyFloat.

Definition is_nan (f : float) : bool := negb (PrimFloat.eqb f f).

(** [bool(f)]: every float except the two zeros is true, not-a-number
    included. *)
Definition truthy (f : float) : bool := negb (PrimFloat.eqb f 0%float).

(** The binary64 value nearest to the integer [n] (ties to even). *)
Definition of_Z (n : Z) : float :=
  SF2Prim (binary_normalize prec emax n 0 false).

(** The binary64 value nearest to [(-1)^neg * m * 10^e10] (ties to even):
    the value [float()] gives to a decimal literal. *)
Definition of_decimal (neg : bool) (m : N) (e10 : Z) : float :=
  match m with
  | N0 => SF2Prim (S754_zero neg)
  | Npos p =>
      if 0 <=? e10 then
        SF2Prim (binary_round prec emax neg (p * Z.to_pos (10 ^ e10))%positive 0)
      else
        let '(q, e, l) :=
          SFdiv_core_binary prec emax (Zpos p) 0 (10 ^ (- e10)) 0 in
        SF2Prim (binary_round_aux prec emax neg q e l)
  end.

Definition digit_of (c : ascii) : option N :=
  let n := N_of_ascii c in
  if (48 <=? n)%N && (n <=? 57)%N then Some (n - 48)%N else None.

(** The longest prefix of decimal digits: its value, its length, the rest. *)
Fixpoint digits (acc : N) (cnt : nat) (l : list ascii) : N * nat * list ascii :=
  match l with
  | c :: l' =>
      match digit_of c with
      | Some d => digits (10 * acc + d)%N (S cnt) l'
      | None => (acc, cnt, l)
      end
  | [] => (acc, cnt, [])
  end.

Definition sign (l : list ascii) : bool * list ascii :=
  match l with
  | "-"%char :: l' => (true, l')
  | "+"%char :: l' => (false, l')
  | _ => (false, l)
  end.

(** The optional exponent part [e[+-]ddd]; [None] when malformed. *)
Definition exponent (l : list ascii) : option Z :=
  match l with
  | [] => Some 0
  | c :: l' =>
      if Ascii.eqb c "e" || Ascii.eqb c "E" then
        let '(neg, l'') := sign l' in
        match digits 0 0 l'' with
        | (_, O, _) => None
        | (v, _, []) => Some (if neg then - Z.of_N v else Z.of_N v)
        | _ => None
        end
      else None
  end.

(** [float(s)] on a [str]; [None] stands for [ValueError]. Accepts what
    the interpreter accepts apart from digit-group underscores: surrounding
    white space, a sign, [inf], [infinity], [nan] in any case, and decimal
    literals with an optional fraction and exponent. *)
Definition of_string (s : string) : option float :=
  let '(neg, l) := sign (PyStr.strip_chars (list_ascii_of_string s)) in
  let word := PyStr.lower (string_of_list_ascii l) in
  if String.eqb word "inf" || String.eqb word "infinity" then
    Some (if neg then neg_infinity else infinity)
  else if String.eqb word "nan" then Some nan
  else
    let '(ip, ni, l1) := digits 0 0 l in
    let '(m, nf, l2) :=
      match l1 with
      | "."%char :: l1' =>
          let '(m, nf, l2) := digits ip 0 l1' in (m, nf, l2)
      | _ => (ip, O, l1)
      end in
    if (ni + nf =? 0)%nat then None
    else
      match exponent l2 with
      | Some e => Some (of_decimal neg m (e - Z.of_nat nf))
      | None => None
      end.

End PyFloat.

(** ** Values, dates and exceptions *)

Record date := Date { d_year : Z; d_month : Z; d_day : Z }.

Record datetime :=
  Datetime { t_year : Z; t_month : Z; t_day : Z; t_hour : Z; t_minute : Z }.

(** The Python objects that occur as cells, labels and attribute values. *)
Inductive value :=
| VNone
| VBool (b : bool)
| VInt (n : Z)
| VFloat (f : float)
| VStr (s : string)
| VDate (d : date)
| VTime (t : datetime).

(** [np.nan] *)
Definition NaN : value := VFloat nan.

Definition date_eqb (a b : date) : bool :=
  (d_year a =? d_year b) && (d_month a =? d_month b) && (d_day a =? d_day b).

Definition datetime_eqb (a b : datetime) : bool :=
  (t_year a =? t_year b) && (t_month a =? t_month b) && (t_day a =? t_day b)
  && (t_hour a =? t_hour b) && (t_minute a =? t_minute b).

(** Equality of labels. *)
Definition value_eqb (a b : value) : bool :=
  match a, b with
  | VNone, VNone => true
  | VBool x, VBool y => Bool.eqb x y
  | VInt x, VInt y => x =? y
  | VFloat x, VFloat y => PrimFloat.Leibniz.eqb x y
  | VStr x, VStr y => String.eqb x y
  | VDate x, VDate y => date_eqb x y
  | VTime x, VTime y => datetime_eqb x y
  | _, _ => false
  end.

(** [pandas.isnull] on one cell. *)
Definition isnull (v : value) : bool :=
  match v with
  | VNone => true
  | VFloat f => PyFloat.is_nan f
  | _ => false
  end.

(** [bool(v)] *)
Definition truthy (v : value) : bool :=
  match v with
  | VNone => false
  | VBool b => b
  | VInt n => negb (n =? 0)
  | VFloat f => PyFloat.truthy f
  | VStr s => negb (String.eqb s "")
  | VDate _ | VTime _ => true
  end.

Inductive exn_class :=
| ValueError
| TypeError
| IndexError
| KeyError
| AttributeError
| ImportError
| NotImplementedError
| RemoteDataError
| OtherError.

(** An exception: its class and [str(e)]. *)
Record exn := Exn { exn_cls : exn_class; exn_msg : string }.

Definition exn_class_eqb (a b : exn_class) : bool :=
  match a, b with
  | ValueError, ValueError | TypeError, TypeError | IndexError, IndexError
  | KeyError, KeyError | AttributeError, AttributeError
  | ImportError, ImportError | NotImplementedError, NotImplementedError
  | RemoteDataError, RemoteDataError | OtherError, OtherError => true
  | _, _ => false
  end.

(** The result of running a piece of Python: a value or a raised exception. *)
Inductive outcome (A : Type) :=
| Return (a : A)
| Raise (e : exn).
Arguments Return {A} a.
Arguments Raise {A} e.

Definition obind {A B} (m : outcome A) (k : A -> outcome B) : outcome B :=
  match m with
  | Return a => k a
  | Raise e => Raise e
  end.

(** [l[i]] for a non-negative [i]. *)
Definition getitem {A} (l : list A) (i : nat) : outcome A :=
  match l !! i with
  | Some x => Return x
  | None => Raise (Exn IndexError "list index out of range")
  end.

(** [datetime.date(year, month, 1)] *)
Definition first_of_month (year month : Z) : outcome date :=
  if negb ((1 <=? year) && (year <=? 9999)) then
    Raise (Exn ValueError ("year " ++ PyStr.str_of_Z year ++ " is out of range"))
  else if negb ((1 <=? month) && (month <=? 12)) then
    Raise (Exn ValueError "month must be in 1..12")
  else Return (Date year month 1).

(** ** The parsed page: lxml elements *)

Local Unset Elimination Schemes.
Inductive element :=
| Element (tag : string) (attrib : list (string * string))
          (text : option string) (children : list element)
          (tail : option string).
Local Set Elimination Schemes.

Definition tag (e : element) : string :=
  match e with Element t _ _ _ _ => t end.
Definition attrib (e : element) : list (string * string) :=
  match e with Element _ a _ _ _ => a end.
(** [e.text]: the text before the first child, [None] when there is none. *)
Definition text (e : element) : option string :=
  match e with Element _ _ t _ _ => t end.
Definition getchildren (e : element) : list element :=
  match e with Element _ _ _ c _ => c end.
Definition tail (e : element) : option string :=
  match e with Element _ _ _ _ t => t end.

Definition get_attr (name : string) (e : element) : option string :=
  snd <$> List.find (fun kv => String.eqb (fst kv) name) (attrib e).

(** The descendants of an element in document order (the element itself
    excluded): the node set of [.//*]. *)
Fixpoint descendants (e : element) : list element :=
  match e with
  | Element _ _ _ cs _ =>
      (fix go (l : list element) : list element :=
         match l with
         | [] => []
         | c :: l' => c :: descendants c ++ go l'
         end) cs
  end.

(** [e.xpath('.//kind')] *)
Definition xpath_tag (kind : string) (e : element) : list element :=
  List.filter (fun d => String.eqb (tag d) kind) (descendants e).

(** [e.xpath('.//*[@class="c"]')] *)
Definition xpath_class (c : string) (e : element) : list element :=
  List.filter
    (fun d => match get_attr "class" d with
              | Some v => String.eqb v c
              | None => false
              end)
    (descendants e).

(** [e.xpath('.//@class')]: the class attributes of the element and of its
    descendants. *)
Definition xpath_class_attrs (e : element) : list string :=
  omap (get_attr "class") (e :: descendants e).

Definition opt_str (o : option string) : string := default "" o.

(** [e.text_content()]: all the text inside the element. *)
Fixpoint text_content (e : element) : string :=
  match e with
  | Element _ _ t cs _ =>
      opt_str t ++
      (fix go (l : list element) : string :=
         match l with
         | [] => ""
         | c :: l' => text_content c ++ opt_str (tail c) ++ go l'
         end) cs
  end.

(** ** Data frames *)

Module Frame.

(** Modelled from the spec: the pandas [DataFrame], whose class is not part
    of the sources. A frame is stored by column: the index levels and the
    data columns, each a label with one value per row. A frame fresh from
    the parser has the default index, one unnamed level [0 .. n-1]. *)
Record DataFrame := Build {
  index : list (value * list value);
  columns : list (value * list value)
}.

Definition nrows (df : DataFrame) : nat :=
  match index df with
  | (_, vs) :: _ => length vs
  | [] => 0
  end.

Definition default_index (n : nat) : list (value * list value) :=
  [(VNone, List.map (fun i => VInt (Z.of_nat i)) (seq 0 n))].

(** The first column carrying the label [k]. *)
Fixpoint lookup (k : value) (cols : list (value * list value))
  : option (list value) :=
  match cols with
  | [] => None
  | (k', vs) :: cols' => if value_eqb k' k then Some vs else lookup k cols'
  end.

(** [frame[k] = vs] on the columns: an existing column is overwritten in
    place, a new one is appended. *)
Fixpoint assign (k : value) (vs : list value)
  (cols : list (value * list value)) : list (value * list value) :=
  match cols with
  | [] => [(k, vs)]
  | (k', vs') :: cols' =>
      if value_eqb k' k then (k, vs) :: cols'
      else (k', vs') :: assign k vs cols'
  end.

(** The columns without the first one labelled [k]. *)
Fixpoint remove (k : value) (cols : list (value * list value))
  : list (value * list value) :=
  match cols with
  | [] => []
  | (k', vs') :: cols' =>
      if value_eqb k' k then cols' else (k', vs') :: remove k cols'
  end.

(** Modelled from the spec: [frame[k]]; a missing label is a [KeyError]. *)
Definition getitem (k : value) (df : DataFrame) : outcome (list value) :=
  match lookup k (columns df) with
  | Some vs => Return vs
  | None => Raise (Exn KeyError "no item for this label")
  end.

(** Modelled from the spec: [frame.name], attribute access to a column; a
    missing label is an [AttributeError]. *)
Definition getattr (k : string) (df : DataFrame) : outcome (list value) :=
  match lookup (VStr k) (columns df) with
  | Some vs => Return vs
  | None =>
      Raise (Exn AttributeError
               ("'DataFrame' object has no attribute '" ++ k ++ "'"))
  end.

(** Modelled from the spec: [frame[k] = vs] for a column of values. *)
Definition setitem (k : value) (vs : list value) (df : DataFrame)
  : DataFrame :=
  Build (index df) (assign k vs (columns df)).

(** Modelled from the spec: [frame[k] = v] for a scalar, repeated on every
    row. *)
Definition setitem_scalar (k : value) (v : value) (df : DataFrame)
  : DataFrame :=
  setitem k (replicate (nrows df) v) df.

(** Modelled from the spec: [del frame[k]]. *)
Definition delitem (k : value) (df : DataFrame) : outcome DataFrame :=
  match lookup k (columns df) with
  | Some _ => Return (Build (index df) (remove k (columns df)))
  | None => Raise (Exn KeyError "no item for this label")
  end.

(** Modelled from the spec: [frame.rename(columns={old: new},
    inplace=True)]; labels other than [old] are kept. *)
Definition rename (old new : value) (df : DataFrame) : DataFrame :=
  Build (index df)
    (List.map (fun c => if value_eqb (fst c) old then (new, snd c) else c)
       (columns df)).

(** Moves the columns [keys] out of [cols], in the order of [keys]. *)
Fixpoint take_keys (keys : list value) (cols : list (value * list value))
  : outcome (list (value * list value) * list (value * list value)) :=
  match keys with
  | [] => Return ([], cols)
  | k :: keys' =>
      match lookup k cols with
      | None => Raise (Exn KeyError "no item for this label")
      | Some vs =>
          obind (take_keys keys' (remove k cols))
            (fun r => Return ((k, vs) :: fst r, snd r))
      end
  end.

(** Modelled from the spec: [frame.set_index(keys, inplace=True)]: the
    columns [keys] become the levels of the index, replacing the old
    index, and leave the data columns. *)
Definition set_index (keys : list value) (df : DataFrame)
  : outcome DataFrame :=
  obind (take_keys keys (columns df))
    (fun r => Return (Build (fst r) (snd r))).

(** Modelled from the spec: [frame.index.get_level_values(name)]. *)
Definition get_level_values (name : value) (df : DataFrame)
  : outcome (list value) :=
  match lookup name (index df) with
  | Some vs => Return vs
  | None => Raise (Exn KeyError "Level not found")
  end.

Definition map_rows (f : list value -> list value) (df : DataFrame)
  : DataFrame :=
  Build (List.map (fun c => (fst c, f (snd c))) (index df))
        (List.map (fun c => (fst c, f (snd c))) (columns df)).

(** Modelled from the spec: [frame[slice(start, stop)]], the rows at the
    positions of a Python slice. *)
Definition row_slice (start stop : Z) (df : DataFrame) : DataFrame :=
  map_rows (PyStr.slice (Some start) (Some stop)) df.

(** Whether the row at position [i] has a value in some data column. *)
Definition row_has_data (df : DataFrame) (i : nat) : bool :=
  existsb (fun c => match snd c !! i with
                    | Some v => negb (isnull v)
                    | None => false
                    end) (columns df).

(** The elements of [l] at the positions where [keep] holds. *)
Definition select_rows {A} (keep : nat -> bool) (l : list A) : list A :=
  List.map snd (List.filter (fun p => keep (fst p)) (imap pair l)).

(** Modelled from the spec: [frame.dropna(how='all')]: the rows whose data
    columns are all empty are dropped. *)
Definition dropna_all (df : DataFrame) : DataFrame :=
  map_rows (select_rows (row_has_data df)) df.

(** Modelled from the spec: [series.str[start:stop]]: the slice of every
    string of a column, not-a-number for a cell that is not a string. *)
Definition str_slice (start stop : option Z) (vs : list value)
  : list value :=
  List.map (fun v => match v with
                     | VStr s => VStr (PyStr.str_slice start stop s)
                     | _ => NaN
                     end) vs.

(** Modelled from the spec: [series != s] against a string. *)
Definition ne_str (s : string) (vs : list value) : list value :=
  List.map (fun v => match v with
                     | VStr r => VBool (negb (String.eqb r s))
                     | _ => VBool true
                     end) vs.

End Frame.

(** ** The environment of the module

    What the module takes from outside: the clock read once at import time
    ([CUR_MONTH], [CUR_YEAR], [CUR_DAY]), the network behind [lxml.html.parse],
    and the library functions the options code calls but does not define. *)

Inductive parse_result :=
| NetworkFailure                    (* one of [_network_error_classes] *)
| ParseFailure (e : exn)            (* any other exception of [parse] *)
| Parsed (root : option element).   (* [doc.getroot()] *)

Record Env := {
  CUR_MONTH : Z;
  CUR_YEAR : Z;
  CUR_DAY : Z;
  (** whether [from lxml.html import parse] succeeds *)
  lxml_installed : bool;
  (** [parse(url)]; the first argument counts the requests made before *)
  parse : nat -> string -> parse_result;
  (** [dt.datetime.strptime(text, format)] *)
  strptime : string -> string -> outcome datetime;
  (** [pandas.to_datetime] on a column *)
  to_datetime : list value -> outcome (list value);
  (** [TextParser(data, names=.., na_values=.., thousands=..).get_chunk()] *)
  TextParser : list (list value) -> list value -> list string -> ascii
               -> outcome Frame.DataFrame;
  (** [frame.sortlevel()] *)
  sortlevel : Frame.DataFrame -> Frame.DataFrame
}.

(** ** The session object and the monad of its methods *)

(** What an instance attribute can hold. *)
Inductive attr :=
| AValue (v : value)
| ATables (ts : list element)
| AFrame (df : Frame.DataFrame).

(** An [Options] instance: [self.symbol], set by the constructor, and the
    rest of the instance dictionary. *)
Record Options := { symbol : string; dict : gmap string attr }.

(** The state a method runs in: the instance, the URLs requested so far
    (one entry per call of [parse]) and the warnings issued. *)
Record State := {
  self : Options;
  requests : list string;
  warned : list string
}.

Definition Py (A : Type) : Type := State -> outcome A * State.

Definition ret {A} (a : A) : Py A := fun s => (Return a, s).

Definition bind {A B} (m : Py A) (k : A -> Py B) : Py B :=
  fun s => match m s with
           | (Return a, s') => k a s'
           | (Raise e, s') => (Raise e, s')
           end.

Notation "x <- m ;; k" := (bind m (fun x => k))
  (at level 100, m at next level, right associativity).

Definition raise {A} (c : exn_class) (msg : string) : Py A :=
  fun s => (Raise (Exn c msg), s).

(** A pure computation that may raise, run inside a method. *)
Definition lift {A} (o : outcome A) : Py A := fun s => (o, s).

(** [try: body except <classes>: handler]; the effects of [body] up to the
    exception stay. *)
Definition try_except {A} (body : Py A) (catches : exn_class -> bool)
  (handler : exn -> Py A) : Py A :=
  fun s => match body s with
           | (Raise e, s') =>
               if catches (exn_cls e) then handler e s' else (Raise e, s')
           | r => r
           end.

(** [getattr(self, name)] on the instance dictionary. *)
Definition getattr (name : string) : Py attr :=
  fun s => match dict (self s) !! name with
           | Some a => (Return a, s)
           | None =>
               (Raise (Exn AttributeError
                         ("'Options' object has no attribute '" ++ name ++ "'")),
                s)
           end.

(** [setattr(self, name, a)] *)
Definition setattr (name : string) (a : attr) : Py unit :=
  fun s => (Return tt,
            {| self := {| symbol := symbol (self s);
                          dict := <[name := a]> (dict (self s)) |};
               requests := requests s;
               warned := warned s |}).

(** [warnings.warn(msg, FutureWarning)] *)
Definition warn (msg : string) : Py unit :=
  fun s => (Return tt,
            {| self := self s; requests := requests s;
               warned := warned s ++ [msg] |}).

(** An attribute read where the code needs a plain value; the attributes
    holding tables or frames are never read this way by reachable states. *)
Definition attr_value (a : attr) : Py value :=
  match a with
  | AValue v => ret v
  | _ => raise TypeError "not a scalar"
  end.

(** ** Module-level helpers *)

Definition _two_char_month (s : Z) : string :=
  PyStr.rjust0 2 (PyStr.str_of_Z s).

(** [float(x)] for [x] a string or [None]. *)
Definition py_float (x : option string) : outcome float :=
  match x with
  | None => Raise (Exn TypeError "float() argument must be a string or a number")
  | Some s =>
      match PyFloat.of_string s with
      | Some f => Return f
      | None => Raise (Exn ValueError ("could not convert string to float: " ++ s))
      end
  end.

(** The inner function of [_unpack]. *)
Definition _parse_row_values (val : element) : value :=
  let ret := text_content val in
  if bool_decide ("neg_arrow" ∈ xpath_class_attrs val) then
    match PyFloat.of_string (PyStr.remove_char "," ret) with
    | Some f => VFloat (f * (-1))%float
    | None => NaN
    end
  else VStr ret.

Definition _unpack (row : element) (kind : string) : list value :=
  List.map _parse_row_values (xpath_tag kind row).

Definition _parse_options_data (E : Env) (table : element)
  : outcome Frame.DataFrame :=
  let rows := xpath_tag "tr" table in
  obind (getitem rows 0) (fun row0 =>
  let header := _unpack row0 "th" in
  let data := List.map (fun row => _unpack row "td") (drop 1 rows) in
  TextParser E data header ["N/A"] ","%char).

(** ** Calendar checks of [datetime.replace] *)

Definition is_leap (y : Z) : bool :=
  ((y mod 4 =? 0) && negb (y mod 100 =? 0)) || (y mod 400 =? 0).

Definition days_in_month (y m : Z) : Z :=
  if m =? 2 then (if is_leap y then 29 else 28)
  else if (m =? 4) || (m =? 6) || (m =? 9) || (m =? 11) then 30
  else 31.

(** [t.replace(year=y, month=m, day=d)] *)
Definition replace_date (t : datetime) (y m d : Z) : outcome datetime :=
  if (1 <=? y) && (y <=? 9999) && (1 <=? m) && (m <=? 12)
     && (1 <=? d) && (d <=? days_in_month y m)
  then Return (Datetime y m d (t_hour t) (t_minute t))
  else Raise (Exn ValueError "day is out of range for month").

(** ** The [Options] class *)

Section OptionsClass.

Variable E : Env.

Definition _TABLE_LOC : list (string * Z) := [("calls", 9); ("puts", 13)].

Definition _OPTIONS_BASE_URL (sym : string) : string :=
  "http://finance.yahoo.com/q/op?s=" ++ sym.

(** [Options(symbol, data_source)]: the state right after construction. *)
Definition __init__ (symbol : string) (data_source : option string)
  : outcome State :=
  let w :=
    match data_source with
    | None => ["Options(symbol) is deprecated, use Options(symbol, data_source) instead"]
    | Some _ => []
    end in
  let data_source := default "yahoo" data_source in
  if negb (String.eqb data_source "yahoo") then
    Raise (Exn NotImplementedError "currently only yahoo supported")
  else
    Return {| self := {| symbol := PyStr.upper symbol; dict := ∅ |};
              requests := []; warned := w |}.

Definition _parse_url (url : string) : Py element :=
  if negb (lxml_installed E) then
    raise ImportError
      "Please install lxml if you want to use the 'Options' class"
  else
    fun s =>
      let s' := {| self := self s; requests := requests s ++ [url];
                   warned := warned s |} in
      match parse E (length (requests s)) url with
      | NetworkFailure =>
          (Raise (Exn RemoteDataError
                    ("Unable to parse URL " ++ PyStr.repr url)), s')
      | ParseFailure e => (Raise e, s')
      | Parsed None =>
          (Raise (Exn RemoteDataError
                    ("Parsed URL " ++ PyStr.repr url ++ " has no rootelement")),
           s')
      | Parsed (Some root) => (Return root, s')
      end.

Definition _get_option_page_from_yahoo (expiry : date) : Py element :=
  fun s =>
    let url := _OPTIONS_BASE_URL (symbol (self s)) in
    let m1 := _two_char_month (d_month expiry) in
    let url :=
      if (d_month expiry =? CUR_MONTH E) && (d_year expiry =? CUR_YEAR E)
      then url ++ "+Options"
      else url ++ "&m=" ++ PyStr.str_of_Z (d_year expiry) ++ "-" ++ m1 in
    _parse_url url s.

Definition _get_underlying_price (root : element) : outcome (value * value) :=
  obind (getitem (xpath_class "time_rtq_ticker" root) 0) (fun ticker =>
  obind (getitem (getchildren ticker) 0) (fun ticker0 =>
  obind (py_float (text ticker0)) (fun underlying_price =>
  obind (getitem (xpath_class "time_rtq" root) 0) (fun rtq =>
  obind (getitem (getchildren rtq) 0) (fun rtq0 =>
  let quote_time_text := text rtq0 in
  obind
    (if negb (String.eqb (opt_str quote_time_text) "") then
       let split := PyStr.split "," (opt_str quote_time_text) in
       obind (getitem split 1) (fun split1 =>
       let timesplit := PyStr.split ":" (PyStr.strip split1) in
       obind (getitem split 0) (fun split0 =>
       obind (getitem timesplit 0) (fun timesplit0 =>
       obind (getitem timesplit 1) (fun timesplit1 =>
       let timestring :=
         split0 ++ ", " ++ PyStr.zfill 2 timesplit0 ++ ":" ++ timesplit1 in
       obind (strptime E timestring "%b %d, %H:%M%p EDT") (fun quote_time =>
       replace_date quote_time (CUR_YEAR E)
                    (t_month quote_time) (t_day quote_time))))))
     else
       obind (getitem (xpath_class "time_rtq" root) 0) (fun rtq' =>
       obind (getitem (getchildren rtq') 0) (fun rtq0' =>
       obind (getitem (getchildren rtq0') 0) (fun rtq00 =>
       match text rtq00 with
       | None => Raise (Exn TypeError "strptime() argument 1 must be str")
       | Some quote_time_text =>
           obind (strptime E quote_time_text "%H:%M%p EDT") (fun quote_time =>
           replace_date quote_time (CUR_YEAR E) (CUR_MONTH E) (CUR_DAY E))
       end))))
    (fun quote_time =>
  Return (VFloat underlying_price, VTime quote_time))))))).

Definition _parse_option_page_from_yahoo (root : element)
  : Py (list element) :=
  let tables := xpath_tag "table" root in
  let ntables := length tables in
  if (ntables =? 0)%nat then raise RemoteDataError "No tables found"
  else
    _ <- try_except
           (pq <- lift (_get_underlying_price root) ;;
            _ <- setattr "underlying_price" (AValue (fst pq)) ;;
            setattr "quote_time" (AValue (snd pq)))
           (fun c => exn_class_eqb c IndexError)
           (fun _ =>
              _ <- setattr "underlying_price" (AValue NaN) ;;
              setattr "quote_time" (AValue NaN)) ;;
    ret tables.

Definition _get_option_tables (expiry : date) : Py (list element) :=
  root <- _get_option_page_from_yahoo expiry ;;
  tables <- _parse_option_page_from_yahoo root ;;
  let m1 := _two_char_month (d_month expiry) in
  let table_name :=
    "_tables" ++ m1
    ++ PyStr.str_slice (Some (-2)) None (PyStr.str_of_Z (d_year expiry)) in
  _ <- setattr table_name (ATables tables) ;;
  ret tables.

(** The message of the validation error of [_try_parse_dates]. *)
Definition msg : string :=
  "You must specify either (`year` and `month`) or `expiry` "
  ++ "or none of these options for the current month.".

Definition _try_parse_dates (year month : option Z) (expiry : option date)
  : Py (Z * Z * date) :=
  (* Python reads [a or b and c] as [a or (b and c)] *)
  if (bool_decide (month ≠ None) && bool_decide (year = None))
     || ((bool_decide (month = None) && bool_decide (year ≠ None))
         && bool_decide (expiry = None))
  then
    raise ValueError msg
  else
    _ <- (if (bool_decide (year ≠ None) || bool_decide (month ≠ None))
             && bool_decide (expiry = None)
          then warn "month, year arguments are deprecated, use expiry instead"
          else ret tt) ;;
    match expiry, year, month with
    | Some expiry, _, _ => ret (d_year expiry, d_month expiry, expiry)
    | None, None, None =>
        let year := CUR_YEAR E in
        let month := CUR_MONTH E in
        expiry <- lift (first_of_month year month) ;;
        ret (year, month, expiry)
    | None, Some year, Some month =>
        expiry <- lift (first_of_month year month) ;;
        ret (year, month, expiry)
    | None, _, _ =>
        (* excluded by the first test *)
        raise TypeError "an integer is required"
    end.

(** [self.underlying_price] and the like: an attribute holding a value. *)
Definition getattr_value (name : string) : Py value :=
  a <- getattr name ;; attr_value a.

(** [self.symbol] *)
Definition get_symbol : Py string := fun s => (Return (symbol (self s)), s).

Definition _process_data (frame : Frame.DataFrame) (type : string)
  : Py Frame.DataFrame :=
  symbol_col <- lift (Frame.getattr "Symbol" frame) ;;
  let frame :=
    Frame.setitem (VStr "Rootexp")
      (Frame.str_slice (Some 0) (Some (-9)) symbol_col) frame in
  rootexp <- lift (Frame.getattr "Rootexp" frame) ;;
  let frame :=
    Frame.setitem (VStr "Root")
      (Frame.str_slice (Some 0) (Some (-6)) rootexp) frame in
  rootexp <- lift (Frame.getattr "Rootexp" frame) ;;
  expiry <- lift (to_datetime E (Frame.str_slice (Some (-6)) None rootexp)) ;;
  let frame := Frame.setitem (VStr "Expiry") expiry frame in
  root <- lift (Frame.getitem (VStr "Root") frame) ;;
  sym <- get_symbol ;;
  let frame :=
    Frame.setitem (VStr "IsNonstandard")
      (Frame.ne_str (PyStr.remove_char "-" sym) root) frame in
  frame <- lift (Frame.delitem (VStr "Rootexp") frame) ;;
  let frame := Frame.setitem_scalar (VStr "Underlying") (VStr sym) frame in
  underlying_price <- getattr_value "underlying_price" ;;
  let frame :=
    Frame.setitem_scalar (VStr "Underlying_Price") underlying_price frame in
  quote_time <- getattr_value "quote_time" ;;
  let frame := Frame.setitem_scalar (VStr "Quote_Time") quote_time frame in
  let frame := Frame.rename (VStr "Open Int") (VStr "Open_Int") frame in
  let frame := Frame.setitem_scalar (VStr "Type") (VStr type) frame in
  lift (Frame.set_index
          [VStr "Strike"; VStr "Expiry"; VStr "Type"; VStr "Symbol"] frame).

(** [self._TABLE_LOC[name]] *)
Definition table_loc_of (name : string) : outcome Z :=
  match List.find (fun kv => String.eqb (fst kv) name) _TABLE_LOC with
  | Some kv => Return (snd kv)
  | None => Raise (Exn KeyError (PyStr.repr name))
  end.

(** [len(tables)] and [tables[i]] on the attribute read from the cache;
    only lists of tables are ever stored under the cache names. *)
Definition as_tables (a : attr) : Py (list element) :=
  match a with
  | ATables ts => ret ts
  | _ => raise TypeError "not a list of tables"
  end.

Definition _get_option_data (month year : option Z) (expiry : option date)
  (name : string) : Py Frame.DataFrame :=
  ymd <- _try_parse_dates year month expiry ;;
  let '(year, month, expiry) := ymd in
  let m1 := _two_char_month month in
  let yy := PyStr.str_slice (Some (-2)) None (PyStr.str_of_Z year) in
  let table_name := "_tables" ++ m1 ++ yy in
  cached <- try_except
              (getattr table_name)
              (fun c => exn_class_eqb c AttributeError)
              (fun _ => ts <- _get_option_tables expiry ;; ret (ATables ts)) ;;
  tables <- as_tables cached ;;
  let ntables := Z.of_nat (length tables) in
  table_loc <- lift (table_loc_of name) ;;
  if table_loc - 1 >? ntables then
    raise RemoteDataError
      ("Table location " ++ PyStr.str_of_Z table_loc ++ " invalid, "
       ++ PyStr.str_of_Z ntables ++ " tables found")
  else
    try_except
      (table <- lift (getitem tables (Z.to_nat table_loc)) ;;
       option_data <- lift (_parse_options_data E table) ;;
       let side := PyStr.str_slice None (Some (-1)) name in
       let option_data :=
         Frame.setitem_scalar (VStr "Type") (VStr side) option_data in
       option_data <- _process_data option_data side ;;
       _ <- (if (month =? CUR_MONTH E) && (year =? CUR_YEAR E)
             then setattr name (AFrame option_data)
             else ret tt) ;;
       let name := name ++ m1 ++ yy in
       _ <- setattr name (AFrame option_data) ;;
       ret option_data)
      (fun _ => true)
      (fun e =>
         raise RemoteDataError ("Cannot retrieve Table data " ++ exn_msg e)).

Definition get_call_data (month year : option Z) (expiry : option date)
  : Py Frame.DataFrame :=
  df <- _get_option_data month year expiry "calls" ;;
  ret (sortlevel E df).

Definition get_put_data (month year : option Z) (expiry : option date)
  : Py Frame.DataFrame :=
  df <- _get_option_data month year expiry "puts" ;;
  ret (sortlevel E df).

(** [np.isnan(v)] on a scalar. *)
Definition np_isnan (v : value) : outcome bool :=
  match v with
  | VFloat f => Return (PyFloat.is_nan f)
  | VInt _ | VBool _ => Return false
  | _ => Raise (Exn TypeError "ufunc 'isnan' not supported for the input types")
  end.

(** A number as numpy compares it with another: exactly when both are
    integers, as binary64 otherwise. *)
Inductive number := NumZ (n : Z) | NumF (f : float).

Definition as_number (v : value) : outcome number :=
  match v with
  | VInt n => Return (NumZ n)
  | VBool b => Return (NumZ (if b then 1 else 0))
  | VFloat f => Return (NumF f)
  | _ => Raise (Exn TypeError "unorderable types")
  end.

Definition num_float (n : number) : float :=
  match n with
  | NumZ n => PyFloat.of_Z n
  | NumF f => f
  end.

(** [strike > price] for one entry of the Strike level. *)
Definition gt (strike price : value) : outcome bool :=
  obind (as_number strike) (fun a =>
  obind (as_number price) (fun b =>
  match a, b with
  | NumZ x, NumZ y => Return (x >? y)
  | _, _ => Return (PrimFloat.ltb (num_float b) (num_float a))
  end)).

(** [strikes > price] on the whole Strike level. *)
Fixpoint above (price : value) (strikes : list value)
  : outcome (list bool) :=
  match strikes with
  | [] => Return []
  | k :: strikes' =>
      obind (gt k price) (fun b =>
      obind (above price strikes') (fun bs => Return (b :: bs)))
  end.

(** [np.where(mask)[0][0]]: the first position where the mask holds. *)
Fixpoint first_true (mask : list bool) (i : Z) : outcome Z :=
  match mask with
  | [] =>
      Raise (Exn IndexError
               "index 0 is out of bounds for axis 0 with size 0")
  | b :: mask' => if b then Return i else first_true mask' (i + 1)
  end.

Definition chop_data (df : Frame.DataFrame) (above_below : Z)
  (underlying_price : value) : Py Frame.DataFrame :=
  underlying_price <-
    (if negb (truthy underlying_price) then
       try_except (getattr_value "underlying_price")
         (fun c => exn_class_eqb c AttributeError)
         (fun _ => ret NaN)
     else ret underlying_price) ;;
  isnan <- lift (np_isnan underlying_price) ;;
  if negb isnan then
    strikes <- lift (Frame.get_level_values (VStr "Strike") df) ;;
    mask <- lift (above underlying_price strikes) ;;
    start_index <- lift (first_true mask 0) ;;
    let df :=
      Frame.row_slice (start_index - above_below)
        (start_index + above_below + 1) df in
    ret (Frame.dropna_all df)
  else ret df.

End OptionsClass.

(** ** The cell rule of the table parser *)

(** The text between a pair of double quotes, if the cell is quoted. *)
Definition unquote (s : string) : option string :=
  let q := ascii_of_nat 34 in
  match list_ascii_of_string s with
  | c :: l =>
      match rev l with
      | d :: m =>
          if Ascii.eqb c q && Ascii.eqb d q
          then Some (string_of_list_ascii (rev m)) else None
      | [] => None
      end
  | [] => None
  end.

(** Modelled from the spec: the value [TextParser] (pandas.io.parsers, not
    part of the sources) gives to one cell, called as in
    [_parse_options_data] with [na_values=['N/A']] and [thousands=',']. A
    cell that [_unpack] already turned into a float is kept; "a
    quoted-string cell is taken literally; otherwise attempt numeric parse,
    falling back to not-a-number on failure". *)
Definition cell_value (na_values : list string) (thousands : ascii)
  (v : value) : value :=
  match v with
  | VStr s =>
      if bool_decide (s ∈ na_values) then NaN
      else
        match unquote s with
        | Some q => VStr q
        | None =>
            match PyFloat.of_string (PyStr.remove_char thousands s) with
            | Some f => VFloat f
            | None => NaN
            end
        end
  | _ => v
  end.

(** The row-cell parsing rule: [_parse_row_values] on the cell of the page,
    then the parser's rule with the arguments [_parse_options_data] passes. *)
Definition parse_cell (val : element) : value :=
  cell_value ["N/A"] ","%char (_parse_row_values val).

(** ** A sample environment

    A concrete clock, page and set of library stand-ins, on which the
    methods can be run. *)

Module Sample.

(** Whether the parser's rule reads the cell as a number or as empty. *)
Definition numeric_cell (na_values : list string) (thousands : ascii)
  (v : value) : bool :=
  match v with
  | VStr s =>
      bool_decide (s ∈ na_values)
      || bool_decide (is_Some (PyFloat.of_string (PyStr.remove_char thousands s)))
  | _ => true
  end.

(** A column of numbers is converted by [cell_value]; a column with some
    other text keeps its text, its empty cells apart. *)
Definition convert_column (na_values : list string) (thousands : ascii)
  (vs : list value) : list value :=
  if forallb (numeric_cell na_values thousands) vs
  then List.map (cell_value na_values thousands) vs
  else List.map (fun v => match v with
                          | VStr s =>
                              if bool_decide (s ∈ na_values) then NaN else v
                          | _ => v
                          end) vs.

(** The stand-in for [TextParser(..).get_chunk()]: one column per name,
    short rows padded with empty cells, the default index. *)
Definition text_parser (data : list (list value)) (names : list value)
  (na_values : list string) (thousands : ascii)
  : outcome Frame.DataFrame :=
  Return
    (Frame.Build (Frame.default_index (length data))
       (imap (fun j name =>
                (name,
                 convert_column na_values thousands
                   (List.map (fun row => default NaN (row !! j)) data)))
             names)).

Definition two_digits (s : string) : option Z :=
  match list_ascii_of_string s with
  | [a; b] =>
      match PyFloat.digit_of a, PyFloat.digit_of b with
      | Some x, Some y => Some (Z.of_N (10 * x + y))
      | _, _ => None
      end
  | _ => None
  end.

Definition bad_time (text format : string) : exn :=
  Exn ValueError
    ("time data " ++ PyStr.repr text ++ " does not match format "
     ++ PyStr.repr format).

(** The stand-in for [strptime]: it reads the two layouts the module
    uses, [HH:MMpm EDT] and [Mon DD, HH:MMpm EDT] with two-digit fields,
    in the default year 1900. *)
Definition clock (text : string) : option (Z * Z) :=
  match two_digits (PyStr.str_slice (Some 0) (Some 2) text),
        two_digits (PyStr.str_slice (Some 3) (Some 5) text) with
  | Some h, Some m =>
      if String.eqb (PyStr.str_slice (Some 2) (Some 3) text) ":"
         && bool_decide (PyStr.lower (PyStr.str_slice (Some 5) None text)
                         ∈ ["am edt"; "pm edt"])
         && (h <? 24) && (m <? 60)
      then Some (h, m) else None
  | _, _ => None
  end.

Definition months : list string :=
  ["jan"; "feb"; "mar"; "apr"; "may"; "jun";
   "jul"; "aug"; "sep"; "oct"; "nov"; "dec"].

Fixpoint month_number (name : string) (l : list string) (i : Z) : option Z :=
  match l with
  | [] => None
  | m :: l' => if String.eqb m name then Some i else month_number name l' (i + 1)
  end.

Definition read_time (text format : string) : outcome datetime :=
  if String.eqb format "%H:%M%p EDT" then
    match clock text with
    | Some (h, m) => Return (Datetime 1900 1 1 h m)
    | None => Raise (bad_time text format)
    end
  else if String.eqb format "%b %d, %H:%M%p EDT" then
    match month_number (PyStr.lower (PyStr.str_slice (Some 0) (Some 3) text))
                       months 1,
          two_digits (PyStr.str_slice (Some 4) (Some 6) text),
          clock (PyStr.str_slice (Some 8) None text) with
    | Some mo, Some d, Some (h, m) =>
        if String.eqb (PyStr.str_slice (Some 3) (Some 4) text) " "
           && String.eqb (PyStr.str_slice (Some 6) (Some 8) text) ", "
           && (1 <=? d) && (d <=? days_in_month 1900 mo)
        then Return (Datetime 1900 mo d h m)
        else Raise (bad_time text format)
    | _, _, _ => Raise (bad_time text format)
    end
  else Raise (bad_time text format).

(** The stand-in for [to_datetime]: a six-digit [YYMMDD] text becomes the
    date, anything else is returned as it is. *)
Definition to_date (v : value) : value :=
  match v with
  | VStr s =>
      match two_digits (PyStr.str_slice (Some 0) (Some 2) s),
            two_digits (PyStr.str_slice (Some 2) (Some 4) s),
            two_digits (PyStr.str_slice (Some 4) (Some 6) s) with
      | Some y, Some m, Some d =>
          if (String.length s =? 6)%nat then VDate (Date (2000 + y) m d)
          else v
      | _, _, _ => v
      end
  | _ => v
  end.

Definition to_dates (vs : list value) : outcome (list value) :=
  Return (List.map to_date vs).

Definition leaf (tag : string) (cls : option string) (text : string)
  : element :=
  Element tag (match cls with Some c => [("class", c)] | None => [] end)
          (Some text) [] None.

Definition node (tag : string) (cls : option string)
  (children : list element) : element :=
  Element tag (match cls with Some c => [("class", c)] | None => [] end)
          None children None.

Definition th (text : string) : element := leaf "th" None text.
Definition td (text : string) : element := leaf "td" None text.
(** A cell shown with the red arrow of a falling price. *)
Definition td_neg (text : string) : element :=
  node "td" None [leaf "b" (Some "neg_arrow") text].

Definition header_row : element :=
  node "tr" None
    [th "Strike"; th "Symbol"; th "Last"; th "Chg"; th "Bid"; th "Ask";
     th "Vol"; th "Open Int"].

Definition option_row (strike symbol last : string) (chg : element)
  (bid ask vol open_int : string) : element :=
  node "tr" None
    [td strike; td symbol; td last; chg; td bid; td ask; td vol;
     td open_int].

Definition calls_table : element :=
  node "table" None
    [header_row;
     option_row "85.00" "AAPL140621C00085000" "7.10" (td "0.35")
                "7.05" "7.15" "1,234" "5,021";
     option_row "90.00" "AAPL140621C00090000" "2.45" (td_neg "0.10")
                "2.44" "2.47" "310" "N/A";
     option_row "95.00" "AAPL7140621C00095000" "0.31" (td_neg "0.02")
                "0.30" "0.32" "12" "48"].

Definition puts_table : element :=
  node "table" None
    [header_row;
     option_row "85.00" "AAPL140621P00085000" "0.20" (td_neg "0.05")
                "0.19" "0.21" "42" "900";
     option_row "90.00" "AAPL140621P00090000" "1.02" (td "0.12")
                "1.00" "1.03" "7" "N/A"].

Definition filler : element := node "table" None [].

Definition quote_box : list element :=
  [node "span" (Some "time_rtq_ticker") [leaf "span" None "91.28"];
   node "span" (Some "time_rtq")
     [leaf "span" None "Jun 02, 04:00PM EDT"]].

(** A page laid out as the module expects: the calls in the table at
    position 9, the puts in the table at position 13. *)
Definition tables14 : list element :=
  replicate 9 filler ++ [calls_table] ++ replicate 3 filler ++ [puts_table].

Definition page : element :=
  node "html" None [node "body" None (quote_box ++ tables14)].

(** The same page without the quote box. *)
Definition page_without_quote : element :=
  node "html" None [node "body" None tables14].

(** A page whose ticker shows no price and that has no quote time. *)
Definition page_without_price : element :=
  node "html" None
    [node "body" None
       (node "span" (Some "time_rtq_ticker") [leaf "span" None "N/A"]
        :: tables14)].

(** A page with [n] empty tables. *)
Definition page_of_tables (n : nat) : element :=
  node "html" None [node "body" None (replicate n filler)].

(** An environment serving [root] for every request, on 2 June 2014. *)
Definition env (root : element) : Env := {|
  CUR_MONTH := 6;
  CUR_YEAR := 2014;
  CUR_DAY := 2;
  lxml_installed := true;
  parse := fun _ _ => Parsed (Some root);
  strptime := read_time;
  to_datetime := to_dates;
  TextParser := text_parser;
  sortlevel := fun df => df
|}.

(** A fresh session on AAPL. *)
Definition aapl : State :=
  {| self := {| symbol := "AAPL"; dict := ∅ |};
     requests := []; warned := [] |}.

(** A processed table reduced to its Strike level and one price column. *)
Definition strike_table (strikes : list Z) : Frame.DataFrame :=
  Frame.Build [(VStr "Strike", List.map VInt strikes)]
              [(VStr "Last", List.map (fun _ => VFloat 1.5) strikes)].

(** Three cells of a table row. *)
Definition cell_fall : element := td_neg "1,234".
Definition cell_empty : element := td "N/A".
Definition cell_price : element := td "12.5".

Definition seven : Frame.DataFrame :=
  strike_table [10; 20; 30; 40; 50; 60; 70].

(** The frame a return projects out of an outcome. *)
Definition returned {A} (d : A) (o : outcome A) : A :=
  match o with
  | Return a => a
  | Raise _ => d
  end.

Definition empty_frame : Frame.DataFrame := Frame.Build [] [].

(** A session on BRK-B after a page was read, and a parsed table with one
    of its options. *)
Definition brk : State :=
  {| self := {| symbol := "BRK-B";
                dict := <["underlying_price" := AValue (VFloat 128.5)]>
                          (<["quote_time" := AValue NaN]> ∅) |};
     requests := ["http://finance.yahoo.com/q/op?s=BRK-B&m=2014-05"];
     warned := [] |}.

Definition brk_table : Frame.DataFrame :=
  Frame.Build (Frame.default_index 1)
    [(VStr "Strike", [VFloat 100]);
     (VStr "Symbol", [VStr "BRKB140517C00100000"]);
     (VStr "Last", [VFloat 28.5]);
     (VStr "Open Int", [VFloat 12])].

End Sample.

(** ** Notions used in the statements *)

(** The attribute under which [_get_option_tables] caches the tables of an
    expiry month, and under which [_get_option_data] looks them up. *)
Definition table_name (year month : Z) : string :=
  "_tables" ++ _two_char_month month
  ++ PyStr.str_slice (Some (-2)) None (PyStr.str_of_Z year).

(** The attribute holding the processed table of one side and month:
    [callsMMYY] or [putsMMYY]. *)
Definition side_month_name (name : string) (year month : Z) : string :=
  name ++ _two_char_month month
  ++ PyStr.str_slice (Some (-2)) None (PyStr.str_of_Z year).

(** The session after the snapshot of the underlying was set to the price
    [p] and the quote time [q]. *)
Definition with_snapshot (p q : value) (s : State) : State :=
  {| self := {| symbol := symbol (self s);
                dict := <["quote_time" := AValue q]>
                          (<["underlying_price" := AValue p]> (dict (self s))) |};
     requests := requests s;
     warned := warned s |}.

(** The part of [_get_option_data] that follows the look-up or the fetch of
    the tables: the choice of the table of the side [name], its parsing and
    the storing of the result. *)
Definition table_data (E : Env) (year month : Z) (name : string)
  (tables : list element) : Py Frame.DataFrame :=
  let m1 := _two_char_month month in
  let yy := PyStr.str_slice (Some (-2)) None (PyStr.str_of_Z year) in
  let ntables := Z.of_nat (length tables) in
  table_loc <- lift (table_loc_of name) ;;
  if table_loc - 1 >? ntables then
    raise RemoteDataError
      ("Table location " ++ PyStr.str_of_Z table_loc ++ " invalid, "
       ++ PyStr.str_of_Z ntables ++ " tables found")
  else
    try_except
      (table <- lift (getitem tables (Z.to_nat table_loc)) ;;
       option_data <- lift (_parse_options_data E table) ;;
       let side := PyStr.str_slice None (Some (-1)) name in
       let option_data :=
         Frame.setitem_scalar (VStr "Type") (VStr side) option_data in
       option_data <- _process_data E option_data side ;;
       _ <- (if (month =? CUR_MONTH E) && (year =? CUR_YEAR E)
             then setattr name (AFrame option_data)
             else ret tt) ;;
       let name := name ++ m1 ++ yy in
       _ <- setattr name (AFrame option_data) ;;
       ret option_data)
      (fun _ => true)
      (fun e =>
         raise RemoteDataError ("Cannot retrieve Table data " ++ exn_msg e)).

(** The Strike level of a frame. *)
Definition strikes_of (df : Frame.DataFrame) : option (list value) :=
  Frame.lookup (VStr "Strike") (Frame.index df).

(** The price [chop_data] ends up filtering with, for the argument [u] on
    the session [s]: the argument when it is truthy; otherwise the price
    stored on the session, and not-a-number when the session has none. *)
Definition price_in_effect (u : value) (s : State) : option value :=
  if truthy u then Some u
  else match dict (self s) !! "underlying_price" with
       | Some (AValue p) => Some p
       | Some _ => None
       | None => Some NaN
       end.

(** The root [_process_data] decodes from an option symbol: the symbol
    without its last nine characters, then without the six before them. *)
Definition root_of (option_symbol : string) : string :=
  PyStr.str_slice (Some 0) (Some (-6))
    (PyStr.str_slice (Some 0) (Some (-9)) option_symbol).

(** The value [_process_data] gives to [IsNonstandard] on a row with the
    option symbol [option_symbol], in a session on [session_symbol]: whether
    the decoded root differs from the session's symbol without its hyphens.
    A cell that is not a string has no root and counts as different. *)
Definition is_nonstandard (session_symbol : string) (option_symbol : value)
  : value :=
  match option_symbol with
  | VStr o =>
      VBool (negb (String.eqb (root_of o)
                     (PyStr.remove_char "-" session_symbol)))
  | _ => VBool true
  end.

(** A method keeps a relation [R] on states when every run, returning or
    raising, ends in a state related to the one it started from. *)
Definition keeps (R : relation State) {A} (m : Py A) : Prop :=
  forall s, R s (snd (m s)).

(** The same requests were made. *)
Definition same_requests : relation State :=
  fun s s' => requests s' = requests s.

(** The attribute [k] holds the same value, or is absent in both. *)
Definition same_attr (k : string) : relation State :=
  fun s s' => dict (self s') !! k = dict (self s) !! k.

(** The instance is the same. *)
Definition same_self : relation State :=
  fun s s' => self s' = self s.

(** The address of the options page of a month: the default view for the
    current month, the view of the month otherwise. *)
Definition page_url (E : Env) (sym : string) (year month : Z) : string :=
  _OPTIONS_BASE_URL sym
  ++ (if (month =? CUR_MONTH E) && (year =? CUR_YEAR E)
      then "+Options"
      else "&m=" ++ PyStr.str_of_Z year ++ "-" ++ _two_char_month month).

(** Two states agree on what the processing of a table reads from the
    session: the symbol and the snapshot of the underlying. *)
Definition same_snapshot : relation State :=
  fun s t =>
    symbol (self s) = symbol (self t)
    /\ dict (self s) !! "underlying_price" = dict (self t) !! "underlying_price"
    /\ dict (self s) !! "quote_time" = dict (self t) !! "quote_time".

(** The symbol of the session is the same. *)
Definition same_symbol : relation State :=
  fun s s' => symbol (self s') = symbol (self s).

(** What the methods keep true of the session: under every cache name there
    is a non-empty list of tables, and as soon as some tables are cached the
    snapshot of the underlying is set. *)
Definition cache_wf (s : State) : Prop :=
  forall y m a,
    dict (self s) !! table_name y m = Some a ->
    (exists ts, a = ATables ts /\ ts <> [])
    /\ (exists p q,
          dict (self s) !! "underlying_price" = Some (AValue p)
          /\ dict (self s) !! "quote_time" = Some (AValue q)).

(** ** Chunks of a sequence *)

(** The number of items of [range(start, stop, step)] for a step that is
    not zero. *)
Definition range_length (start stop step : Z) : nat :=
  if 0 <? step then
    (if start <? stop then Z.to_nat ((stop - start - 1) / step + 1) else 0%nat)
  else
    (if stop <? start then Z.to_nat ((start - stop - 1) / (- step) + 1)
     else 0%nat).

(** [range(start, stop, step)] *)
Definition py_range (start stop step : Z) : outcome (list Z) :=
  if step =? 0 then Raise (Exn ValueError "range() arg 3 must not be zero")
  else
    Return (List.map (fun i => start + Z.of_nat i * step)
              (seq 0 (range_length start stop step))).

(** [_in_chunks(seq, size)]: the chunks, in the order the generator yields
    them; the range is built when the function is called. *)
Definition _in_chunks {A} (seq : list A) (size : Z) : outcome (list (list A)) :=
  obind (py_range 0 (Z.of_nat (length seq)) size) (fun positions =>
  Return (List.map (fun pos => PyStr.slice (Some pos) (Some (pos + size)) seq)
            positions)).


(** ** The months ahead *)


(** The position a list index designates; a negative index counts from the
    end. *)
Definition list_position (len : nat) (i : Z) : option nat :=
  let j := if i <? 0 then i + Z.of_nat len else i in
  if (0 <=? j) && (j <? Z.of_nat len) then Some (Z.to_nat j) else None.

(** [l[i]] *)
Definition list_get {A} (l : list A) (i : Z) : outcome A :=
  match list_position (length l) i with
  | Some j => getitem l j
  | None => Raise (Exn IndexError "list index out of range")
  end.


(** [for x in items: body], the body acting on the variables [st]. *)
Fixpoint for_each {A S} (body : A -> S -> outcome S) (items : list A) (st : S)
  : outcome S :=
  match items with
  | [] => Return st
  | x :: items' => obind (body x st) (for_each body items')
  end.






(** ** Both sides at once *)

Section Retrieval.

Variable E : Env.

(** [pandas.concat] on a list of frames. *)
Variable concat : list Frame.DataFrame -> outcome Frame.DataFrame.

Definition get_options_data (month year : option Z) (expiry : option date)
  : Py Frame.DataFrame :=
  puts <- get_put_data E month year expiry ;;
  calls <- get_call_data E month year expiry ;;
  both <- lift (concat [puts; calls]) ;;
  ret (sortlevel E both).

(** [Series({'calls': call, 'puts': put})] indexed by itself: the labels of
    the entries that hold, in the order of the sorted keys. *)
Definition selected (call put : bool) : list string :=
  ((if call then ["calls"] else []) ++ (if put then ["puts"] else []))%list.

(** The loop of [get_near_stock_price] over the selected sides. *)
Fixpoint near_data (above_below : Z) (month year : option Z)
  (expiry : option date) (names : list string) : Py (list Frame.DataFrame) :=
  match names with
  | [] => ret []
  | nam :: names' =>
      df <- _get_option_data E month year expiry nam ;;
      underlying_price <- getattr_value "underlying_price" ;;
      chopped <- chop_data df above_below underlying_price ;;
      others <- near_data above_below month year expiry names' ;;
      ret (chopped :: others)
  end.

Definition get_near_stock_price (above_below : Z) (call put : bool)
  (month year : option Z) (expiry : option date) : Py Frame.DataFrame :=
  data <- near_data above_below month year expiry (selected call put) ;;
  both <- lift (concat data) ;;
  ret (sortlevel E both).

End Retrieval.

(** ** Historical prices *)

(** What a retrieval over the network comes to. [IOError] is what
    [_retry_read_url] raises when it gives up, and what [_dl_mult_symbols]
    turns into a missing entry; an exception of the classes of [exn_class]
    is [Failed]. *)
Inductive retrieval (A : Type) :=
| Retrieved (a : A)
| IOError (msg : string)
| Failed (e : exn).
Arguments Retrieved {A} a.
Arguments IOError {A} msg.
Arguments Failed {A} e.

(** What [urlopen(url)] followed by [resp.read()] comes to. *)
Inductive response :=
| NetworkError                      (* one of [_network_error_classes] *)
| OtherFailure (e : exn)            (* any other exception *)
| Body (lines : string).

(** [a == b] on two cells: numbers by value, the rest by kind and
    content. *)
Definition py_eq (a b : value) : bool :=
  match as_number a, as_number b with
  | Return x, Return y =>
      match x, y with
      | NumZ x, NumZ y => x =? y
      | _, _ => PrimFloat.eqb (num_float x) (num_float y)
      end
  | _, _ => value_eqb a b
  end.

(** [rs.index[i] == rs.index[j]] *)
Definition index_eq_at (rs : Frame.DataFrame) (i j : Z) : bool :=
  forallb (fun level =>
             match list_get (snd level) i, list_get (snd level) j with
             | Return a, Return b => py_eq a b
             | _, _ => false
             end) (Frame.index rs).

(** The end of [_retry_read_url]: the last row is dropped when it carries
    the same index entry as the row before it, in a table of more than two
    rows. *)
Definition drop_repeated_last (rs : Frame.DataFrame) : Frame.DataFrame :=
  if (Z.of_nat (Frame.nrows rs) >? 2) && index_eq_at rs (-1) (-2)
  then Frame.map_rows (PyStr.slice None (Some (-1))) rs
  else rs.

Section RetryReadUrl.

Context {T : Type}.

(** [time.sleep(pause)] *)
Variable sleep : T -> outcome unit.
(** [urlopen(url)] and the reading of the response; the first argument
    counts the requests made before. *)
Variable urlopen : nat -> string -> response.
(** [read_csv(StringIO(bytes_to_str(lines)), index_col=0,
    parse_dates=True)] *)
Variable read_csv : string -> outcome Frame.DataFrame.

(** The loop of [_retry_read_url], for the turns it has left and the
    number of requests made so far; [None] when it runs out. *)
Fixpoint retry_loop (turns : nat) (url : string) (pause : T) (made : nat)
  : option (retrieval Frame.DataFrame) * nat :=
  match turns with
  | O => (None, made)
  | S turns' =>
      match sleep pause with
      | Raise e => (Some (Failed e), made)
      | Return _ =>
          match urlopen made url with
          | NetworkError => retry_loop turns' url pause (S made)
          | OtherFailure e => (Some (Failed e), S made)
          | Body lines =>
              match read_csv lines with
              | Raise e => (Some (Failed e), S made)
              | Return rs =>
                  (Some (Retrieved
                           (drop_repeated_last
                              (Frame.map_rows (@rev value) rs))),
                   S made)
              end
          end
      end
  end.

Definition _retry_read_url (url : string) (retry_count : Z) (pause : T)
  (name : string) (made : nat) : retrieval Frame.DataFrame * nat :=
  match retry_loop (Z.to_nat retry_count) url pause made with
  | (Some r, made') => (r, made')
  | (None, made') =>
      (IOError ("after " ++ PyStr.str_of_Z retry_count ++ " tries, " ++ name
                ++ " did not return a 200 for url " ++ PyStr.repr url),
       made')
  end.

End RetryReadUrl.

Section DlMultSymbols.

Context {A P : Type}.

(** [method(sym, start, end, retry_count, pause)]; the first argument
    counts the calls made before. *)
Variable method : nat -> string -> retrieval A.
(** [method.__name__] *)
Variable method_name : string.
(** [Panel(stocks).swapaxes('items', 'minor')] *)
Variable Panel : gmap string (option A) -> outcome P.

(** The variables of the loop: [stocks], an entry being [None] where the
    code stores not-a-number, the warnings issued and the calls made. *)
Record Download := {
  dl_stocks : gmap string (option A);
  dl_warnings : list string;
  dl_calls : nat
}.

(** [warnings.warn(...)] and [stocks[sym] = np.nan], the handler of
    [except IOError]. *)
Definition dl_missing (sym : string) (st : Download) : Download :=
  {| dl_stocks := <[sym := None]> (dl_stocks st);
     dl_warnings :=
       dl_warnings st
       ++ ["Failed to read symbol: " ++ PyStr.repr sym
           ++ ", replacing with NaN."];
     dl_calls := S (dl_calls st) |}.

(** The body of the inner loop of [_dl_mult_symbols]. [except IOError]
    also catches [RemoteDataError], which the module derives from
    [IOError]. *)
Definition dl_symbol (sym : string) (st : Download) : outcome Download :=
  match method (dl_calls st) sym with
  | Retrieved a =>
      Return {| dl_stocks := <[sym := Some a]> (dl_stocks st);
                dl_warnings := dl_warnings st;
                dl_calls := S (dl_calls st) |}
  | IOError _ => Return (dl_missing sym st)
  | Failed e =>
      if exn_class_eqb (exn_cls e) RemoteDataError
      then Return (dl_missing sym st)
      else Raise e
  end.

(** The end of [_dl_mult_symbols]: the panel of what was retrieved. *)
Definition dl_panel (st : Download) : outcome (P * list string) :=
  match Panel (dl_stocks st) with
  | Return p => Return (p, dl_warnings st)
  | Raise e =>
      if exn_class_eqb (exn_cls e) AttributeError
      then Raise (Exn RemoteDataError
                    ("No data fetched using " ++ PyStr.repr method_name))
      else Raise e
  end.

(** [_dl_mult_symbols]: the panel and the warnings issued on the way. *)
Definition _dl_mult_symbols (symbols : list string) (chunksize : Z)
  (made : nat) : outcome (P * list string) :=
  obind (_in_chunks symbols chunksize) (fun groups =>
  obind (for_each (for_each dl_symbol) groups
           {| dl_stocks := ∅; dl_warnings := []; dl_calls := made |})
    dl_panel).

End DlMultSymbols.
(** * Properties *)

(** ** Running the monad *)

Lemma bind_Return {A B} (m : Py A) (k : A -> Py B) s a s1 :
  m s = (Return a, s1) -> bind m k s = k a s1.
Proof. intros H. unfold bind. rewrite H. reflexivity. Qed.

Lemma bind_Raise {A B} (m : Py A) (k : A -> Py B) s e s1 :
  m s = (Raise e, s1) -> bind m k s = (Raise e, s1).
Proof. intros H. unfold bind. rewrite H. reflexivity. Qed.

Lemma bind_inv {A B} (m : Py A) (k : A -> Py B) s b s' :
  bind m k s = (Return b, s') ->
  exists a s1, m s = (Return a, s1) /\ k a s1 = (Return b, s').
Proof.
  unfold bind. destruct (m s) as [[a|e] s1]; intros H.
  - exists a, s1. split; [reflexivity | exact H].
  - discriminate H.
Qed.

(** ** Data frames: labels and columns *)

Lemma value_eqb_eq (a b : value) : value_eqb a b = true <-> a = b.
Proof.
  split.
  - destruct a, b; simpl; try discriminate; try reflexivity; intros H.
    + f_equal. apply Bool.eqb_prop. exact H.
    + f_equal. apply Z.eqb_eq. exact H.
    + f_equal. apply FloatAxioms.Leibniz.eqb_spec. exact H.
    + f_equal. apply String.eqb_eq. exact H.
    + destruct d, d0. unfold date_eqb in H. simpl in H.
      repeat (apply andb_prop in H; destruct H as [H ?]).
      repeat match goal with X : (_ =? _) = true |- _ =>
        apply Z.eqb_eq in X end.
      subst. reflexivity.
    + destruct t, t0. unfold datetime_eqb in H. simpl in H.
      repeat (apply andb_prop in H; destruct H as [H ?]).
      repeat match goal with X : (_ =? _) = true |- _ =>
        apply Z.eqb_eq in X end.
      subst. reflexivity.
  - intros <-. destruct a; simpl; try reflexivity.
    + apply Bool.eqb_reflx.
    + apply Z.eqb_refl.
    + apply FloatAxioms.Leibniz.eqb_spec. reflexivity.
    + apply String.eqb_refl.
    + destruct d. unfold date_eqb. simpl. rewrite !Z.eqb_refl. reflexivity.
    + destruct t. unfold datetime_eqb. simpl. rewrite !Z.eqb_refl. reflexivity.
Qed.

Lemma lookup_map_snd k (f : list value -> list value) cols :
  Frame.lookup k (List.map (fun c => (fst c, f (snd c))) cols)
  = f <$> Frame.lookup k cols.
Proof.
  induction cols as [|[k' vs] cols IH]; simpl; [reflexivity|].
  destruct (value_eqb k' k); [reflexivity | exact IH].
Qed.

Lemma strikes_of_map_rows (f : list value -> list value) df :
  strikes_of (Frame.map_rows f df) = f <$> strikes_of df.
Proof. unfold strikes_of, Frame.map_rows. simpl. apply lookup_map_snd. Qed.

Lemma select_rows_all {A} (keep : nat -> bool) (l : list A) :
  (forall i, (i < length l)%nat -> keep i = true) ->
  Frame.select_rows keep l = l.
Proof.
  unfold Frame.select_rows. intros H.
  assert (G : forall (n : nat) (l : list A),
             (forall i, (i < length l)%nat -> keep (n + i)%nat = true) ->
             List.map snd
               (List.filter (fun p => keep (fst p)) (imap (fun i x => (n + i, x)%nat) l))
             = l).
  { clear. intros n l. revert n.
    induction l as [|x l IH]; intros n H; simpl; [reflexivity|].
    rewrite (H 0%nat) by (simpl; lia). simpl. f_equal.
    rewrite <- (IH (S n)) at 2.
    - f_equal. f_equal. apply imap_ext. intros i y _. simpl.
      f_equal. lia.
    - intros i Hi. replace (S n + i)%nat with (n + S i)%nat by lia.
      apply H. simpl. lia. }
  apply (G 0%nat). exact H.
Qed.

(** ** The near-price filter *)

(** C9. When the underlying price passed to [chop_data] is not-a-number the
    frame is returned as it was given, whatever the frame, the window size
    and the session: no row is filtered or dropped and nothing is raised. *)
Theorem C9_chop_data_nan_is_identity (df : Frame.DataFrame) (above_below : Z)
  (s : State) :
  chop_data df above_below NaN s = (Return df, s).
Proof. reflexivity. Qed.

(** Not-a-number is the only float [np.isnan] accepts, so the statement
    above covers every such price. *)
Lemma is_nan_unique (f : float) : PyFloat.is_nan f = true -> f = nan.
Proof.
  intros H. rewrite <- (FloatAxioms.SF2Prim_Prim2SF f).
  unfold PyFloat.is_nan in H. rewrite FloatAxioms.eqb_spec in H.
  destruct (Prim2SF f) as [sg|sg| |sg m e]; simpl in H;
    try discriminate H; try reflexivity.
  - destruct sg; discriminate H.
  - exfalso. unfold SFeqb, SFcompare in H.
    assert (He : IntDef.Z.compare e e = Eq) by apply Z.compare_refl.
    assert (Hm : PosDef.Pos.compare_cont Eq m m = Eq) by apply Pos.compare_refl.
    rewrite He, Hm in H. destruct sg; discriminate H.
Qed.

(** The first step of [chop_data] settles the price in effect and leaves
    the session as it is. *)
Lemma chop_data_first_step (u : value) (s : State) (q : value) :
  price_in_effect u s = Some q ->
  (if negb (truthy u) then
     try_except (getattr_value "underlying_price")
       (fun c => exn_class_eqb c AttributeError)
       (fun _ => ret NaN)
   else ret u) s
  = (Return q, s).
Proof.
  unfold price_in_effect. destruct (truthy u); cbn [negb]; cbv iota.
  - intros H. injection H as <-. reflexivity.
  - unfold try_except, getattr_value, bind, getattr. cbv beta.
    destruct (dict (self s) !! "underlying_price") as [[p|ts|f]|];
      intros H; try discriminate H; injection H as <-; reflexivity.
Qed.

(** With a price in effect that is not-a-number nothing is filtered. *)
Lemma chop_data_unfiltered df above_below u s q :
  price_in_effect u s = Some q ->
  np_isnan q = Return true ->
  chop_data df above_below u s = (Return df, s).
Proof.
  intros Hq Hn. unfold chop_data.
  rewrite (bind_Return _ _ _ _ _ (chop_data_first_step u s q Hq)).
  unfold bind, lift, ret. rewrite Hn. reflexivity.
Qed.

(** With a price in effect that is a number the result is the window
    around the first strike above that price, less the empty rows. *)
Lemma chop_data_window_of df above_below u s q ks mask :
  price_in_effect u s = Some q ->
  np_isnan q = Return false ->
  strikes_of df = Some ks ->
  above q ks = Return mask ->
  chop_data df above_below u s
  = match first_true mask 0 with
    | Return i =>
        (Return (Frame.dropna_all
                   (Frame.row_slice (i - above_below) (i + above_below + 1) df)),
         s)
    | Raise err => (Raise err, s)
    end.
Proof.
  intros Hq Hn Hk Hm. unfold chop_data.
  rewrite (bind_Return _ _ _ _ _ (chop_data_first_step u s q Hq)).
  unfold bind, ret, lift, Frame.get_level_values. rewrite Hn. simpl negb.
  cbv iota. unfold strikes_of in Hk. rewrite Hk, Hm.
  destruct (first_true mask 0); reflexivity.
Qed.

(** C10. A falsy [underlying_price] argument ([None], [0], [0.0]) is taken
    as absent and is never the price filtered with: the call behaves as the
    call with [None]. When the session has a price stored, that price is the
    one used: the frame is returned unchanged when it is not-a-number, and
    otherwise the result is the window around the first strike above the
    stored price, less the empty rows. When the session has no price the
    frame is returned unchanged and nothing is raised. *)
Theorem C10_chop_data_falsy_price (df : Frame.DataFrame) (above_below : Z)
  (u : value) (s : State) :
  truthy u = false ->
  chop_data df above_below u s = chop_data df above_below VNone s
  /\ (forall p, dict (self s) !! "underlying_price" = Some (AValue p) ->
                chop_data df above_below u s = chop_data df above_below p s)
  /\ (dict (self s) !! "underlying_price" = None ->
      chop_data df above_below u s = (Return df, s))
  /\ (forall p, dict (self s) !! "underlying_price" = Some (AValue p) ->
                np_isnan p = Return true ->
                chop_data df above_below u s = (Return df, s))
  /\ (forall p ks mask,
        dict (self s) !! "underlying_price" = Some (AValue p) ->
        np_isnan p = Return false ->
        strikes_of df = Some ks ->
        above p ks = Return mask ->
        chop_data df above_below u s
        = match first_true mask 0 with
          | Return i =>
              (Return (Frame.dropna_all
                         (Frame.row_slice (i - above_below)
                            (i + above_below + 1) df)),
               s)
          | Raise err => (Raise err, s)
          end).
Proof.
  intros Hu.
  assert (Hstored : forall p,
             dict (self s) !! "underlying_price" = Some (AValue p) ->
             price_in_effect u s = Some p).
  { intros p Hp. unfold price_in_effect. rewrite Hu, Hp. reflexivity. }
  split; [|split; [|split; [|split]]].
  - unfold chop_data. rewrite Hu. reflexivity.
  - intros p Hp. unfold chop_data.
    rewrite (bind_Return _ _ _ _ _ (chop_data_first_step u s p (Hstored p Hp))).
    assert (Hp' : price_in_effect p s = Some p).
    { unfold price_in_effect. rewrite Hp. destruct (truthy p); reflexivity. }
    rewrite (bind_Return _ _ _ _ _ (chop_data_first_step p s p Hp')).
    reflexivity.
  - intros Hnone. apply (chop_data_unfiltered df above_below u s NaN).
    + unfold price_in_effect. rewrite Hu, Hnone. reflexivity.
    + reflexivity.
  - intros p Hp Hn.
    exact (chop_data_unfiltered df above_below u s p (Hstored p Hp) Hn).
  - intros p ks mask Hp Hn Hk Hm.
    exact (chop_data_window_of df above_below u s p ks mask
             (Hstored p Hp) Hn Hk Hm).
Qed.

Lemma C10_chop_data_falsy_price_witness :
  truthy (VFloat 0) = false
  /\ chop_data Sample.seven 2 (VFloat 0)
       (with_snapshot (VInt 42) NaN Sample.aapl)
     = (Return (Frame.dropna_all (Frame.row_slice 2 7 Sample.seven)),
        with_snapshot (VInt 42) NaN Sample.aapl)
  /\ strikes_of (Frame.dropna_all (Frame.row_slice 2 7 Sample.seven))
     = Some (List.map VInt [30; 40; 50; 60; 70])
  /\ chop_data Sample.seven 2 (VFloat 0) Sample.aapl
     = (Return Sample.seven, Sample.aapl).
Proof.
  split; [reflexivity|].
  pose proof (C10_chop_data_falsy_price Sample.seven 2 (VFloat 0)
                (with_snapshot (VInt 42) NaN Sample.aapl) eq_refl)
    as (_ & _ & _ & _ & Hwindow).
  pose proof (C10_chop_data_falsy_price Sample.seven 2 (VFloat 0)
                Sample.aapl eq_refl) as (_ & _ & Habsent & _).
  split; [|split; [reflexivity|]].
  - exact (Hwindow (VInt 42) (List.map VInt [10; 20; 30; 40; 50; 60; 70])
             [false; false; false; false; true; true; true]
             eq_refl eq_refl eq_refl eq_refl).
  - exact (Habsent eq_refl).
Defined.

(** The falsy prices the interpreter knows: [None], [0], both zeros of
    the floats, [False]; not-a-number is not among them. *)
Lemma falsy_prices :
  truthy VNone = false /\ truthy (VInt 0) = false
  /\ truthy (VFloat 0) = false /\ truthy (VFloat neg_zero) = false
  /\ truthy (VBool false) = false /\ truthy NaN = true.
Proof. repeat split. Qed.

(** C3 as stated fails: with strikes 10 to 70 and a price of 42 the first
    strike above the price sits at position 4, the window is the slice
    [2:7], and the strikes returned are 30 to 70, not 20 to 60. *)
Lemma C3_chop_data_window_counterexample :
  strikes_of Sample.seven
  = Some (List.map VInt [10; 20; 30; 40; 50; 60; 70])
  /\ strikes_of
       (Sample.returned Sample.empty_frame
          (fst (chop_data Sample.seven 2 (VInt 42) Sample.aapl)))
     = Some (List.map VInt [30; 40; 50; 60; 70])
  /\ strikes_of
       (Sample.returned Sample.empty_frame
          (fst (chop_data Sample.seven 2 (VInt 42) Sample.aapl)))
     <> Some (List.map VInt [20; 30; 40; 50; 60]).
Proof.
  split; [reflexivity|]. split; [reflexivity|].
  vm_compute. discriminate.
Qed.

(** C3, amended. For a frame whose Strike level is 10, 20, .., 70 (as
    integers or as floats) and a price of 42, [chop_data] with
    [above_below = 2] returns the rows at positions 2 to 6, whose strikes
    are 30, 40, 50, 60, 70, less the rows whose data columns are all empty;
    when each of the five rows holds some value these are exactly the
    strikes of the result. *)
Theorem C3_chop_data_window (df : Frame.DataFrame) (num : Z -> value)
  (price : value) (s : State) :
  num = VInt \/ num = (fun n => VFloat (PyFloat.of_Z n)) ->
  price = VInt 42 \/ price = VFloat 42 ->
  strikes_of df = Some (List.map num [10; 20; 30; 40; 50; 60; 70]) ->
  let window := Frame.row_slice 2 7 df in
  chop_data df 2 price s = (Return (Frame.dropna_all window), s)
  /\ strikes_of window = Some (List.map num [30; 40; 50; 60; 70])
  /\ ((forall i, (i < 5)%nat -> Frame.row_has_data window i = true) ->
      strikes_of (Frame.dropna_all window)
      = Some (List.map num [30; 40; 50; 60; 70])).
Proof.
  intros Hnum Hprice Hk window.
  assert (Hw : strikes_of window = Some (List.map num [30; 40; 50; 60; 70])).
  { unfold window, Frame.row_slice. rewrite strikes_of_map_rows, Hk.
    reflexivity. }
  split; [|split; [exact Hw|]].
  - unfold chop_data, bind, lift, ret, Frame.get_level_values.
    unfold strikes_of in Hk.
    destruct Hnum as [-> | ->], Hprice as [-> | ->]; simpl;
      rewrite Hk; reflexivity.
  - intros Hdata. unfold Frame.dropna_all.
    rewrite strikes_of_map_rows, Hw. simpl. f_equal.
    apply select_rows_all. simpl. exact Hdata.
Qed.

Lemma C3_chop_data_window_witness :
  chop_data Sample.seven 2 (VInt 42) Sample.aapl
  = (Return (Frame.dropna_all (Frame.row_slice 2 7 Sample.seven)), Sample.aapl)
  /\ strikes_of (Frame.row_slice 2 7 Sample.seven)
     = Some (List.map VInt [30; 40; 50; 60; 70]).
Proof.
  pose proof (C3_chop_data_window Sample.seven VInt (VInt 42) Sample.aapl
                (or_introl eq_refl) (or_introl eq_refl) eq_refl) as H.
  split; [exact (proj1 H) | exact (proj1 (proj2 H))].
Defined.

(** ** The cells of a table row *)

(** A cell marked as a fall is the negated float of its text without the
    commas, and not-a-number when that text is not a number. *)
Lemma parse_cell_neg_arrow (val : element) :
  "neg_arrow" ∈ xpath_class_attrs val ->
  parse_cell val
  = match PyFloat.of_string (PyStr.remove_char "," (text_content val)) with
    | Some f => VFloat (f * (-1))%float
    | None => NaN
    end.
Proof.
  intros H. unfold parse_cell, _parse_row_values.
  rewrite (bool_decide_eq_true_2 _ H).
  destruct (PyFloat.of_string _); reflexivity.
Qed.

(** A cell without the mark goes to the parser as its text. *)
Lemma parse_cell_plain (val : element) :
  "neg_arrow" ∉ xpath_class_attrs val ->
  parse_cell val = cell_value ["N/A"] ","%char (VStr (text_content val)).
Proof.
  intros H. unfold parse_cell, _parse_row_values.
  rewrite (bool_decide_eq_false_2 _ H). reflexivity.
Qed.

(** C7. The row-cell rule: a cell carrying the [neg_arrow] marker with the
    text [1,234] is the float -1234.0; an unmarked cell with the text [N/A]
    is not-a-number; an unmarked cell with the text [12.5] is 12.5; and a
    marked cell whose text is not a number is not-a-number. *)
Theorem C7_row_cell_rule (fall empty price other : element) :
  "neg_arrow" ∈ xpath_class_attrs fall -> text_content fall = "1,234" ->
  "neg_arrow" ∉ xpath_class_attrs empty -> text_content empty = "N/A" ->
  "neg_arrow" ∉ xpath_class_attrs price -> text_content price = "12.5" ->
  "neg_arrow" ∈ xpath_class_attrs other ->
  PyFloat.of_string (PyStr.remove_char "," (text_content other)) = None ->
  parse_cell fall = VFloat (-1234)
  /\ parse_cell empty = NaN
  /\ parse_cell price = VFloat 12.5
  /\ parse_cell other = NaN.
Proof.
  intros Hf Tf He Te Hp Tp Ho To. repeat split.
  - rewrite (parse_cell_neg_arrow _ Hf), Tf. reflexivity.
  - rewrite (parse_cell_plain _ He), Te. reflexivity.
  - rewrite (parse_cell_plain _ Hp), Tp. reflexivity.
  - rewrite (parse_cell_neg_arrow _ Ho), To. reflexivity.
Qed.

Lemma C7_row_cell_rule_witness :
  parse_cell Sample.cell_fall = VFloat (-1234)
  /\ parse_cell Sample.cell_empty = NaN
  /\ parse_cell Sample.cell_price = VFloat 12.5
  /\ parse_cell (Sample.td_neg "n/a") = NaN.
Proof.
  apply (C7_row_cell_rule Sample.cell_fall Sample.cell_empty
           Sample.cell_price (Sample.td_neg "n/a"));
    first [reflexivity | vm_compute; set_solver].
Defined.

(** ** The validation of the dates *)

(** C2 fails on the code at a month given with an expiry and without a
    year: the test of [_try_parse_dates] reads [a or (b and c)], so the
    validation error is raised although an expiry was supplied, and the
    chain accessor stops there, before any request. *)
Theorem C2_month_with_expiry_raises (E : Env) (m : Z) (d : date)
  (name : string) (s : State) :
  _try_parse_dates E None (Some m) (Some d) s = (Raise (Exn ValueError msg), s)
  /\ _get_option_data E (Some m) None (Some d) name s
     = (Raise (Exn ValueError msg), s).
Proof. split; reflexivity. Qed.

(** When the validation error is raised: a month without a year, or a year
    without a month and without an expiry. *)
Lemma _try_parse_dates_raises_iff (E : Env) year month expiry s :
  _try_parse_dates E year month expiry s = (Raise (Exn ValueError msg), s)
  <-> (month <> None /\ year = None)
      \/ (month = None /\ year <> None /\ expiry = None).
Proof.
  unfold _try_parse_dates.
  destruct year as [y|], month as [m|], expiry as [d|]; simpl;
    unfold bind, warn, ret, lift, first_of_month; simpl.
  all: try (split; [intros _ | reflexivity]; solve
              [ left; split; [discriminate | reflexivity]
              | right; repeat split; (reflexivity || discriminate) ]).
  all: split; [| intros [[? ?]|[? [? ?]]]; congruence].
  all: repeat match goal with
       | |- context [if ?c then _ else _] => destruct c; simpl
       end; intros H; try discriminate H;
       inversion H as [Hm]; vm_compute in Hm; discriminate Hm.
Qed.

(** A year given with an expiry and without a month is accepted: the
    expiry decides. *)
Lemma _try_parse_dates_year_with_expiry (E : Env) (y : Z) (d : date) s :
  _try_parse_dates E (Some y) None (Some d) s
  = (Return (d_year d, d_month d, d), s).
Proof. reflexivity. Qed.

(** No argument at all designates the current month. *)
Lemma _try_parse_dates_default (E : Env) s :
  1 <= CUR_YEAR E <= 9999 -> 1 <= CUR_MONTH E <= 12 ->
  _try_parse_dates E None None None s
  = (Return (CUR_YEAR E, CUR_MONTH E, Date (CUR_YEAR E) (CUR_MONTH E) 1), s).
Proof.
  intros Hy Hm. unfold _try_parse_dates, bind, ret, lift, first_of_month.
  simpl.
  replace ((1 <=? CUR_YEAR E) && (CUR_YEAR E <=? 9999)) with true
    by (symmetry; apply andb_true_intro; split; apply Z.leb_le; lia).
  replace ((1 <=? CUR_MONTH E) && (CUR_MONTH E <=? 12)) with true
    by (symmetry; apply andb_true_intro; split; apply Z.leb_le; lia).
  reflexivity.
Qed.

(** ** Columns under assignment, deletion and renaming *)

Lemma value_eqb_neq (a b : value) : a <> b -> value_eqb a b = false.
Proof.
  intros H. destruct (value_eqb a b) eqn:E; [|reflexivity].
  apply value_eqb_eq in E. contradiction.
Qed.

Lemma value_eqb_refl (a : value) : value_eqb a a = true.
Proof. apply value_eqb_eq. reflexivity. Qed.

Lemma lookup_assign_eq k vs cols :
  Frame.lookup k (Frame.assign k vs cols) = Some vs.
Proof.
  induction cols as [|[k' vs'] cols IH]; simpl.
  - rewrite value_eqb_refl. reflexivity.
  - destruct (value_eqb k' k) eqn:E; simpl.
    + rewrite value_eqb_refl. reflexivity.
    + rewrite E. exact IH.
Qed.

Lemma lookup_assign_ne k k' vs cols :
  k <> k' ->
  Frame.lookup k' (Frame.assign k vs cols) = Frame.lookup k' cols.
Proof.
  intros Hne. induction cols as [|[k0 vs0] cols IH]; simpl.
  - rewrite (value_eqb_neq _ _ Hne). reflexivity.
  - destruct (value_eqb k0 k) eqn:E; simpl.
    + apply value_eqb_eq in E. subst k0.
      rewrite (value_eqb_neq _ _ Hne). reflexivity.
    + destruct (value_eqb k0 k'); [reflexivity | exact IH].
Qed.

Lemma lookup_remove_ne k k' cols :
  k <> k' ->
  Frame.lookup k' (Frame.remove k cols) = Frame.lookup k' cols.
Proof.
  intros Hne. induction cols as [|[k0 vs0] cols IH]; simpl; [reflexivity|].
  destruct (value_eqb k0 k) eqn:E; simpl.
  - apply value_eqb_eq in E. subst k0.
    rewrite (value_eqb_neq _ _ Hne). reflexivity.
  - destruct (value_eqb k0 k'); [reflexivity | exact IH].
Qed.

Lemma lookup_rename_ne old new k' df :
  old <> k' -> new <> k' ->
  Frame.lookup k' (Frame.columns (Frame.rename old new df))
  = Frame.lookup k' (Frame.columns df).
Proof.
  intros Ho Hn. unfold Frame.rename. simpl.
  induction (Frame.columns df) as [|[k0 vs0] cols IH]; simpl; [reflexivity|].
  destruct (value_eqb k0 old) eqn:E; simpl.
  - apply value_eqb_eq in E. subst k0.
    rewrite (value_eqb_neq _ _ Ho), (value_eqb_neq _ _ Hn). exact IH.
  - destruct (value_eqb k0 k'); [reflexivity | exact IH].
Qed.

(** What [set_index] on four distinct keys makes of the columns. *)
Lemma set_index_four k1 k2 k3 k4 df df' :
  k1 <> k2 -> k1 <> k3 -> k1 <> k4 -> k2 <> k3 -> k2 <> k4 -> k3 <> k4 ->
  Frame.set_index [k1; k2; k3; k4] df = Return df' ->
  Frame.lookup k4 (Frame.index df') = Frame.lookup k4 (Frame.columns df)
  /\ Frame.lookup k4 (Frame.columns df) <> None
  /\ forall k, k1 <> k -> k2 <> k -> k3 <> k -> k4 <> k ->
       Frame.lookup k (Frame.columns df') = Frame.lookup k (Frame.columns df).
Proof.
  intros H12 H13 H14 H23 H24 H34. unfold Frame.set_index. simpl.
  destruct (Frame.lookup k1 (Frame.columns df)) as [v1|] eqn:E1;
    [|discriminate].
  destruct (Frame.lookup k2 _) as [v2|] eqn:E2; [|discriminate].
  destruct (Frame.lookup k3 _) as [v3|] eqn:E3; [|discriminate].
  destruct (Frame.lookup k4 _) as [v4|] eqn:E4; [|discriminate].
  simpl. intros H. injection H as <-. simpl.
  rewrite !lookup_remove_ne in E4 by assumption.
  rewrite (value_eqb_neq _ _ H14), (value_eqb_neq _ _ H24),
    (value_eqb_neq _ _ H34), value_eqb_refl.
  repeat split.
  - symmetry. exact E4.
  - rewrite E4. discriminate.
  - intros k ? ? ? ?. rewrite !lookup_remove_ne by assumption. reflexivity.
Qed.

(** ** The post-processing of the rows *)

Lemma columns_setitem k vs df :
  Frame.columns (Frame.setitem k vs df) = Frame.assign k vs (Frame.columns df).
Proof. reflexivity. Qed.

Lemma columns_setitem_scalar k v df :
  Frame.columns (Frame.setitem_scalar k v df)
  = Frame.assign k (replicate (Frame.nrows df) v) (Frame.columns df).
Proof. reflexivity. Qed.

Lemma delitem_columns k df df' :
  Frame.delitem k df = Return df' ->
  Frame.columns df' = Frame.remove k (Frame.columns df).
Proof.
  unfold Frame.delitem. destruct (Frame.lookup k (Frame.columns df));
    intros H; inversion H. reflexivity.
Qed.

Lemma getattr_value_state name s v s' :
  getattr_value name s = (Return v, s') -> s' = s.
Proof.
  unfold getattr_value, bind, getattr.
  destruct (dict (self s) !! name) as [[v0|ts|df]|]; simpl;
    unfold ret, raise; intros H; inversion H; reflexivity.
Qed.

(** One step of a method: a pure computation that returned. *)
Ltac lift_step H x :=
  apply bind_inv in H as (x & ?s & ?Hx & H);
  match goal with
  | Hx : lift _ _ = _ |- _ => unfold lift in Hx; injection Hx as Hx <-
  end.

(** The column looked up is not the one assigned, removed or renamed. *)
Ltac other_columns :=
  repeat first
    [ rewrite columns_setitem_scalar
    | rewrite columns_setitem
    | rewrite lookup_assign_ne by discriminate
    | rewrite lookup_rename_ne by discriminate
    | rewrite lookup_remove_ne by discriminate ].

(** C6, amended. On every row of a processed table [IsNonstandard] is true
    exactly when the root decoded from the row's option symbol differs from
    the session's symbol with its hyphens removed: the hyphens are stripped
    from the session's symbol, not from the root. *)
Theorem C6_is_nonstandard (E : Env) (frame : Frame.DataFrame) (type : string)
  (s : State) (frame' : Frame.DataFrame) (s' : State) :
  _process_data E frame type s = (Return frame', s') ->
  exists symbols,
    Frame.lookup (VStr "Symbol") (Frame.index frame') = Some symbols
    /\ Frame.lookup (VStr "IsNonstandard") (Frame.columns frame')
       = Some (List.map (is_nonstandard (symbol (self s))) symbols).
Proof.
  intros H. unfold _process_data in H.
  lift_step H symbol_col.
  lift_step H rootexp.
  lift_step H rootexp'.
  lift_step H expiry.
  lift_step H root.
  apply bind_inv in H as (sym & s1 & Hsym & H).
  unfold get_symbol in Hsym. injection Hsym as <- <-.
  lift_step H frame5.
  apply bind_inv in H as (price & s2 & Hprice & H).
  apply getattr_value_state in Hprice as ->.
  apply bind_inv in H as (qt & s3 & Hqt & H).
  apply getattr_value_state in Hqt as ->.
  unfold lift in H. injection H as H <-.
  (* the columns read on the way *)
  assert (Hsymbol : Frame.lookup (VStr "Symbol") (Frame.columns frame)
                    = Some symbol_col).
  { unfold Frame.getattr in Hx.
    destruct (Frame.lookup (VStr "Symbol") (Frame.columns frame));
      inversion Hx. reflexivity. }
  assert (Hrootexp : rootexp = Frame.str_slice (Some 0) (Some (-9)) symbol_col).
  { unfold Frame.getattr in Hx0. rewrite columns_setitem, lookup_assign_eq in Hx0.
    inversion Hx0. reflexivity. }
  assert (Hroot : root = Frame.str_slice (Some 0) (Some (-6)) rootexp).
  { unfold Frame.getitem in Hx3.
    rewrite columns_setitem, lookup_assign_ne in Hx3 by discriminate.
    rewrite columns_setitem, lookup_assign_eq in Hx3.
    inversion Hx3. reflexivity. }
  apply delitem_columns in Hx4.
  apply set_index_four in H as (Hidx & _ & Hcols); try discriminate.
  exists symbol_col. split.
  - rewrite Hidx. other_columns. rewrite Hx4. other_columns. exact Hsymbol.
  - rewrite Hcols by discriminate. other_columns. rewrite Hx4. other_columns.
    rewrite lookup_assign_eq. f_equal. subst root rootexp.
    unfold Frame.ne_str, Frame.str_slice. rewrite !List.map_map.
    apply List.map_ext. intros [| | | |o| |]; reflexivity.
Qed.

Lemma C6_is_nonstandard_witness :
  exists symbols,
    Frame.lookup (VStr "Symbol")
      (Frame.index
         (Sample.returned Sample.empty_frame
            (fst (_process_data (Sample.env Sample.page) Sample.brk_table
                    "call" Sample.brk))))
    = Some symbols
    /\ Frame.lookup (VStr "IsNonstandard")
         (Frame.columns
            (Sample.returned Sample.empty_frame
               (fst (_process_data (Sample.env Sample.page) Sample.brk_table
                       "call" Sample.brk))))
       = Some (List.map (is_nonstandard "BRK-B") symbols).
Proof.
  apply (C6_is_nonstandard (Sample.env Sample.page) Sample.brk_table "call"
           Sample.brk _ Sample.brk).
  vm_compute. reflexivity.
Defined.

(** C6 as stated fails: in a session on BRK-B the option BRKB140517C00100000
    decodes to the root BRKB, which, with or without stripping hyphens from
    it, differs from the session's symbol BRK-B; the row is nevertheless not
    flagged, because the code compares the root with BRKB, the session's
    symbol without its hyphen. *)
Lemma C6_is_nonstandard_counterexample :
  Frame.lookup (VStr "Symbol")
    (Frame.index
       (Sample.returned Sample.empty_frame
          (fst (_process_data (Sample.env Sample.page) Sample.brk_table
                  "call" Sample.brk))))
  = Some [VStr "BRKB140517C00100000"]
  /\ Frame.lookup (VStr "IsNonstandard")
       (Frame.columns
          (Sample.returned Sample.empty_frame
             (fst (_process_data (Sample.env Sample.page) Sample.brk_table
                     "call" Sample.brk))))
     = Some [VBool false]
  /\ PyStr.remove_char "-" (root_of "BRKB140517C00100000") = "BRKB"
  /\ PyStr.remove_char "-" (root_of "BRKB140517C00100000")
     <> symbol (self Sample.brk).
Proof.
  split; [vm_compute; reflexivity|].
  split; [vm_compute; reflexivity|].
  split; [vm_compute; reflexivity|].
  vm_compute. discriminate.
Qed.

(** ** The snapshot of the underlying *)

Lemma _parse_option_page_no_tables (E : Env) (root : element) (s : State) :
  xpath_tag "table" root = [] ->
  _parse_option_page_from_yahoo E root s
  = (Raise (Exn RemoteDataError "No tables found"), s).
Proof. intros H. unfold _parse_option_page_from_yahoo. rewrite H. reflexivity. Qed.

(** Whenever the extraction of the quote stops on a missing element, an
    [IndexError], the page is accepted with an empty snapshot. *)
Lemma _parse_option_page_index_error (E : Env) (root : element) (s : State)
  (e : exn) :
  xpath_tag "table" root <> [] ->
  _get_underlying_price E root = Raise e ->
  exn_cls e = IndexError ->
  _parse_option_page_from_yahoo E root s
  = (Return (xpath_tag "table" root), with_snapshot NaN NaN s).
Proof.
  intros Ht He Hc. unfold _parse_option_page_from_yahoo.
  destruct (xpath_tag "table" root) as [|t ts] eqn:Et; [contradiction|].
  simpl Nat.eqb. cbv iota.
  unfold bind at 1. unfold try_except, bind, lift. rewrite He, Hc.
  reflexivity.
Qed.

(** C8, amended. For a page with at least one table, when the look-up of the
    quote ticker finds no element, or when the ticker reads as a number and
    the look-up of the quote time finds no element, the snapshot is set to
    (not-a-number, not-a-number) and the tables of the page are returned
    without an exception. *)
Theorem C8_missing_quote_element (E : Env) (root : element) (s : State) :
  xpath_tag "table" root <> [] ->
  xpath_class "time_rtq_ticker" root = []
  \/ (exists ticker rest child others price,
        xpath_class "time_rtq_ticker" root = ticker :: rest
        /\ getchildren ticker = child :: others
        /\ py_float (text child) = Return price
        /\ xpath_class "time_rtq" root = []) ->
  _parse_option_page_from_yahoo E root s
  = (Return (xpath_tag "table" root), with_snapshot NaN NaN s).
Proof.
  intros Ht Hq.
  apply (_parse_option_page_index_error E root s
           (Exn IndexError "list index out of range") Ht); [|reflexivity].
  unfold _get_underlying_price.
  destruct Hq as [Hq | (ticker & rest & child & others & price & Hq & Hc & Hp & Hr)].
  - rewrite Hq. reflexivity.
  - rewrite Hq. simpl. rewrite Hc. simpl. rewrite Hp. simpl. rewrite Hr.
    reflexivity.
Qed.

Lemma C8_missing_quote_element_witness :
  _parse_option_page_from_yahoo (Sample.env Sample.page_without_quote)
    Sample.page_without_quote Sample.aapl
  = (Return (xpath_tag "table" Sample.page_without_quote),
     with_snapshot NaN NaN Sample.aapl).
Proof.
  apply (C8_missing_quote_element (Sample.env Sample.page_without_quote)
           Sample.page_without_quote Sample.aapl).
  - vm_compute. discriminate.
  - left. reflexivity.
Defined.

(** C8 as stated fails when the ticker is there but does not read as a
    number: the page below has fourteen tables and no quote-time element,
    yet [float()] raises a [ValueError] before the quote time is looked up,
    only [IndexError] is caught, and the whole request fails with it. *)
Lemma C8_missing_quote_element_counterexample :
  xpath_class "time_rtq" Sample.page_without_price = []
  /\ length (xpath_tag "table" Sample.page_without_price) = 14%nat
  /\ _parse_option_page_from_yahoo (Sample.env Sample.page_without_price)
       Sample.page_without_price Sample.aapl
     = (Raise (Exn ValueError "could not convert string to float: N/A"),
        Sample.aapl)
  /\ fst (_get_option_data (Sample.env Sample.page_without_price)
            None None None "calls" Sample.aapl)
     = Raise (Exn ValueError "could not convert string to float: N/A").
Proof. repeat split; vm_compute; reflexivity. Qed.

(** ** What a method leaves unchanged

    The primitives that read keep every preorder on states; the writers keep
    the ones instantiated below. *)

Section Keeps.

Context (R : relation State) `{!PreOrder R}.

Lemma keeps_ret {A} (a : A) : keeps R (ret a).
Proof. intros s. reflexivity. Qed.

Lemma keeps_lift {A} (o : outcome A) : keeps R (lift o).
Proof. intros s. reflexivity. Qed.

Lemma keeps_raise {A} c m : keeps R (@raise A c m).
Proof. intros s. reflexivity. Qed.

Lemma keeps_bind {A B} (m : Py A) (k : A -> Py B) :
  keeps R m -> (forall a, keeps R (k a)) -> keeps R (bind m k).
Proof.
  intros Hm Hk s. unfold bind. specialize (Hm s).
  destruct (m s) as [[a|e] s1]; simpl in *.
  - transitivity s1; [exact Hm | apply Hk].
  - exact Hm.
Qed.

Lemma keeps_try_except {A} (body : Py A) catches handler :
  keeps R body -> (forall e, keeps R (handler e)) ->
  keeps R (try_except body catches handler).
Proof.
  intros Hb Hh s. unfold try_except. specialize (Hb s).
  destruct (body s) as [[a|e] s1]; simpl in *; [exact Hb|].
  destruct (catches (exn_cls e)); simpl; [|exact Hb].
  transitivity s1; [exact Hb | apply Hh].
Qed.

Lemma keeps_getattr name : keeps R (getattr name).
Proof. intros s. unfold getattr. destruct (_ !! _); reflexivity. Qed.

Lemma keeps_get_symbol : keeps R get_symbol.
Proof. intros s. reflexivity. Qed.

Lemma keeps_attr_value a : keeps R (attr_value a).
Proof. intros s. destruct a; reflexivity. Qed.

Lemma keeps_as_tables a : keeps R (as_tables a).
Proof. intros s. destruct a; reflexivity. Qed.

Lemma keeps_getattr_value name : keeps R (getattr_value name).
Proof.
  apply keeps_bind; [apply keeps_getattr | apply keeps_attr_value].
Qed.

(** Walks through a method built from the primitives above. *)
Ltac keeps_steps :=
  repeat (cbv beta zeta;
          first [ apply keeps_ret | apply keeps_lift | apply keeps_raise
                | apply keeps_getattr | apply keeps_get_symbol
                | apply keeps_attr_value | apply keeps_as_tables
                | apply keeps_getattr_value
                | assumption
                | apply keeps_bind; [|intros ?]
                | apply keeps_try_except; [|intros ?]
                | match goal with
                  | |- keeps _ (if ?c then _ else _) => destruct c
                  | |- keeps _ (match ?o with _ => _ end) => destruct o
                  | H : forall _, keeps _ _ |- _ => apply H
                  end ]).

Lemma keeps_process_data E frame type : keeps R (_process_data E frame type).
Proof. unfold _process_data. keeps_steps. Qed.

Lemma keeps_try_parse_dates E year month expiry :
  (forall w, keeps R (warn w)) ->
  keeps R (_try_parse_dates E year month expiry).
Proof. intros Hw. unfold _try_parse_dates. keeps_steps. Qed.

Lemma keeps_parse_option_page E root :
  (forall a, keeps R (setattr "underlying_price" a)) ->
  (forall a, keeps R (setattr "quote_time" a)) ->
  keeps R (_parse_option_page_from_yahoo E root).
Proof. intros Hp Hq. unfold _parse_option_page_from_yahoo. keeps_steps. Qed.

Lemma keeps_table_data E year month name tables :
  (forall a, keeps R (setattr name a)) ->
  (forall a, keeps R (setattr (side_month_name name year month) a)) ->
  keeps R (table_data E year month name tables).
Proof.
  intros Hn Hs. unfold table_data, side_month_name in *. keeps_steps.
Qed.

End Keeps.

(** The three relations are preorders. *)

#[local] Instance same_requests_preorder : PreOrder same_requests.
Proof.
  split; [intros s; reflexivity|].
  intros a b c H1 H2. unfold same_requests in *. congruence.
Qed.

#[local] Instance same_attr_preorder k : PreOrder (same_attr k).
Proof.
  split; [intros s; reflexivity|].
  intros a b c H1 H2. unfold same_attr in *. congruence.
Qed.

#[local] Instance same_self_preorder : PreOrder same_self.
Proof.
  split; [intros s; reflexivity|].
  intros a b c H1 H2. unfold same_self in *. congruence.
Qed.

Lemma setattr_same_requests k a : keeps same_requests (setattr k a).
Proof. intros s. reflexivity. Qed.

Lemma warn_same_requests w : keeps same_requests (warn w).
Proof. intros s. reflexivity. Qed.

Lemma warn_same_self w : keeps same_self (warn w).
Proof. intros s. reflexivity. Qed.

Lemma warn_same_attr k w : keeps (same_attr k) (warn w).
Proof. intros s. reflexivity. Qed.

Lemma setattr_same_attr k k' a : k' <> k -> keeps (same_attr k) (setattr k' a).
Proof.
  intros Hne s. unfold same_attr, setattr. simpl.
  apply lookup_insert_ne. exact Hne.
Qed.

Lemma parse_url_same_self E url : keeps same_self (_parse_url E url).
Proof.
  intros s. unfold _parse_url, same_self.
  destruct (lxml_installed E); simpl; [|reflexivity].
  destruct (parse E _ url) as [|e|[root|]]; reflexivity.
Qed.

Lemma parse_url_Return E url s root s' :
  _parse_url E url s = (Return root, s') ->
  requests s' = (requests s ++ [url])%list /\ self s' = self s.
Proof.
  unfold _parse_url. destruct (lxml_installed E); simpl; [|discriminate].
  destruct (parse E _ url) as [|e|[r|]]; intros H; inversion H.
  split; reflexivity.
Qed.

(** ** The fetch of a page *)

Lemma get_option_tables_Return E expiry s tables s' :
  _get_option_tables E expiry s = (Return tables, s') ->
  dict (self s') !! table_name (d_year expiry) (d_month expiry)
  = Some (ATables tables)
  /\ exists url, requests s' = (requests s ++ [url])%list.
Proof.
  unfold _get_option_tables. intros H.
  apply bind_inv in H as (root & s1 & Hroot & H).
  apply bind_inv in H as (tables' & s2 & Htables & H).
  apply bind_inv in H as ([] & s3 & Hset & H).
  unfold ret in H. injection H as <- <-.
  unfold setattr in Hset. injection Hset as <-. simpl. split.
  - apply lookup_insert_eq.
  - unfold _get_option_page_from_yahoo in Hroot.
    apply parse_url_Return in Hroot as [Hreq _].
    pose proof (keeps_parse_option_page same_requests E root
                  (setattr_same_requests _) (setattr_same_requests _) s1) as Hk.
    rewrite Htables in Hk. unfold same_requests in Hk. simpl in Hk.
    rewrite Hk, Hreq. eexists. reflexivity.
Qed.

(** The fetch touches three attributes only: the snapshot and the cache. *)
Lemma get_option_tables_same_attr E expiry k :
  k <> "underlying_price" -> k <> "quote_time" ->
  k <> table_name (d_year expiry) (d_month expiry) ->
  keeps (same_attr k) (_get_option_tables E expiry).
Proof.
  intros H1 H2 H3. unfold _get_option_tables.
  apply keeps_bind; [typeclasses eauto| |].
  - intros s. unfold _get_option_page_from_yahoo, same_attr.
    pose proof (parse_url_same_self E
      (if (d_month expiry =? CUR_MONTH E) && (d_year expiry =? CUR_YEAR E)
       then _OPTIONS_BASE_URL (symbol (self s)) ++ "+Options"
       else _OPTIONS_BASE_URL (symbol (self s)) ++ "&m="
            ++ PyStr.str_of_Z (d_year expiry) ++ "-"
            ++ _two_char_month (d_month expiry)) s) as Hs.
    unfold same_self in Hs. rewrite Hs. reflexivity.
  - intros root. apply keeps_bind; [typeclasses eauto| |].
    + apply keeps_parse_option_page; [typeclasses eauto| |];
        intros a; apply setattr_same_attr; congruence.
    + intros tables. apply keeps_bind; [typeclasses eauto| |].
      * apply setattr_same_attr. unfold table_name in H3. congruence.
      * intros _. apply keeps_ret. typeclasses eauto.
Qed.

(** ** The names of the attributes *)

Lemma table_loc_of_name name loc :
  table_loc_of name = Return loc ->
  (name = "calls" /\ loc = 9) \/ (name = "puts" /\ loc = 13).
Proof.
  unfold table_loc_of, _TABLE_LOC. cbn -[String.eqb].
  destruct (String.eqb "calls" name) eqn:E1; cbn -[String.eqb].
  - apply String.eqb_eq in E1. subst name. intros H. inversion H. left.
    split; reflexivity.
  - destruct (String.eqb "puts" name) eqn:E2; cbn -[String.eqb].
    + apply String.eqb_eq in E2. subst name. intros H. inversion H. right.
      split; reflexivity.
    + intros H. discriminate H.
Qed.

Lemma append_nonempty (a b : string) : b <> "" -> (a ++ b)%string <> a.
Proof.
  intros Hb. induction a as [|c a IH]; simpl.
  - exact Hb.
  - intros H. injection H as H. exact (IH H).
Qed.

Lemma append_not_empty (a b : string) : b <> "" -> (a ++ b)%string <> "".
Proof. intros Hb. destruct a; simpl; [exact Hb | discriminate]. Qed.

Lemma two_char_month_nonempty month : _two_char_month month <> "".
Proof.
  unfold _two_char_month, PyStr.rjust0.
  destruct (PyStr.str_of_Z month) as [|c r] eqn:E.
  - simpl. discriminate.
  - apply append_not_empty. discriminate.
Qed.

Lemma side_month_name_ne name year month :
  side_month_name name year month <> name.
Proof.
  unfold side_month_name. apply append_nonempty.
  destruct (_two_char_month month) eqn:E.
  - exfalso. exact (two_char_month_nonempty month E).
  - simpl. discriminate.
Qed.

Lemma table_name_ne_side name loc year month :
  table_loc_of name = Return loc ->
  table_name year month <> name
  /\ table_name year month <> side_month_name name year month
  /\ name <> "underlying_price" /\ name <> "quote_time".
Proof.
  intros H. unfold table_name, side_month_name.
  destruct (table_loc_of_name _ _ H) as [[-> _]|[-> _]];
    repeat split; discriminate.
Qed.

(** ** The chain accessor, step by step *)

Lemma get_option_data_unfold E month year expiry name :
  _get_option_data E month year expiry name
  = (ymd <- _try_parse_dates E year month expiry ;;
     let '(year, month, expiry) := ymd in
     cached <- try_except
                 (getattr (table_name year month))
                 (fun c => exn_class_eqb c AttributeError)
                 (fun _ => ts <- _get_option_tables E expiry ;;
                           ret (ATables ts)) ;;
     tables <- as_tables cached ;;
     table_data E year month name tables).
Proof. reflexivity. Qed.

(** The dates the arguments designate do not depend on the session. *)
Lemma try_parse_dates_fst E year month expiry s s' :
  fst (_try_parse_dates E year month expiry s)
  = fst (_try_parse_dates E year month expiry s').
Proof.
  unfold _try_parse_dates.
  destruct year as [y|], month as [m|], expiry as [d|]; simpl;
    try reflexivity;
    unfold bind, warn, lift, ret; simpl;
    destruct (first_of_month _ _); reflexivity.
Qed.

Lemma try_parse_dates_expiry E year month expiry s y m e s0 :
  _try_parse_dates E year month expiry s = (Return (y, m, e), s0) ->
  d_year e = y /\ d_month e = m.
Proof.
  unfold _try_parse_dates.
  destruct year as [y'|], month as [m'|], expiry as [d|]; simpl;
    unfold bind, warn, lift, ret, raise; simpl;
    try (intros H; inversion H; split; reflexivity);
    try discriminate;
    unfold first_of_month;
    repeat match goal with
      | |- context [if ?c then _ else _] => destruct c; simpl
      end;
    intros H; inversion H; split; reflexivity.
Qed.

Lemma try_parse_dates_Return E year month expiry s y m e s0 :
  _try_parse_dates E year month expiry s = (Return (y, m, e), s0) ->
  self s0 = self s /\ requests s0 = requests s.
Proof.
  intros H. split.
  - pose proof (keeps_try_parse_dates same_self E year month expiry
                  warn_same_self s) as K.
    rewrite H in K. exact K.
  - pose proof (keeps_try_parse_dates same_requests E year month expiry
                  warn_same_requests s) as K.
    rewrite H in K. exact K.
Qed.

(** The same arguments designate the same dates in any later state. *)
Lemma try_parse_dates_again E year month expiry s y m e s0 s' :
  _try_parse_dates E year month expiry s = (Return (y, m, e), s0) ->
  exists s0', _try_parse_dates E year month expiry s' = (Return (y, m, e), s0')
              /\ self s0' = self s' /\ requests s0' = requests s'.
Proof.
  intros H.
  pose proof (try_parse_dates_fst E year month expiry s s') as Hf.
  rewrite H in Hf. simpl in Hf.
  destruct (_try_parse_dates E year month expiry s') as [o s0'] eqn:E'.
  simpl in Hf. subst o. exists s0'. split; [reflexivity|].
  exact (try_parse_dates_Return _ _ _ _ _ _ _ _ _ E').
Qed.

(** The look-up of the cached tables, and the fetch when there are none. *)
Lemma cache_hit E year month expiry s a :
  dict (self s) !! table_name year month = Some a ->
  try_except (getattr (table_name year month))
    (fun c => exn_class_eqb c AttributeError)
    (fun _ => ts <- _get_option_tables E expiry ;; ret (ATables ts)) s
  = (Return a, s).
Proof. intros H. unfold try_except, getattr. rewrite H. reflexivity. Qed.

Lemma cache_miss E year month expiry s :
  dict (self s) !! table_name year month = None ->
  try_except (getattr (table_name year month))
    (fun c => exn_class_eqb c AttributeError)
    (fun _ => ts <- _get_option_tables E expiry ;; ret (ATables ts)) s
  = (ts <- _get_option_tables E expiry ;; ret (ATables ts)) s.
Proof. intros H. unfold try_except, getattr. rewrite H. reflexivity. Qed.

Lemma as_tables_Return a s tables s' :
  as_tables a s = (Return tables, s') -> a = ATables tables /\ s' = s.
Proof.
  destruct a; unfold as_tables, ret, raise; intros H; inversion H.
  split; reflexivity.
Qed.

(** After the cache step the tables in hand are the ones stored under the
    name of the month, and at most one request was made. *)
Lemma cache_step_Return E expiry s a s1 tables :
  try_except (getattr (table_name (d_year expiry) (d_month expiry)))
    (fun c => exn_class_eqb c AttributeError)
    (fun _ => ts <- _get_option_tables E expiry ;; ret (ATables ts)) s
  = (Return a, s1) ->
  a = ATables tables ->
  dict (self s1) !! table_name (d_year expiry) (d_month expiry)
  = Some (ATables tables)
  /\ (forall k, k <> "underlying_price" -> k <> "quote_time" ->
                k <> table_name (d_year expiry) (d_month expiry) ->
                dict (self s1) !! k = dict (self s) !! k)
  /\ (is_Some (dict (self s) !! table_name (d_year expiry) (d_month expiry))
      -> s1 = s)
  /\ (dict (self s) !! table_name (d_year expiry) (d_month expiry) = None ->
      _get_option_tables E expiry s = (Return tables, s1)
      /\ exists url, requests s1 = (requests s ++ [url])%list).
Proof.
  intros H ->.
  destruct (dict (self s) !! table_name (d_year expiry) (d_month expiry))
    as [a|] eqn:Hk.
  - rewrite (cache_hit _ _ _ _ _ _ Hk) in H. injection H as -> <-.
    split; [exact Hk|]. split; [intros; reflexivity|].
    split; [intros; reflexivity|]. intros Hn. discriminate Hn.
  - rewrite (cache_miss _ _ _ _ _ Hk) in H.
    apply bind_inv in H as (ts & s2 & Hts & H).
    unfold ret in H. injection H as -> <-.
    destruct (get_option_tables_Return _ _ _ _ _ Hts) as [Hc Hreq].
    split; [exact Hc|]. split; [|split].
    + intros k H1 H2 H3.
      pose proof (get_option_tables_same_attr E expiry k H1 H2 H3 s) as K.
      rewrite Hts in K. exact K.
    + intros [x Hx]. discriminate Hx.
    + intros _. split; [exact Hts | exact Hreq].
Qed.

(** What a returning [table_data] has stored. *)
Lemma table_data_Return E year month name tables s df s' :
  table_data E year month name tables s = (Return df, s') ->
  dict (self s') !! side_month_name name year month = Some (AFrame df)
  /\ (month = CUR_MONTH E /\ year = CUR_YEAR E ->
      dict (self s') !! name = Some (AFrame df))
  /\ (~ (month = CUR_MONTH E /\ year = CUR_YEAR E) ->
      dict (self s') !! name = dict (self s) !! name).
Proof.
  unfold table_data. intros H.
  apply bind_inv in H as (loc & s0 & Hloc & H).
  unfold lift in Hloc. injection Hloc as Hloc <-.
  destruct (loc - 1 >? Z.of_nat (length tables)); [discriminate H|].
  unfold try_except in H.
  match type of H with
  | match ?body s with _ => _ end = _ =>
      destruct (body s) as [[df0|e] s1] eqn:Hbody; [|discriminate H]
  end.
  injection H as -> ->.
  lift_step Hbody table.
  lift_step Hbody option_data.
  apply bind_inv in Hbody as (processed & s2 & Hproc & Hbody).
  match type of Hproc with
  | _process_data _ ?f ?t _ = _ =>
      pose proof (keeps_process_data eq E f t s) as Ks
  end.
  rewrite Hproc in Ks. simpl in Ks. subst s2.
  apply bind_inv in Hbody as ([] & s3 & Hside & Hbody).
  apply bind_inv in Hbody as ([] & s4 & Hboth & Hbody).
  unfold ret in Hbody. injection Hbody as -> ->.
  unfold setattr in Hboth. injection Hboth as <-. simpl.
  fold (side_month_name name year month).
  pose proof (side_month_name_ne name year month) as Hne.
  split; [apply lookup_insert_eq|].
  rewrite lookup_insert_ne by exact Hne.
  destruct ((month =? CUR_MONTH E) && (year =? CUR_YEAR E)) eqn:Hcur.
  - unfold setattr in Hside. injection Hside as <-. simpl. split.
    + intros _. apply lookup_insert_eq.
    + intros Hn. exfalso. apply Hn.
      apply andb_prop in Hcur as [Hm Hy].
      split; apply Z.eqb_eq; assumption.
  - unfold ret in Hside. injection Hside as <-. split.
    + intros [Hm Hy]. subst. rewrite !Z.eqb_refl in Hcur. discriminate Hcur.
    + intros _. reflexivity.
Qed.

(** When the position is out of the range the code tests, the error that
    names the position and the count is raised and nothing is stored. *)
Lemma table_data_location E year month name loc tables s :
  table_loc_of name = Return loc ->
  Z.of_nat (length tables) < loc - 1 ->
  table_data E year month name tables s
  = (Raise (Exn RemoteDataError
              ("Table location " ++ PyStr.str_of_Z loc ++ " invalid, "
               ++ PyStr.str_of_Z (Z.of_nat (length tables))
               ++ " tables found")), s).
Proof.
  intros Hloc Hlt. unfold table_data, bind, lift. rewrite Hloc.
  replace (loc - 1 >? Z.of_nat (length tables)) with true
    by (symmetry; apply Z.gtb_lt; lia).
  reflexivity.
Qed.

(** ** The table position *)

(** With (position - 1) or position tables the test of the position lets
    the call through, the indexing fails, and the error is the generic
    one. *)
Lemma table_data_unreported E year month name loc tables s :
  table_loc_of name = Return loc ->
  loc - 1 <= Z.of_nat (length tables) <= loc ->
  table_data E year month name tables s
  = (Raise (Exn RemoteDataError
              "Cannot retrieve Table data list index out of range"), s).
Proof.
  intros Hloc Hn. unfold table_data, bind at 1, lift at 1. rewrite Hloc.
  replace (loc - 1 >? Z.of_nat (length tables)) with false
    by (symmetry; destruct (Z.gtb_spec (loc - 1) (Z.of_nat (length tables)));
        [lia | reflexivity]).
  unfold try_except, bind at 1, lift at 1, getitem.
  rewrite (lookup_ge_None_2 tables (Z.to_nat loc)) by lia.
  reflexivity.
Qed.

(** C4. The test of the position is off by two. When the table set of the
    requested month, read from the cache or parsed from the page fetched by
    this call, has fewer than (position - 1) tables, the position being 9
    for the calls and 13 for the puts, the accessor raises [RemoteDataError]
    with the message that names the position and the number of tables. With
    (position - 1) or position tables, so with 8 or 9 tables for the calls
    and 12 or 13 for the puts, where the position is just as much beyond
    the tables, it raises [RemoteDataError] with the message of the failed
    indexing, which names neither. *)
Theorem C4_table_location_guard (E : Env) (month year : option Z)
  (expiry : option date) (name : string) (s : State)
  (y m : Z) (e : date) (s0 : State) (loc : Z)
  (tables : list element) (s1 : State) :
  _try_parse_dates E year month expiry s = (Return (y, m, e), s0) ->
  table_loc_of name = Return loc ->
  (dict (self s) !! table_name y m = Some (ATables tables) /\ s1 = s0)
  \/ (dict (self s) !! table_name y m = None
      /\ _get_option_tables E e s0 = (Return tables, s1)) ->
  (Z.of_nat (length tables) < loc - 1 ->
   _get_option_data E month year expiry name s
   = (Raise (Exn RemoteDataError
               ("Table location " ++ PyStr.str_of_Z loc ++ " invalid, "
                ++ PyStr.str_of_Z (Z.of_nat (length tables))
                ++ " tables found")), s1))
  /\ (loc - 1 <= Z.of_nat (length tables) <= loc ->
      _get_option_data E month year expiry name s
      = (Raise (Exn RemoteDataError
                  "Cannot retrieve Table data list index out of range"), s1)).
Proof.
  intros Hdates Hloc Htables.
  rewrite get_option_data_unfold.
  rewrite (bind_Return _ _ _ _ _ Hdates).
  destruct (try_parse_dates_Return _ _ _ _ _ _ _ _ _ Hdates) as [Hself _].
  assert (Hstep : try_except (getattr (table_name y m))
                    (fun c => exn_class_eqb c AttributeError)
                    (fun _ => ts <- _get_option_tables E e ;; ret (ATables ts))
                    s0
                  = (Return (ATables tables), s1)).
  { destruct Htables as [[Hc ->] | [Hc Hfetch]].
    - apply cache_hit. rewrite Hself. exact Hc.
    - rewrite cache_miss by (rewrite Hself; exact Hc).
      rewrite (bind_Return _ _ _ _ _ Hfetch). reflexivity. }
  rewrite (bind_Return _ _ _ _ _ Hstep).
  unfold bind at 1. simpl as_tables. unfold ret at 1.
  split; intros Hn.
  - apply table_data_location; assumption.
  - apply (table_data_unreported E y m name loc); assumption.
Qed.

Lemma C4_table_location_guard_witness :
  length (xpath_tag "table" (Sample.page_of_tables 8)) = 8%nat
  /\ table_loc_of "calls" = Return 9
  /\ _get_option_data (Sample.env (Sample.page_of_tables 8)) None None None
       "calls" Sample.aapl
     = (Raise (Exn RemoteDataError
                 "Cannot retrieve Table data list index out of range"),
        snd (_get_option_tables (Sample.env (Sample.page_of_tables 8))
               (Date 2014 6 1) Sample.aapl)).
Proof.
  split; [reflexivity|]. split; [reflexivity|].
  refine (proj2 (C4_table_location_guard
                   (Sample.env (Sample.page_of_tables 8))
                   None None None "calls" Sample.aapl 2014 6 (Date 2014 6 1)
                   Sample.aapl 9 (replicate 8 Sample.filler) _ _ _ _) _).
  - reflexivity.
  - reflexivity.
  - right. split; vm_compute; reflexivity.
  - vm_compute. split; discriminate.
Defined.

(** A page without any table never reaches the test of the position: it is
    refused when it is parsed, with an error of its own. *)
Remark table_location_empty_page :
  fst (_get_option_data (Sample.env (Sample.page_of_tables 0))
         None None None "calls" Sample.aapl)
  = Raise (Exn RemoteDataError "No tables found").
Proof. vm_compute. reflexivity. Qed.

(** ** The cache of the tables *)

(** C1. After a call of the chain accessor for a month has returned, a
    second call with the same month, for either side, makes no request: it
    finds the tables of the first call under the cache name of the month and
    leaves them there. When the month was not cached before, the first call
    made exactly one request, so that the two calls together made one. *)
Theorem C1_second_call_no_fetch (E : Env) (month year : option Z)
  (expiry : option date) (name name' : string) (s : State)
  (y m : Z) (e : date) (s0 : State) (df : Frame.DataFrame) (s' : State) :
  _try_parse_dates E year month expiry s = (Return (y, m, e), s0) ->
  _get_option_data E month year expiry name s = (Return df, s') ->
  let s'' := snd (_get_option_data E month year expiry name' s') in
  requests s'' = requests s'
  /\ (exists tables,
        dict (self s') !! table_name y m = Some (ATables tables)
        /\ dict (self s'') !! table_name y m = Some (ATables tables))
  /\ (dict (self s) !! table_name y m = None ->
      exists url, requests s'' = (requests s ++ [url])%list).
Proof.
  intros Hdates Hcall s''.
  destruct (try_parse_dates_Return _ _ _ _ _ _ _ _ _ Hdates) as [Hself Hreq].
  destruct (try_parse_dates_expiry _ _ _ _ _ _ _ _ _ Hdates) as [<- <-].
  (* the first call *)
  rewrite get_option_data_unfold in Hcall.
  rewrite (bind_Return _ _ _ _ _ Hdates) in Hcall.
  apply bind_inv in Hcall as (a & s1 & Hstep & Hcall).
  apply bind_inv in Hcall as (tables & s2 & Has & Hcall).
  apply as_tables_Return in Has as [-> ->].
  destruct (cache_step_Return _ _ _ _ _ _ Hstep eq_refl)
    as (Hcached & _ & _ & Hmiss).
  assert (Hloc : exists loc, table_loc_of name = Return loc).
  { unfold table_data, bind, lift in Hcall.
    destruct (table_loc_of name) as [loc|err]; [eauto | discriminate Hcall]. }
  destruct Hloc as [loc Hloc].
  destruct (table_name_ne_side name loc (d_year e) (d_month e) Hloc)
    as (Hn1 & Hn2 & _).
  assert (Hkept : dict (self s') !! table_name (d_year e) (d_month e)
                  = Some (ATables tables)).
  { pose proof (keeps_table_data (same_attr (table_name (d_year e) (d_month e)))
                  E (d_year e) (d_month e) name tables
                  (fun a => setattr_same_attr _ _ a (not_eq_sym Hn1))
                  (fun a => setattr_same_attr _ _ a (not_eq_sym Hn2)) s1) as K.
    rewrite Hcall in K. unfold same_attr in K. simpl in K.
    rewrite K. exact Hcached. }
  assert (Hreq1 : requests s' = requests s1).
  { pose proof (keeps_table_data same_requests E (d_year e) (d_month e)
                  name tables (setattr_same_requests _)
                  (setattr_same_requests _) s1) as K.
    rewrite Hcall in K. exact K. }
  (* the second call *)
  destruct (try_parse_dates_again _ _ _ _ _ _ _ _ _ s' Hdates)
    as (s0' & Hdates' & Hself' & Hreq').
  assert (Hsecond : _get_option_data E month year expiry name' s'
                    = table_data E (d_year e) (d_month e) name' tables s0').
  { rewrite get_option_data_unfold.
    rewrite (bind_Return _ _ _ _ _ Hdates').
    rewrite (bind_Return _ _ _ _ _
               (cache_hit E _ _ e s0' (ATables tables)
                  ltac:(rewrite Hself'; exact Hkept))).
    reflexivity. }
  assert (Hreq2 : requests s'' = requests s').
  { unfold s''. rewrite Hsecond.
    pose proof (keeps_table_data same_requests E (d_year e) (d_month e)
                  name' tables (setattr_same_requests _)
                  (setattr_same_requests _) s0') as K.
    unfold same_requests in K. rewrite K. exact Hreq'. }
  split; [exact Hreq2|]. split.
  - exists tables. split; [exact Hkept|].
    unfold s''. rewrite Hsecond.
    destruct (table_loc_of name') as [loc'|err] eqn:Hloc'.
    + destruct (table_name_ne_side name' loc' (d_year e) (d_month e) Hloc')
        as (Hn1' & Hn2' & _).
      pose proof (keeps_table_data
                    (same_attr (table_name (d_year e) (d_month e)))
                    E (d_year e) (d_month e) name' tables
                    (fun a => setattr_same_attr _ _ a (not_eq_sym Hn1'))
                    (fun a => setattr_same_attr _ _ a (not_eq_sym Hn2')) s0') as K.
      unfold same_attr in K. rewrite K, Hself'. exact Hkept.
    + unfold table_data, bind, lift. rewrite Hloc'. simpl.
      rewrite Hself'. exact Hkept.
  - intros Hnone. rewrite <- Hself in Hnone.
    destruct (Hmiss Hnone) as [_ [url Hurl]].
    exists url. rewrite Hreq2, Hreq1, Hurl, Hreq. reflexivity.
Qed.

Lemma C1_second_call_no_fetch_witness :
  requests
    (snd (_get_option_data (Sample.env Sample.page) None None None "puts"
            (snd (_get_option_data (Sample.env Sample.page) None None None
                    "calls" Sample.aapl))))
  = ["http://finance.yahoo.com/q/op?s=AAPL+Options"].
Proof.
  pose proof (C1_second_call_no_fetch (Sample.env Sample.page)
                None None None "calls" "puts" Sample.aapl
                2014 6 (Date 2014 6 1) Sample.aapl
                (Sample.returned Sample.empty_frame
                   (fst (_get_option_data (Sample.env Sample.page)
                           None None None "calls" Sample.aapl)))
                (snd (_get_option_data (Sample.env Sample.page)
                        None None None "calls" Sample.aapl))
                eq_refl ltac:(vm_compute; reflexivity)) as H.
  destruct H as (Hsame & _ & _). rewrite Hsame.
  vm_compute. reflexivity.
Defined.

(** ** The attributes a call stores *)

(** C5, amended. A call of the chain accessor that returns has stored the
    processed table under the name of the side followed by the month and
    year ([callsMMYY], [putsMMYY]); it has stored it under the name of the
    side alone ([calls], [puts]) when the month requested is the current
    month, and has left that attribute as it was otherwise. *)
Theorem C5_stored_tables (E : Env) (month year : option Z)
  (expiry : option date) (name : string) (s : State)
  (y m : Z) (e : date) (s0 : State) (df : Frame.DataFrame) (s' : State) :
  _try_parse_dates E year month expiry s = (Return (y, m, e), s0) ->
  _get_option_data E month year expiry name s = (Return df, s') ->
  dict (self s') !! side_month_name name y m = Some (AFrame df)
  /\ (m = CUR_MONTH E /\ y = CUR_YEAR E ->
      dict (self s') !! name = Some (AFrame df))
  /\ (~ (m = CUR_MONTH E /\ y = CUR_YEAR E) ->
      dict (self s') !! name = dict (self s) !! name).
Proof.
  intros Hdates Hcall.
  destruct (try_parse_dates_Return _ _ _ _ _ _ _ _ _ Hdates) as [Hself _].
  destruct (try_parse_dates_expiry _ _ _ _ _ _ _ _ _ Hdates) as [<- <-].
  rewrite get_option_data_unfold in Hcall.
  rewrite (bind_Return _ _ _ _ _ Hdates) in Hcall.
  apply bind_inv in Hcall as (a & s1 & Hstep & Hcall).
  apply bind_inv in Hcall as (tables & s2 & Has & Hcall).
  apply as_tables_Return in Has as [-> ->].
  destruct (cache_step_Return _ _ _ _ _ _ Hstep eq_refl)
    as (_ & Hother & _ & _).
  assert (Hloc : exists loc, table_loc_of name = Return loc).
  { unfold table_data, bind, lift in Hcall.
    destruct (table_loc_of name) as [loc|err]; [eauto | discriminate Hcall]. }
  destruct Hloc as [loc Hloc].
  destruct (table_name_ne_side name loc (d_year e) (d_month e) Hloc)
    as (Hn1 & _ & Hn3 & Hn4).
  destruct (table_data_Return _ _ _ _ _ _ _ _ Hcall) as (Hboth & Hcur & Hnot).
  split; [exact Hboth|]. split; [exact Hcur|].
  intros Hn. rewrite (Hnot Hn), <- Hself.
  apply Hother; [exact Hn3 | exact Hn4 | exact (not_eq_sym Hn1)].
Qed.

Lemma C5_stored_tables_witness :
  dict (self (snd (_get_option_data (Sample.env Sample.page) None None
                     (Some (Date 2014 5 1)) "calls" Sample.aapl)))
  !! "calls0514"
  = Some (AFrame
            (Sample.returned Sample.empty_frame
               (fst (_get_option_data (Sample.env Sample.page) None None
                       (Some (Date 2014 5 1)) "calls" Sample.aapl)))).
Proof.
  pose proof (C5_stored_tables (Sample.env Sample.page)
                None None (Some (Date 2014 5 1)) "calls" Sample.aapl
                2014 5 (Date 2014 5 1) Sample.aapl
                (Sample.returned Sample.empty_frame
                   (fst (_get_option_data (Sample.env Sample.page) None None
                           (Some (Date 2014 5 1)) "calls" Sample.aapl)))
                (snd (_get_option_data (Sample.env Sample.page) None None
                        (Some (Date 2014 5 1)) "calls" Sample.aapl))
                eq_refl ltac:(vm_compute; reflexivity)) as H.
  exact (proj1 H).
Defined.

(** C5 as stated fails for a month other than the current one: on 2 June
    2014 the calls of May 2014 are stored under [calls0514], and nothing is
    stored under [calls]. *)
Lemma C5_stored_tables_counterexample :
  fst (_get_option_data (Sample.env Sample.page) None None
         (Some (Date 2014 5 1)) "calls" Sample.aapl)
  = Return (Sample.returned Sample.empty_frame
              (fst (_get_option_data (Sample.env Sample.page) None None
                      (Some (Date 2014 5 1)) "calls" Sample.aapl)))
  /\ is_Some
       (dict (self (snd (_get_option_data (Sample.env Sample.page) None None
                           (Some (Date 2014 5 1)) "calls" Sample.aapl)))
        !! "calls0514")
  /\ dict (self (snd (_get_option_data (Sample.env Sample.page) None None
                        (Some (Date 2014 5 1)) "calls" Sample.aapl)))
     !! "calls"
     = None.
Proof.
  split; [vm_compute; reflexivity|].
  split; [|vm_compute; reflexivity].
  vm_compute. eexists. reflexivity.
Qed.

(** The cache name keeps the last two digits of the year only: the months of
    2014 and of 2114 share their tables. *)
Remark table_name_two_digit_year : table_name 2014 5 = table_name 2114 5.
Proof. vm_compute. reflexivity. Qed.

(** The sample session is the one the constructor builds. *)
Remark init_sample_session : __init__ "aapl" (Some "yahoo") = Return Sample.aapl.
Proof. vm_compute. reflexivity. Qed.

(** * Further properties of the chain accessor *)

(** ** Requests *)

Lemma parse_url_requests E url s :
  requests (snd (_parse_url E url s))
  = if lxml_installed E then (requests s ++ [url])%list else requests s.
Proof.
  unfold _parse_url. destruct (lxml_installed E); simpl; [|reflexivity].
  destruct (parse E _ url) as [|e|[root|]]; reflexivity.
Qed.

Lemma get_option_page_url E expiry s :
  _get_option_page_from_yahoo E expiry s
  = _parse_url E (page_url E (symbol (self s)) (d_year expiry) (d_month expiry)) s.
Proof.
  unfold _get_option_page_from_yahoo, page_url.
  destruct ((d_month expiry =? CUR_MONTH E) && (d_year expiry =? CUR_YEAR E));
    reflexivity.
Qed.

(** A fetch asks once, for the page of the month, whatever comes of it. *)
Lemma get_option_tables_requests E expiry s :
  requests (snd (_get_option_tables E expiry s))
  = if lxml_installed E
    then (requests s
          ++ [page_url E (symbol (self s)) (d_year expiry) (d_month expiry)])%list
    else requests s.
Proof.
  unfold _get_option_tables, bind. rewrite get_option_page_url.
  pose proof (parse_url_requests E
                (page_url E (symbol (self s)) (d_year expiry) (d_month expiry)) s)
    as Hr.
  destruct (_parse_url E _ s) as [[root|err] s1]; simpl in Hr; [|exact Hr].
  pose proof (keeps_parse_option_page same_requests E root
                (setattr_same_requests _) (setattr_same_requests _) s1) as K.
  unfold same_requests in K.
  destruct (_parse_option_page_from_yahoo E root s1) as [[tables|err] s2];
    simpl in *; rewrite K; exact Hr.
Qed.

(** What follows the cache step makes no request. *)
Lemma after_tables_same_requests E y m name (cached : attr) :
  keeps same_requests
    (tables <- as_tables cached ;; table_data E y m name tables).
Proof.
  apply keeps_bind; [typeclasses eauto | apply keeps_as_tables; typeclasses eauto |].
  intros tables. apply keeps_table_data; [typeclasses eauto | |];
    intros a; apply setattr_same_requests.
Qed.

(** X1. A call of the chain accessor makes at most one request, whether it
    returns or raises: the page is never asked for twice and a failed
    request is not retried. *)
Theorem accessor_at_most_one_request (E : Env) (month year : option Z)
  (expiry : option date) (name : string) (s : State) :
  exists l,
    requests (snd (_get_option_data E month year expiry name s))
    = (requests s ++ l)%list
    /\ (length l <= 1)%nat.
Proof.
  rewrite get_option_data_unfold. unfold bind at 1.
  pose proof (keeps_try_parse_dates same_requests E year month expiry
                warn_same_requests s) as Kd.
  destruct (_try_parse_dates E year month expiry s) as [[[[y m] e]|err] s0];
    unfold same_requests in Kd; simpl in Kd.
  2:{ exists []. simpl. rewrite app_nil_r. split; [exact Kd | lia]. }
  unfold bind at 1.
  destruct (dict (self s0) !! table_name y m) as [a|] eqn:Hk.
  - rewrite (cache_hit E y m e s0 a Hk).
    pose proof (after_tables_same_requests E y m name a s0) as K.
    unfold same_requests in K. exists []. rewrite app_nil_r.
    split; [rewrite K; exact Kd | simpl; lia].
  - rewrite (cache_miss E y m e s0 Hk). unfold bind at 1.
    pose proof (get_option_tables_requests E e s0) as Hr.
    destruct (_get_option_tables E e s0) as [[ts|err] s1]; simpl in Hr.
    + unfold ret at 1.
      pose proof (after_tables_same_requests E y m name (ATables ts) s1) as K.
      unfold same_requests in K. rewrite K, Hr, Kd.
      destruct (lxml_installed E); eexists; split;
        [reflexivity | simpl; lia | symmetry; apply app_nil_r | simpl; lia].
    + simpl. rewrite Hr, Kd.
      destruct (lxml_installed E); eexists; split;
        [reflexivity | simpl; lia | symmetry; apply app_nil_r | simpl; lia].
Qed.

(** X2. Once the dates are accepted, what a call asks the network is decided
    by the cache: nothing when the tables of the month are cached; exactly
    one page otherwise (lxml being installed), the default view for the
    current month and the view of the month for any other, and this whether
    the call then returns or raises. *)
Theorem accessor_request (E : Env) (month year : option Z)
  (expiry : option date) (name : string) (s : State)
  (y m : Z) (e : date) (s0 : State) :
  _try_parse_dates E year month expiry s = (Return (y, m, e), s0) ->
  let s' := snd (_get_option_data E month year expiry name s) in
  (is_Some (dict (self s) !! table_name y m) -> requests s' = requests s)
  /\ (dict (self s) !! table_name y m = None -> lxml_installed E = true ->
      requests s'
      = (requests s ++ [page_url E (symbol (self s)) y m])%list).
Proof.
  intros Hdates s'.
  destruct (try_parse_dates_Return _ _ _ _ _ _ _ _ _ Hdates) as [Hself Hreq].
  destruct (try_parse_dates_expiry _ _ _ _ _ _ _ _ _ Hdates) as [<- <-].
  unfold s'. rewrite get_option_data_unfold.
  rewrite (bind_Return _ _ _ _ _ Hdates). split.
  - intros [a Ha]. rewrite <- Hself in Ha.
    rewrite (bind_Return _ _ _ _ _ (cache_hit E _ _ e s0 a Ha)).
    pose proof (after_tables_same_requests E (d_year e) (d_month e) name a s0)
      as K.
    unfold same_requests in K. rewrite K. exact Hreq.
  - intros Hnone Hlxml. rewrite <- Hself in Hnone.
    unfold bind at 1. rewrite (cache_miss E _ _ e s0 Hnone).
    unfold bind at 1.
    pose proof (get_option_tables_requests E e s0) as Hr.
    rewrite Hlxml, Hself, Hreq in Hr.
    destruct (_get_option_tables E e s0) as [[ts|err] s1]; simpl in Hr.
    + unfold ret at 1.
      pose proof (after_tables_same_requests E (d_year e) (d_month e) name
                    (ATables ts) s1) as K.
      unfold same_requests in K. rewrite K. exact Hr.
    + exact Hr.
Qed.

Lemma accessor_request_witness :
  requests (snd (_get_option_data (Sample.env Sample.page) None None
                   (Some (Date 2014 9 1)) "puts" Sample.aapl))
  = ["http://finance.yahoo.com/q/op?s=AAPL&m=2014-09"].
Proof.
  pose proof (accessor_request (Sample.env Sample.page) None None
                (Some (Date 2014 9 1)) "puts" Sample.aapl
                2014 9 (Date 2014 9 1) Sample.aapl eq_refl) as H.
  exact (proj2 H eq_refl eq_refl).
Defined.

(** ** Repeating a call *)

(** The three ways a call goes once the dates are accepted: the tables are
    cached; they are fetched; the fetch fails. *)
Lemma accessor_cases E month year expiry name s y m e s0 :
  _try_parse_dates E year month expiry s = (Return (y, m, e), s0) ->
  (exists a, dict (self s0) !! table_name y m = Some a
             /\ _get_option_data E month year expiry name s
                = (tables <- as_tables a ;; table_data E y m name tables) s0)
  \/ (dict (self s0) !! table_name y m = None
      /\ exists ts s1, _get_option_tables E e s0 = (Return ts, s1)
                       /\ _get_option_data E month year expiry name s
                          = table_data E y m name ts s1)
  \/ (dict (self s0) !! table_name y m = None
      /\ exists err s1, _get_option_tables E e s0 = (Raise err, s1)
                        /\ _get_option_data E month year expiry name s
                           = (Raise err, s1)).
Proof.
  intros Hdates.
  destruct (dict (self s0) !! table_name y m) as [a|] eqn:Hk.
  - left. exists a. split; [reflexivity|].
    rewrite get_option_data_unfold, (bind_Return _ _ _ _ _ Hdates).
    rewrite (bind_Return _ _ _ _ _ (cache_hit E y m e s0 a Hk)). reflexivity.
  - right.
    destruct (_get_option_tables E e s0) as [[ts|err] s1] eqn:Hf.
    + left. split; [reflexivity|]. exists ts, s1. split; [reflexivity|].
      rewrite get_option_data_unfold, (bind_Return _ _ _ _ _ Hdates).
      unfold bind at 1. rewrite (cache_miss E y m e s0 Hk).
      rewrite (bind_Return _ _ _ _ _ Hf). reflexivity.
    + right. split; [reflexivity|]. exists err, s1. split; [reflexivity|].
      rewrite get_option_data_unfold, (bind_Return _ _ _ _ _ Hdates).
      unfold bind at 1. rewrite (cache_miss E y m e s0 Hk).
      rewrite (bind_Raise _ _ _ _ _ Hf). reflexivity.
Qed.

(** A fetch that fails has not cached anything. *)
Lemma get_option_tables_Raise E expiry s err s' k :
  _get_option_tables E expiry s = (Raise err, s') ->
  k <> "underlying_price" -> k <> "quote_time" ->
  dict (self s') !! k = dict (self s) !! k.
Proof.
  unfold _get_option_tables. intros H H1 H2.
  unfold bind at 1 in H. rewrite get_option_page_url in H.
  pose proof (parse_url_same_self E
                (page_url E (symbol (self s)) (d_year expiry) (d_month expiry)) s)
    as Ks.
  destruct (_parse_url E _ s) as [[root|err0] s1]; unfold same_self in Ks;
    simpl in Ks.
  - unfold bind at 1 in H.
    pose proof (keeps_parse_option_page (same_attr k) E root
                  (fun a => setattr_same_attr k _ a (not_eq_sym H1))
                  (fun a => setattr_same_attr k _ a (not_eq_sym H2)) s1) as K.
    destruct (_parse_option_page_from_yahoo E root s1) as [[ts|err1] s2];
      unfold same_attr in K; simpl in K.
    + discriminate H.
    + injection H as _ <-. rewrite K, Ks. reflexivity.
  - injection H as _ <-. rewrite Ks. reflexivity.
Qed.

(** [table_data] writes under the name of the side and under the name of
    the side and month, and nowhere else. *)
Lemma table_data_same_attr E y m name tables k :
  (forall loc, table_loc_of name = Return loc ->
               k <> name /\ k <> side_month_name name y m) ->
  keeps (same_attr k) (table_data E y m name tables).
Proof.
  intros Hk. destruct (table_loc_of name) as [loc|err] eqn:Hloc.
  - destruct (Hk loc eq_refl) as [H1 H2].
    apply keeps_table_data; [typeclasses eauto | |];
      intros a; apply setattr_same_attr; apply not_eq_sym; assumption.
  - intros s. unfold table_data, bind, lift. rewrite Hloc. reflexivity.
Qed.

Lemma table_data_same_table_name E y m name tables y' m' :
  keeps (same_attr (table_name y' m')) (table_data E y m name tables).
Proof.
  apply table_data_same_attr. intros loc Hloc.
  unfold table_name, side_month_name.
  destruct (table_loc_of_name _ _ Hloc) as [[-> _]|[-> _]];
    split; discriminate.
Qed.

Lemma table_data_same_snapshot_attrs E y m name tables :
  keeps (same_attr "underlying_price") (table_data E y m name tables)
  /\ keeps (same_attr "quote_time") (table_data E y m name tables).
Proof.
  split; apply table_data_same_attr; intros loc Hloc;
    unfold side_month_name;
    destruct (table_loc_of_name _ _ Hloc) as [[-> _]|[-> _]];
    split; discriminate.
Qed.


#[local] Instance same_symbol_preorder : PreOrder same_symbol.
Proof.
  split; [intros s; reflexivity|].
  intros a b c H1 H2. unfold same_symbol in *. congruence.
Qed.

Lemma table_data_same_symbol E y m name tables :
  keeps same_symbol (table_data E y m name tables).
Proof.
  apply keeps_table_data; [typeclasses eauto | |]; intros a s; reflexivity.
Qed.

Lemma table_data_same_snapshot E y m name tables s :
  same_snapshot s (snd (table_data E y m name tables s)).
Proof.
  destruct (table_data_same_snapshot_attrs E y m name tables) as [Kp Kq].
  pose proof (table_data_same_symbol E y m name tables s) as Ks.
  specialize (Kp s). specialize (Kq s).
  unfold same_snapshot, same_attr, same_symbol in *.
  repeat split; symmetry; assumption.
Qed.

(** The processing of a table reads the symbol and the snapshot, and
    nothing else of the session. *)
Lemma process_data_reads E frame type s t :
  same_snapshot s t ->
  fst (_process_data E frame type s) = fst (_process_data E frame type t).
Proof.
  intros (Hs & Hp & Hq).
  unfold _process_data, bind, lift, get_symbol, getattr_value, getattr,
    attr_value, ret, raise.
  repeat (unfold bind; cbv beta iota zeta; rewrite ?Hs, ?Hp, ?Hq;
          try reflexivity;
          match goal with
          | |- context [match ?o with Return _ => _ | Raise _ => _ end] =>
              destruct o
          | |- context [match ?o with Some _ => _ | None => _ end] =>
              destruct o
          | |- context [match ?a with AValue _ => _ | _ => _ end] =>
              destruct a
          end).
Qed.

Lemma table_data_reads E y m name tables s t :
  same_snapshot s t ->
  fst (table_data E y m name tables s) = fst (table_data E y m name tables t).
Proof.
  intros Hst. unfold table_data, try_except.
  repeat (unfold bind, lift; cbv beta iota zeta; try reflexivity;
          match goal with
          | |- context [match ?o with Return _ => _ | Raise _ => _ end] =>
              destruct o
          | |- context [if ?c then _ else _] => destruct c
          | |- context [_process_data E ?f ?ty s] =>
              pose proof (process_data_reads E f ty s t Hst) as Hp;
              destruct (_process_data E f ty s) as [[p|e1] s1];
              destruct (_process_data E f ty t) as [[p'|e2] t1];
              simpl in Hp; try discriminate Hp; injection Hp as <-
          end).
Qed.

(** The call after the tables are in hand, seen from a later state in which
    the same tables are cached and the snapshot is the same. *)
Lemma accessor_on_cached E month year expiry name s y m e s0 t tables :
  _try_parse_dates E year month expiry s = (Return (y, m, e), s0) ->
  dict (self t) !! table_name y m = Some (ATables tables) ->
  exists t0,
    _get_option_data E month year expiry name t
    = table_data E y m name tables t0
    /\ self t0 = self t /\ requests t0 = requests t.
Proof.
  intros Hdates Hk.
  destruct (try_parse_dates_again _ _ _ _ _ _ _ _ _ t Hdates)
    as (t0 & Hdates' & Hself & Hreq).
  exists t0. split; [|split; assumption].
  rewrite get_option_data_unfold, (bind_Return _ _ _ _ _ Hdates').
  rewrite (bind_Return _ _ _ _ _
             (cache_hit E y m e t0 (ATables tables)
                ltac:(rewrite Hself; exact Hk))).
  reflexivity.
Qed.

Lemma same_snapshot_self s t : self s = self t -> same_snapshot s t.
Proof. intros H. unfold same_snapshot. rewrite H. repeat split. Qed.

Lemma same_snapshot_trans s t u :
  same_snapshot s t -> same_snapshot t u -> same_snapshot s u.
Proof.
  intros (A1 & A2 & A3) (B1 & B2 & B3). unfold same_snapshot.
  repeat split; congruence.
Qed.

(** X3. Once the tables of a month are cached, the call is repeatable: the
    same call on the state it left makes no request and ends as it did, with
    the same table when it returned and with the same exception when it
    raised. A page that failed to yield a table is thus not fetched again. *)
Theorem accessor_repeatable (E : Env) (month year : option Z)
  (expiry : option date) (name : string) (s : State)
  (y m : Z) (e : date) (s0 : State) (tables : list element) :
  _try_parse_dates E year month expiry s = (Return (y, m, e), s0) ->
  let r := _get_option_data E month year expiry name s in
  dict (self (snd r)) !! table_name y m = Some (ATables tables) ->
  fst (_get_option_data E month year expiry name (snd r)) = fst r
  /\ requests (snd (_get_option_data E month year expiry name (snd r)))
     = requests (snd r).
Proof.
  intros Hdates r Hcached.
  destruct (try_parse_dates_expiry _ _ _ _ _ _ _ _ _ Hdates) as [Hy Hm].
  (* the first call ran [table_data] on the tables now cached *)
  assert (Hfirst : exists s1, r = table_data E y m name tables s1).
  { destruct (accessor_cases E month year expiry name s y m e s0 Hdates)
      as [(a & Hk & Hr) | [(Hk & ts & s1 & Hf & Hr) | (Hk & err & s1 & Hf & Hr)]];
      fold r in Hr.
    - assert (Ha : a = ATables tables).
      { destruct a as [v|ts|df].
        - rewrite Hr in Hcached. simpl in Hcached. congruence.
        - rewrite Hr in Hcached. unfold bind, as_tables, ret in Hcached.
          pose proof (table_data_same_table_name E y m name ts y m s0) as K.
          unfold same_attr in K. rewrite K, Hk in Hcached.
          injection Hcached as ->. reflexivity.
        - rewrite Hr in Hcached. simpl in Hcached. congruence. }
      subst a. exists s0. exact Hr.
    - exists s1. rewrite Hr. f_equal.
      destruct (get_option_tables_Return _ _ _ _ _ Hf) as [Hc _].
      rewrite Hy, Hm in Hc.
      pose proof (table_data_same_table_name E y m name ts y m s1) as K.
      unfold same_attr in K. rewrite Hr in Hcached. rewrite K, Hc in Hcached.
      injection Hcached as ->. reflexivity.
    - exfalso. rewrite Hr in Hcached. simpl in Hcached.
      rewrite (get_option_tables_Raise _ _ _ _ _ (table_name y m) Hf) in Hcached
        by (unfold table_name; discriminate).
      congruence. }
  destruct Hfirst as [s1 Hr]. clearbody r. subst r.
  destruct (accessor_on_cached E month year expiry name s y m e s0
              (snd (table_data E y m name tables s1))
              tables Hdates Hcached) as (t0 & Hsecond & Hself & Hreq).
  rewrite Hsecond. split.
  - symmetry. apply table_data_reads.
    apply (same_snapshot_trans _ (snd (table_data E y m name tables s1))).
    + apply table_data_same_snapshot.
    + apply same_snapshot_self. symmetry. exact Hself.
  - pose proof (keeps_table_data same_requests E y m name tables
                  (setattr_same_requests _) (setattr_same_requests _) t0) as K.
    unfold same_requests in K. rewrite K. exact Hreq.
Qed.

Lemma accessor_repeatable_witness :
  fst (_get_option_data (Sample.env (Sample.page_of_tables 7)) None None None
         "calls"
         (snd (_get_option_data (Sample.env (Sample.page_of_tables 7))
                 None None None "calls" Sample.aapl)))
  = Raise (Exn RemoteDataError "Table location 9 invalid, 7 tables found")
  /\ requests
       (snd (_get_option_data (Sample.env (Sample.page_of_tables 7)) None None
               None "calls"
               (snd (_get_option_data (Sample.env (Sample.page_of_tables 7))
                       None None None "calls" Sample.aapl))))
     = ["http://finance.yahoo.com/q/op?s=AAPL+Options"].
Proof.
  pose proof (accessor_repeatable (Sample.env (Sample.page_of_tables 7))
                None None None "calls" Sample.aapl 2014 6 (Date 2014 6 1)
                Sample.aapl (replicate 7 Sample.filler) eq_refl
                ltac:(vm_compute; reflexivity)) as [H1 H2].
  split.
  - rewrite H1. vm_compute. reflexivity.
  - rewrite H2. vm_compute. reflexivity.
Defined.

(** ** Failing calls *)

(** When [table_data] raises it has written nothing, and for the two sides
    the exception is a [RemoteDataError]. *)
Lemma table_data_Raise E y m name tables s err s' :
  table_data E y m name tables s = (Raise err, s') ->
  s' = s
  /\ (forall loc, table_loc_of name = Return loc ->
                  exn_cls err = RemoteDataError).
Proof.
  unfold table_data, try_except.
  unfold bind at 1, lift at 1.
  destruct (table_loc_of name) as [loc|e0].
  2:{ intros H. injection H as <- <-. split; [reflexivity | discriminate]. }
  destruct (loc - 1 >? Z.of_nat (length tables)).
  { unfold raise. intros H. injection H as <- <-.
    split; [reflexivity | intros; reflexivity]. }
  unfold bind at 1, lift at 1.
  destruct (getitem tables (Z.to_nat loc)) as [table|e1].
  2:{ simpl. unfold raise. intros H. injection H as <- <-.
      split; [reflexivity | intros; reflexivity]. }
  unfold bind at 1, lift at 1.
  destruct (_parse_options_data E table) as [od|e2].
  2:{ simpl. unfold raise. intros H. injection H as <- <-.
      split; [reflexivity | intros; reflexivity]. }
  unfold bind at 1.
  match goal with
  | |- context [_process_data E ?f ?ty s] =>
      pose proof (keeps_process_data eq E f ty s) as Ks;
      destruct (_process_data E f ty s) as [[p|e3] s1]
  end; simpl in Ks; subst s1.
  - unfold bind, setattr, ret.
    destruct ((m =? CUR_MONTH E) && (y =? CUR_YEAR E)); discriminate.
  - simpl. unfold raise. intros H. injection H as <- <-.
    split; [reflexivity | intros; reflexivity].
Qed.

(** X4. A call that raises has stored no table: apart from the snapshot and
    the cache of the page, every attribute of the session is as it was, so
    a table stored by an earlier call is never lost to a failure. *)
Theorem accessor_failure_keeps_attributes (E : Env) (month year : option Z)
  (expiry : option date) (name : string) (s : State) (err : exn) (s' : State)
  (k : string) :
  _get_option_data E month year expiry name s = (Raise err, s') ->
  k <> "underlying_price" -> k <> "quote_time" ->
  (forall y m, k <> table_name y m) ->
  dict (self s') !! k = dict (self s) !! k.
Proof.
  intros Hcall H1 H2 H3.
  destruct (_try_parse_dates E year month expiry s) as [[[[y m] e]|err0] s0] eqn:Hdates.
  - destruct (try_parse_dates_Return _ _ _ _ _ _ _ _ _ Hdates) as [Hself _].
    destruct (try_parse_dates_expiry _ _ _ _ _ _ _ _ _ Hdates) as [Hy Hm].
    rewrite <- Hself.
    destruct (accessor_cases E month year expiry name s y m e s0 Hdates)
      as [(a & Hk & Hr) | [(Hk & ts & s1 & Hf & Hr) | (Hk & err1 & s1 & Hf & Hr)]];
      rewrite Hr in Hcall.
    + destruct a as [v|ts|df]; try (injection Hcall as _ <-; reflexivity).
      unfold bind, as_tables, ret in Hcall.
      apply table_data_Raise in Hcall as [-> _]. reflexivity.
    + apply table_data_Raise in Hcall as [-> _].
      pose proof (get_option_tables_same_attr E e k H1 H2 (H3 _ _) s0) as K.
      rewrite Hf in K. exact K.
    + injection Hcall as _ <-.
      apply (get_option_tables_Raise _ _ _ _ _ k Hf); assumption.
  - rewrite get_option_data_unfold, (bind_Raise _ _ _ _ _ Hdates) in Hcall.
    injection Hcall as _ <-.
    pose proof (keeps_try_parse_dates same_self E year month expiry
                  warn_same_self s) as K.
    rewrite Hdates in K. unfold same_self in K. simpl in K. rewrite K.
    reflexivity.
Qed.

Lemma accessor_failure_keeps_attributes_witness :
  dict (self (snd (_get_option_data (Sample.env (Sample.page_of_tables 7))
                     None None None "calls" Sample.aapl))) !! "calls"
  = None.
Proof.
  apply (accessor_failure_keeps_attributes
           (Sample.env (Sample.page_of_tables 7)) None None None "calls"
           Sample.aapl
           (Exn RemoteDataError "Table location 9 invalid, 7 tables found")
           _ "calls").
  - vm_compute. reflexivity.
  - discriminate.
  - discriminate.
  - intros y m. unfold table_name. discriminate.
Defined.

(** X5. With the tables of the month cached, a call for the calls or the
    puts either returns or raises [RemoteDataError]: whatever goes wrong
    while the table is picked, parsed and processed reaches the caller under
    that class. *)
Theorem accessor_raises_remote_data_error (E : Env) (month year : option Z)
  (expiry : option date) (name : string) (s : State)
  (y m : Z) (e : date) (s0 : State) (loc : Z) (tables : list element)
  (err : exn) (s' : State) :
  _try_parse_dates E year month expiry s = (Return (y, m, e), s0) ->
  table_loc_of name = Return loc ->
  dict (self s) !! table_name y m = Some (ATables tables) ->
  _get_option_data E month year expiry name s = (Raise err, s') ->
  exn_cls err = RemoteDataError.
Proof.
  intros Hdates Hloc Hk Hcall.
  destruct (accessor_on_cached E month year expiry name s y m e s0 s tables
              Hdates Hk) as (t0 & Heq & _ & _).
  rewrite Heq in Hcall.
  apply table_data_Raise in Hcall as [_ Hc]. exact (Hc loc Hloc).
Qed.

Lemma accessor_raises_remote_data_error_witness :
  exn_cls (Exn RemoteDataError
             "Cannot retrieve Table data list index out of range")
  = RemoteDataError.
Proof.
  pose (E := Sample.env (Sample.page_of_tables 8)).
  pose (s := snd (_get_option_data E None None None "puts" Sample.aapl)).
  apply (accessor_raises_remote_data_error E None None None "calls" s
           2014 6 (Date 2014 6 1) s 9 (replicate 8 Sample.filler) _
           (snd (_get_option_data E None None None "calls" s)));
    vm_compute; reflexivity.
Defined.

(** ** The invariant of the cache *)

(** A page is accepted with at least one table and with the snapshot set; a
    page that is refused leaves the session as it was. *)
Lemma parse_option_page_eq E root s :
  _parse_option_page_from_yahoo E root s
  = match xpath_tag "table" root with
    | [] => (Raise (Exn RemoteDataError "No tables found"), s)
    | _ :: _ =>
        match _get_underlying_price E root with
        | Return pq =>
            (Return (xpath_tag "table" root), with_snapshot (fst pq) (snd pq) s)
        | Raise err =>
            if exn_class_eqb (exn_cls err) IndexError
            then (Return (xpath_tag "table" root), with_snapshot NaN NaN s)
            else (Raise err, s)
        end
    end.
Proof.
  unfold _parse_option_page_from_yahoo.
  destruct (xpath_tag "table" root) as [|t ts]; [reflexivity|].
  simpl Nat.eqb. cbv iota.
  unfold bind at 1, try_except, bind at 1, lift.
  destruct (_get_underlying_price E root) as [[p q]|err]; [reflexivity|].
  destruct (exn_class_eqb (exn_cls err) IndexError); reflexivity.
Qed.

Lemma parse_option_page_outcome E root s :
  (exists p q,
     _parse_option_page_from_yahoo E root s
     = (Return (xpath_tag "table" root), with_snapshot p q s)
     /\ xpath_tag "table" root <> [])
  \/ (exists err, _parse_option_page_from_yahoo E root s = (Raise err, s)).
Proof.
  rewrite parse_option_page_eq.
  destruct (xpath_tag "table" root) as [|t ts].
  - right. eexists. reflexivity.
  - destruct (_get_underlying_price E root) as [[p q]|err].
    + left. exists p, q. split; [reflexivity | discriminate].
    + destruct (exn_class_eqb (exn_cls err) IndexError).
      * left. exists NaN, NaN. split; [reflexivity | discriminate].
      * right. eexists. reflexivity.
Qed.

Lemma get_option_tables_outcome E expiry s :
  (exists ts s1 p q,
     _get_option_tables E expiry s = (Return ts, s1)
     /\ ts <> []
     /\ dict (self s1)
        = <[table_name (d_year expiry) (d_month expiry) := ATables ts]>
            (<["quote_time" := AValue q]>
               (<["underlying_price" := AValue p]> (dict (self s)))))
  \/ (exists err s1,
        _get_option_tables E expiry s = (Raise err, s1) /\ self s1 = self s).
Proof.
  pose proof (parse_url_same_self E
                (page_url E (symbol (self s)) (d_year expiry) (d_month expiry)) s)
    as Ks.
  pose proof (get_option_page_url E expiry s) as Hu.
  destruct (_parse_url E _ s) as [[root|err0] s1]; unfold same_self in Ks;
    simpl in Ks.
  - destruct (parse_option_page_outcome E root s1)
      as [(p & q & Hp & Hne) | (err & Hp)].
    + left. exists (xpath_tag "table" root). eexists. exists p, q.
      split; [|split; [exact Hne|]].
      * unfold _get_option_tables.
        rewrite (bind_Return _ _ _ _ _ Hu), (bind_Return _ _ _ _ _ Hp).
        reflexivity.
      * simpl. rewrite Ks. reflexivity.
    + right. exists err, s1. split; [|exact Ks].
      unfold _get_option_tables.
      rewrite (bind_Return _ _ _ _ _ Hu), (bind_Raise _ _ _ _ _ Hp).
      reflexivity.
  - right. exists err0, s1. split; [|exact Ks].
    unfold _get_option_tables. rewrite (bind_Raise _ _ _ _ _ Hu). reflexivity.
Qed.

Lemma cache_wf_same s t :
  (forall y m, dict (self t) !! table_name y m = dict (self s) !! table_name y m) ->
  dict (self t) !! "underlying_price" = dict (self s) !! "underlying_price" ->
  dict (self t) !! "quote_time" = dict (self s) !! "quote_time" ->
  cache_wf s -> cache_wf t.
Proof.
  intros Hk Hp Hq Hwf y m a Ha. rewrite Hk in Ha.
  destruct (Hwf y m a Ha) as [Hts (p & q & H1 & H2)].
  split; [exact Hts|]. exists p, q. rewrite Hp, Hq. split; assumption.
Qed.

Lemma table_data_cache_wf E y m name tables s :
  cache_wf s -> cache_wf (snd (table_data E y m name tables s)).
Proof.
  destruct (table_data_same_snapshot_attrs E y m name tables) as [Kp Kq].
  apply cache_wf_same.
  - intros y' m'. apply (table_data_same_table_name E y m name tables y' m' s).
  - apply Kp.
  - apply Kq.
Qed.

(** X6. The invariant of the session: a fresh session satisfies [cache_wf]
    and every call of the chain accessor, returning or raising, keeps it.
    So whatever is found under a cache name is a non-empty list of tables,
    and the snapshot a cached table is processed with is always there. *)
Theorem accessor_keeps_cache_wf (E : Env) (month year : option Z)
  (expiry : option date) (name : string) (s : State) :
  cache_wf s ->
  cache_wf (snd (_get_option_data E month year expiry name s)).
Proof.
  intros Hwf.
  destruct (_try_parse_dates E year month expiry s) as [[[[y m] e]|err0] s0] eqn:Hdates.
  - destruct (try_parse_dates_Return _ _ _ _ _ _ _ _ _ Hdates) as [Hself _].
    assert (Hwf0 : cache_wf s0).
    { revert Hwf. apply cache_wf_same; intros; rewrite Hself; reflexivity. }
    destruct (accessor_cases E month year expiry name s y m e s0 Hdates)
      as [(a & Hk & Hr) | [(Hk & ts & s1 & Hf & Hr) | (Hk & err1 & s1 & Hf & Hr)]];
      rewrite Hr.
    + destruct a as [v|ts|df]; try exact Hwf0.
      apply table_data_cache_wf. exact Hwf0.
    + apply table_data_cache_wf.
      destruct (get_option_tables_outcome E e s0)
        as [(ts' & s1' & p & q & Hf' & Hne & Hd) | (err & s1' & Hf' & _)];
        rewrite Hf in Hf'; [|discriminate Hf'].
      injection Hf' as <- <-.
      intros y' m' a Ha. rewrite Hd in Ha |- *. split.
      * destruct (decide (table_name (d_year e) (d_month e) = table_name y' m'))
          as [Heq|Hne'].
        -- rewrite Heq, lookup_insert_eq in Ha. injection Ha as <-.
           exists ts. split; [reflexivity | exact Hne].
        -- rewrite lookup_insert_ne in Ha by exact Hne'.
           rewrite !lookup_insert_ne in Ha by (unfold table_name; discriminate).
           exact (proj1 (Hwf0 y' m' a Ha)).
      * exists p, q. split.
        -- rewrite !lookup_insert_ne by (unfold table_name; discriminate).
           apply lookup_insert_eq.
        -- rewrite lookup_insert_ne by (unfold table_name; discriminate).
           apply lookup_insert_eq.
    + simpl.
      destruct (get_option_tables_outcome E e s0)
        as [(ts' & s1' & p & q & Hf' & _) | (err & s1' & Hf' & Hs)];
        rewrite Hf in Hf'; [discriminate Hf'|].
      injection Hf' as _ <-.
      revert Hwf0. apply cache_wf_same; intros; rewrite Hs; reflexivity.
  - rewrite get_option_data_unfold, (bind_Raise _ _ _ _ _ Hdates). simpl.
    pose proof (keeps_try_parse_dates same_self E year month expiry
                  warn_same_self s) as K.
    rewrite Hdates in K. unfold same_self in K. simpl in K.
    revert Hwf. apply cache_wf_same; intros; rewrite K; reflexivity.
Qed.

Lemma init_cache_wf symbol data_source s :
  __init__ symbol data_source = Return s -> cache_wf s.
Proof.
  unfold __init__. destruct (negb _); [discriminate|].
  intros H. injection H as <-. intros y m a Ha. simpl in Ha.
  rewrite lookup_empty in Ha. discriminate Ha.
Qed.

Lemma accessor_keeps_cache_wf_witness :
  cache_wf (snd (_get_option_data (Sample.env Sample.page) None None None
                   "calls" Sample.aapl)).
Proof.
  apply (accessor_keeps_cache_wf (Sample.env Sample.page) None None None
           "calls" Sample.aapl).
  apply (init_cache_wf "aapl" (Some "yahoo")). vm_compute. reflexivity.
Defined.

(** ** The processed table *)

Lemma set_index_four_index k1 k2 k3 k4 df df' :
  k1 <> k2 -> k1 <> k3 -> k1 <> k4 -> k2 <> k3 -> k2 <> k4 -> k3 <> k4 ->
  Frame.set_index [k1; k2; k3; k4] df = Return df' ->
  exists v1 v2 v3 v4,
    Frame.lookup k1 (Frame.columns df) = Some v1
    /\ Frame.lookup k2 (Frame.columns df) = Some v2
    /\ Frame.lookup k3 (Frame.columns df) = Some v3
    /\ Frame.lookup k4 (Frame.columns df) = Some v4
    /\ Frame.index df' = [(k1, v1); (k2, v2); (k3, v3); (k4, v4)]
    /\ Frame.columns df'
       = Frame.remove k4 (Frame.remove k3 (Frame.remove k2
           (Frame.remove k1 (Frame.columns df)))).
Proof.
  intros H12 H13 H14 H23 H24 H34. unfold Frame.set_index. simpl.
  destruct (Frame.lookup k1 (Frame.columns df)) as [v1|] eqn:E1;
    [|discriminate].
  destruct (Frame.lookup k2 _) as [v2|] eqn:E2; [|discriminate].
  destruct (Frame.lookup k3 _) as [v3|] eqn:E3; [|discriminate].
  destruct (Frame.lookup k4 _) as [v4|] eqn:E4; [|discriminate].
  simpl. intros H. injection H as <-. simpl.
  rewrite lookup_remove_ne in E2 by assumption.
  do 2 rewrite lookup_remove_ne in E3 by assumption.
  do 3 rewrite lookup_remove_ne in E4 by assumption.
  exists v1, v2, v3, v4. repeat split; first [assumption | reflexivity].
Qed.

Lemma nrows_setitem k vs df : Frame.nrows (Frame.setitem k vs df) = Frame.nrows df.
Proof. reflexivity. Qed.

Lemma nrows_setitem_scalar k v df :
  Frame.nrows (Frame.setitem_scalar k v df) = Frame.nrows df.
Proof. reflexivity. Qed.

Lemma nrows_rename old new df :
  Frame.nrows (Frame.rename old new df) = Frame.nrows df.
Proof. reflexivity. Qed.

Lemma delitem_nrows k df df' :
  Frame.delitem k df = Return df' -> Frame.nrows df' = Frame.nrows df.
Proof.
  unfold Frame.delitem. destruct (Frame.lookup k (Frame.columns df));
    intros H; inversion H. reflexivity.
Qed.

(** X7. A processed table is indexed by Strike, Expiry, Type and Symbol, in
    this order; on every row Type is the side asked for, Underlying the
    symbol of the session and Underlying_Price the price of its snapshot. *)
Theorem process_data_shape (E : Env) (frame : Frame.DataFrame) (type : string)
  (s : State) (frame' : Frame.DataFrame) (s' : State) :
  _process_data E frame type s = (Return frame', s') ->
  List.map fst (Frame.index frame')
  = [VStr "Strike"; VStr "Expiry"; VStr "Type"; VStr "Symbol"]
  /\ Frame.lookup (VStr "Type") (Frame.index frame')
     = Some (replicate (Frame.nrows frame) (VStr type))
  /\ Frame.lookup (VStr "Underlying") (Frame.columns frame')
     = Some (replicate (Frame.nrows frame) (VStr (symbol (self s))))
  /\ exists price,
       dict (self s) !! "underlying_price" = Some (AValue price)
       /\ Frame.lookup (VStr "Underlying_Price") (Frame.columns frame')
          = Some (replicate (Frame.nrows frame) price).
Proof.
  intros H. unfold _process_data in H.
  lift_step H symbol_col.
  lift_step H rootexp.
  lift_step H rootexp'.
  lift_step H expiry.
  lift_step H root.
  apply bind_inv in H as (sym & s1 & Hsym & H).
  unfold get_symbol in Hsym. injection Hsym as <- <-.
  lift_step H frame5.
  apply bind_inv in H as (price & s2 & Hprice & H).
  pose proof (getattr_value_state _ _ _ _ Hprice) as ->.
  apply bind_inv in H as (qt & s3 & Hqt & H).
  apply getattr_value_state in Hqt as ->.
  unfold lift in H. injection H as H <-.
  pose proof (delitem_nrows _ _ _ Hx4) as Hn.
  rewrite !nrows_setitem in Hn.
  apply delitem_columns in Hx4.
  apply set_index_four_index in H
    as (v1 & v2 & v3 & v4 & _ & _ & H3 & _ & Hidx & Hcols); try discriminate.
  rewrite Hidx, Hcols. simpl List.map.
  rewrite columns_setitem_scalar, lookup_assign_eq in H3.
  rewrite nrows_rename, !nrows_setitem_scalar, Hn in H3.
  injection H3 as <-.
  split; [reflexivity|]. split; [reflexivity|]. split.
  - other_columns. rewrite lookup_assign_eq, ?nrows_setitem_scalar, Hn.
    reflexivity.
  - exists price. split.
    + unfold getattr_value, bind, getattr in Hprice.
      destruct (dict (self s) !! "underlying_price") as [[v|ts|df]|];
        simpl in Hprice; unfold ret, raise in Hprice; inversion Hprice.
      reflexivity.
    + other_columns. rewrite lookup_assign_eq, ?nrows_setitem_scalar, Hn.
      reflexivity.
Qed.

Lemma process_data_shape_witness :
  Frame.lookup (VStr "Type")
    (Frame.index
       (Sample.returned Sample.empty_frame
          (fst (_process_data (Sample.env Sample.page) Sample.brk_table
                  "call" Sample.brk))))
  = Some [VStr "call"].
Proof.
  pose proof (process_data_shape (Sample.env Sample.page) Sample.brk_table
                "call" Sample.brk _ Sample.brk
                ltac:(vm_compute; reflexivity)) as H.
  exact (proj1 (proj2 H)).
Defined.

Lemma remove_assign_comm k k' vs cols :
  k <> k' ->
  Frame.remove k (Frame.assign k' vs cols)
  = Frame.assign k' vs (Frame.remove k cols).
Proof.
  intros Hne. induction cols as [|[k0 v0] cols IH]; simpl.
  - rewrite (value_eqb_neq k' k) by congruence. reflexivity.
  - destruct (value_eqb k0 k') eqn:E1.
    + apply value_eqb_eq in E1. subst k0. simpl.
      rewrite (value_eqb_neq k' k) by congruence. simpl.
      rewrite value_eqb_refl. reflexivity.
    + simpl. destruct (value_eqb k0 k) eqn:E2; simpl.
      * reflexivity.
      * rewrite E1, IH. reflexivity.
Qed.

Lemma remove_remove_comm k k' cols :
  Frame.remove k (Frame.remove k' cols) = Frame.remove k' (Frame.remove k cols).
Proof.
  induction cols as [|[k0 v0] cols IH]; simpl; [reflexivity|].
  destruct (value_eqb k0 k') eqn:E1, (value_eqb k0 k) eqn:E2; simpl;
    rewrite ?E1, ?E2; try reflexivity.
  - apply value_eqb_eq in E1, E2. subst. reflexivity.
  - rewrite IH. reflexivity.
Qed.

Lemma remove_rename_comm k old new df :
  old <> k -> new <> k ->
  Frame.remove k (Frame.columns (Frame.rename old new df))
  = Frame.columns
      (Frame.rename old new
         (Frame.Build (Frame.index df) (Frame.remove k (Frame.columns df)))).
Proof.
  intros Ho Hn. unfold Frame.rename. simpl.
  induction (Frame.columns df) as [|[k0 v0] cols IH]; simpl; [reflexivity|].
  destruct (value_eqb k0 old) eqn:E1; simpl.
  - apply value_eqb_eq in E1. subst k0.
    rewrite (value_eqb_neq _ _ Hn), (value_eqb_neq _ _ Ho). simpl.
    rewrite value_eqb_refl, IH. reflexivity.
  - destruct (value_eqb k0 k) eqn:E2; simpl; [reflexivity|].
    rewrite E1, IH. reflexivity.
Qed.

(** X8. Processing is not repeatable: it moves the Symbol column into the
    index, so processing its own result again stops at [frame.Symbol] with
    an [AttributeError] (for a table parsed with one Symbol column). *)
Theorem process_data_not_repeatable (E : Env) (frame : Frame.DataFrame)
  (type : string) (s : State) (frame' : Frame.DataFrame) (s' : State)
  (type' : string) (t : State) :
  _process_data E frame type s = (Return frame', s') ->
  Frame.lookup (VStr "Symbol")
    (Frame.remove (VStr "Symbol") (Frame.columns frame)) = None ->
  _process_data E frame' type' t
  = (Raise (Exn AttributeError "'DataFrame' object has no attribute 'Symbol'"),
     t).
Proof.
  intros H Hone. unfold _process_data in H.
  lift_step H symbol_col.
  lift_step H rootexp.
  lift_step H rootexp'.
  lift_step H expiry.
  lift_step H root.
  apply bind_inv in H as (sym & s1 & Hsym & H).
  unfold get_symbol in Hsym. injection Hsym as <- <-.
  lift_step H frame5.
  apply bind_inv in H as (price & s2 & Hprice & H).
  apply getattr_value_state in Hprice as ->.
  apply bind_inv in H as (qt & s3 & Hqt & H).
  apply getattr_value_state in Hqt as ->.
  unfold lift in H. injection H as H <-.
  apply delitem_columns in Hx4.
  apply set_index_four_index in H
    as (v1 & v2 & v3 & v4 & _ & _ & _ & _ & _ & Hcols); try discriminate.
  assert (Hnone : Frame.lookup (VStr "Symbol") (Frame.columns frame') = None).
  { rewrite Hcols.
    rewrite (remove_remove_comm (VStr "Symbol") (VStr "Type")).
    rewrite lookup_remove_ne by discriminate.
    rewrite (remove_remove_comm (VStr "Symbol") (VStr "Expiry")).
    rewrite lookup_remove_ne by discriminate.
    rewrite (remove_remove_comm (VStr "Symbol") (VStr "Strike")).
    rewrite lookup_remove_ne by discriminate.
    rewrite columns_setitem_scalar, remove_assign_comm by discriminate.
    rewrite lookup_assign_ne by discriminate.
    rewrite remove_rename_comm by discriminate.
    rewrite lookup_rename_ne by discriminate.
    simpl Frame.columns.
    repeat (rewrite ?columns_setitem_scalar, ?columns_setitem;
            rewrite remove_assign_comm by discriminate;
            rewrite lookup_assign_ne by discriminate).
    rewrite Hx4, remove_remove_comm, lookup_remove_ne by discriminate.
    repeat (rewrite ?columns_setitem_scalar, ?columns_setitem;
            rewrite remove_assign_comm by discriminate;
            rewrite lookup_assign_ne by discriminate).
    exact Hone. }
  unfold _process_data, bind, lift, Frame.getattr. rewrite Hnone. reflexivity.
Qed.

Lemma process_data_not_repeatable_witness :
  fst (_process_data (Sample.env Sample.page)
         (Sample.returned Sample.empty_frame
            (fst (_process_data (Sample.env Sample.page) Sample.brk_table
                    "call" Sample.brk)))
         "call" Sample.brk)
  = Raise (Exn AttributeError "'DataFrame' object has no attribute 'Symbol'").
Proof.
  pose proof (process_data_not_repeatable (Sample.env Sample.page)
                Sample.brk_table "call" Sample.brk
                (Sample.returned Sample.empty_frame
                   (fst (_process_data (Sample.env Sample.page)
                           Sample.brk_table "call" Sample.brk)))
                Sample.brk "call" Sample.brk
                ltac:(vm_compute; reflexivity) ltac:(vm_compute; reflexivity))
    as H.
  rewrite H. reflexivity.
Defined.

(** * Further properties of the near-price filter *)

Lemma slice_length_le {A} (a b : Z) (l : list A) :
  0 <= b ->
  Z.of_nat (length (PyStr.slice (Some a) (Some b) l)) <= Z.max 0 (b - a).
Proof.
  intros Hb. unfold PyStr.slice, PyStr.slice_bound.
  rewrite length_take, length_drop.
  destruct (a <? 0) eqn:Ea, (b <? 0) eqn:Eb;
    try apply Z.ltb_lt in Ea; try apply Z.ltb_ge in Ea;
    try apply Z.ltb_lt in Eb; try apply Z.ltb_ge in Eb; lia.
Qed.

Lemma slice_wraps_empty {A} (a b : Z) (l : list A) :
  a < 0 -> 0 <= b -> b <= a + Z.of_nat (length l) ->
  PyStr.slice (Some a) (Some b) l = [].
Proof.
  intros Ha Hb Hl. unfold PyStr.slice, PyStr.slice_bound.
  replace (a <? 0) with true by (symmetry; apply Z.ltb_lt; lia).
  replace (b <? 0) with false by (symmetry; apply Z.ltb_ge; lia).
  replace (Z.to_nat (Z.min b (Z.of_nat (length l))
                     - Z.max 0 (a + Z.of_nat (length l)))) with 0%nat by lia.
  reflexivity.
Qed.

Lemma select_rows_length {A} (keep : nat -> bool) (l : list A) :
  (length (Frame.select_rows keep l) <= length l)%nat.
Proof.
  unfold Frame.select_rows. rewrite length_map.
  etransitivity; [apply List.filter_length_le|].
  rewrite length_imap. reflexivity.
Qed.

Lemma first_true_all_false mask i :
  Forall (fun b => b = false) mask ->
  first_true mask i
  = Raise (Exn IndexError "index 0 is out of bounds for axis 0 with size 0").
Proof.
  intros H. revert i. induction H as [|b mask -> _ IH]; intros i; simpl.
  - reflexivity.
  - apply IH.
Qed.

(** X9. When the price in effect (the argument when it is truthy, the
    price stored on the session otherwise) is a number and no strike of the
    table exceeds it, in particular on a table without rows, [chop_data]
    raises [IndexError]: it does not return the last rows, nor an empty
    table. *)
Theorem chop_data_no_strike_above (df : Frame.DataFrame) (above_below : Z)
  (u : value) (s : State) (price : value) (ks : list value)
  (mask : list bool) :
  price_in_effect u s = Some price ->
  np_isnan price = Return false ->
  strikes_of df = Some ks ->
  above price ks = Return mask ->
  Forall (fun b => b = false) mask ->
  chop_data df above_below u s
  = (Raise (Exn IndexError "index 0 is out of bounds for axis 0 with size 0"),
     s).
Proof.
  intros Hq Hn Hk Hm Hall.
  rewrite (chop_data_window_of df above_below u s price ks mask Hq Hn Hk Hm).
  rewrite (first_true_all_false mask 0 Hall). reflexivity.
Qed.

Lemma chop_data_no_strike_above_witness :
  chop_data Sample.seven 2 VNone (with_snapshot (VFloat 70) NaN Sample.aapl)
  = (Raise (Exn IndexError "index 0 is out of bounds for axis 0 with size 0"),
     with_snapshot (VFloat 70) NaN Sample.aapl).
Proof.
  apply (chop_data_no_strike_above Sample.seven 2 VNone
           (with_snapshot (VFloat 70) NaN Sample.aapl) (VFloat 70)
           (List.map VInt [10; 20; 30; 40; 50; 60; 70]) (replicate 7 false));
    try reflexivity.
  repeat constructor.
Defined.

Lemma first_true_from mask j k : first_true mask j = Return k -> j <= k.
Proof.
  revert j k. induction mask as [|b mask IH]; intros j k; simpl;
    [discriminate|].
  destruct b; [intros H; injection H as <-; lia|].
  intros H. apply IH in H. lia.
Qed.

(** X10. For a window size that is not negative and a price in effect (the
    argument when it is truthy, the price stored on the session otherwise)
    that is a number, the table [chop_data] returns has at most
    [2 * above_below + 1] rows, wherever the window falls. *)
Theorem chop_data_at_most_window (df : Frame.DataFrame) (above_below : Z)
  (u : value) (s : State) (price : value) (ks : list value)
  (mask : list bool) (df' : Frame.DataFrame) (s' : State) :
  0 <= above_below ->
  price_in_effect u s = Some price ->
  np_isnan price = Return false ->
  strikes_of df = Some ks ->
  above price ks = Return mask ->
  chop_data df above_below u s = (Return df', s') ->
  exists ks', strikes_of df' = Some ks'
              /\ Z.of_nat (length ks') <= 2 * above_below + 1.
Proof.
  intros Hab Hq Hn Hk Hm Hcall.
  rewrite (chop_data_window_of df above_below u s price ks mask Hq Hn Hk Hm)
    in Hcall.
  destruct (first_true mask 0) as [i|err] eqn:Hi; [|discriminate Hcall].
  injection Hcall as <- <-.
  pose proof (first_true_from _ _ _ Hi) as Hi0.
  unfold Frame.dropna_all, Frame.row_slice.
  rewrite !strikes_of_map_rows, Hk. simpl. eexists. split; [reflexivity|].
  etransitivity; [apply inj_le, select_rows_length|].
  etransitivity; [apply slice_length_le; lia|]. lia.
Qed.

Lemma chop_data_at_most_window_witness :
  exists ks',
    strikes_of (Frame.dropna_all (Frame.row_slice 4 9 Sample.seven)) = Some ks'
    /\ Z.of_nat (length ks') <= 2 * 2 + 1.
Proof.
  apply (chop_data_at_most_window Sample.seven 2 (VInt 62) Sample.aapl
           (VInt 62) (List.map VInt [10; 20; 30; 40; 50; 60; 70])
           [false; false; false; false; false; false; true] _ Sample.aapl);
    first [reflexivity | lia].
Defined.

(** X11. A window that starts before the first row wraps around: when the
    first strike above the price in effect (the argument when it is truthy,
    the price stored on the session otherwise) sits at a position smaller
    than [above_below] and the table has at least [2 * above_below + 1]
    rows, the slice starts at a negative position, which Python counts from
    the end, and the result has no row at all. *)
Theorem chop_data_wraps_to_empty (df : Frame.DataFrame) (above_below : Z)
  (u : value) (s : State) (price : value) (ks : list value)
  (mask : list bool) (i : Z) :
  price_in_effect u s = Some price ->
  np_isnan price = Return false ->
  strikes_of df = Some ks ->
  above price ks = Return mask ->
  first_true mask 0 = Return i ->
  i < above_below ->
  2 * above_below + 1 <= Z.of_nat (length ks) ->
  exists df', chop_data df above_below u s = (Return df', s)
              /\ strikes_of df' = Some [].
Proof.
  intros Hq Hn Hk Hm Hi Hlt Hlen.
  rewrite (chop_data_window_of df above_below u s price ks mask Hq Hn Hk Hm),
    Hi.
  eexists. split; [reflexivity|].
  pose proof (first_true_from _ _ _ Hi) as Hi0.
  unfold Frame.dropna_all, Frame.row_slice.
  rewrite !strikes_of_map_rows, Hk. simpl.
  rewrite slice_wraps_empty by lia. reflexivity.
Qed.

Lemma chop_data_wraps_to_empty_witness :
  exists df', chop_data Sample.seven 2 (VInt 0)
                (with_snapshot (VInt 15) NaN Sample.aapl)
              = (Return df', with_snapshot (VInt 15) NaN Sample.aapl)
              /\ strikes_of df' = Some [].
Proof.
  apply (chop_data_wraps_to_empty Sample.seven 2 (VInt 0)
           (with_snapshot (VInt 15) NaN Sample.aapl) (VInt 15)
           (List.map VInt [10; 20; 30; 40; 50; 60; 70])
           [false; true; true; true; true; true; true] 1);
    first [reflexivity | lia | (simpl; lia)].
Defined.

(** * Chunks *)

Lemma slice_take_drop {A} (a b : Z) (l : list A) :
  0 <= a <= b ->
  PyStr.slice (Some a) (Some b) l
  = take (Z.to_nat b - Z.to_nat a) (drop (Z.to_nat a) l).
Proof.
  intros Hab. unfold PyStr.slice, PyStr.slice_bound.
  replace (a <? 0) with false by (symmetry; apply Z.ltb_ge; lia).
  replace (b <? 0) with false by (symmetry; apply Z.ltb_ge; lia).
  destruct (Z.le_gt_cases (Z.of_nat (length l)) a) as [Hge|Hlt].
  - rewrite !drop_ge by lia. rewrite !take_nil. reflexivity.
  - replace (Z.to_nat (Z.min a (Z.of_nat (length l)))) with (Z.to_nat a) by lia.
    destruct (Z.le_gt_cases b (Z.of_nat (length l))) as [Hb|Hb].
    + f_equal. lia.
    + rewrite !take_ge; [reflexivity | rewrite length_drop; lia
                        | rewrite length_drop; lia].
Qed.

(** The first [n] chunks of size [k] make up the first [n * k] items. *)
Lemma chunks_concat {A} (l : list A) (k n : nat) :
  concat (List.map (fun pos => PyStr.slice (Some pos) (Some (pos + Z.of_nat k)) l)
            (List.map (fun i => 0 + Z.of_nat i * Z.of_nat k) (seq 0 n)))
  = take (n * k) l.
Proof.
  induction n as [|n IH].
  - reflexivity.
  - rewrite seq_S, !List.map_app, concat_app, IH. simpl.
    rewrite app_nil_r, slice_take_drop by lia.
    replace (Z.to_nat (0 + Z.of_nat n * Z.of_nat k)) with (n * k)%nat by lia.
    replace (Z.to_nat (0 + Z.of_nat n * Z.of_nat k + Z.of_nat k) - n * k)%nat
      with k by lia.
    rewrite take_take_drop. f_equal. lia.
Qed.

Lemma range_length_positive (len k : nat) :
  (0 < k)%nat ->
  (len <= range_length 0 (Z.of_nat len) (Z.of_nat k) * k)%nat
  /\ (forall i, (i < range_length 0 (Z.of_nat len) (Z.of_nat k))%nat ->
                (i * k < len)%nat).
Proof.
  intros Hk. unfold range_length.
  replace (0 <? Z.of_nat k) with true by (symmetry; apply Z.ltb_lt; lia).
  destruct (0 <? Z.of_nat len) eqn:Hl.
  - apply Z.ltb_lt in Hl.
    pose proof (Z.div_mod (Z.of_nat len - 0 - 1) (Z.of_nat k) ltac:(lia)) as Hd.
    pose proof (Z.mod_pos_bound (Z.of_nat len - 0 - 1) (Z.of_nat k) ltac:(lia)) as Hm.
    assert (Hq : 0 <= (Z.of_nat len - 0 - 1) / Z.of_nat k)
      by (apply Z.div_pos; lia).
    split; [nia|]. intros i Hi. nia.
  - apply Z.ltb_ge in Hl. split; [lia|]. intros i Hi. lia.
Qed.

(** X12. For a positive size the chunks of a sequence, put end to end, are
    the sequence: no item is lost, repeated or moved. *)
Theorem in_chunks_concat {A} (l : list A) (size : Z) :
  0 < size ->
  exists chunks, _in_chunks l size = Return chunks /\ concat chunks = l.
Proof.
  intros Hs. unfold _in_chunks, py_range.
  replace (size =? 0) with false by (symmetry; apply Z.eqb_neq; lia).
  simpl. eexists. split; [reflexivity|].
  rewrite <- (Z2Nat.id size) by lia.
  rewrite chunks_concat. apply take_ge.
  apply (range_length_positive (length l) (Z.to_nat size)). lia.
Qed.

Lemma in_chunks_concat_witness :
  exists chunks,
    _in_chunks ["AAPL"; "GOOG"; "MSFT"; "IBM"; "GS"] 2 = Return chunks
    /\ concat chunks = ["AAPL"; "GOOG"; "MSFT"; "IBM"; "GS"].
Proof.
  apply (in_chunks_concat ["AAPL"; "GOOG"; "MSFT"; "IBM"; "GS"] 2). lia.
Defined.

(** X13. For a positive size no chunk is empty, none is longer than the
    size, and every chunk but the last has exactly that many items. *)
Theorem in_chunks_sizes {A} (l : list A) (size : Z) :
  0 < size ->
  exists chunks,
    _in_chunks l size = Return chunks
    /\ forall i c, chunks !! i = Some c ->
         (0 < length c)%nat
         /\ Z.of_nat (length c) <= size
         /\ ((S i < length chunks)%nat -> Z.of_nat (length c) = size).
Proof.
  intros Hs. unfold _in_chunks, py_range.
  replace (size =? 0) with false by (symmetry; apply Z.eqb_neq; lia).
  simpl. eexists. split; [reflexivity|].
  intros i c Hc.
  rewrite !length_map, length_seq.
  rewrite !list_lookup_fmap in Hc.
  destruct (seq 0 _ !! i) as [j|] eqn:Hj; [|discriminate Hc].
  apply lookup_seq in Hj as [-> Hi]. simpl in Hc. injection Hc as <-.
  destruct (range_length_positive (length l) (Z.to_nat size) ltac:(lia))
    as [_ Hlt].
  rewrite Z2Nat.id in Hlt by lia.
  pose proof (Hlt i Hi) as Hi'.
  rewrite slice_take_drop by nia.
  rewrite length_take, length_drop.
  split; [nia|]. split; [nia|].
  intros Hnext. pose proof (Hlt (S i) Hnext). nia.
Qed.

Lemma in_chunks_sizes_witness :
  exists chunks,
    _in_chunks ["AAPL"; "GOOG"; "MSFT"; "IBM"; "GS"] 2 = Return chunks
    /\ forall i c, chunks !! i = Some c ->
         (0 < length c)%nat
         /\ Z.of_nat (length c) <= 2
         /\ ((S i < length chunks)%nat -> Z.of_nat (length c) = 2).
Proof.
  apply (in_chunks_sizes ["AAPL"; "GOOG"; "MSFT"; "IBM"; "GS"] 2). lia.
Defined.

(** X14. A size of zero is refused with a [ValueError], whatever the
    sequence; a negative size is accepted and yields no chunk at all, so
    that the items are dropped without a word. *)
Theorem in_chunks_not_positive {A} (l : list A) (size : Z) :
  size <= 0 ->
  _in_chunks l size
  = if size =? 0
    then Raise (Exn ValueError "range() arg 3 must not be zero")
    else Return [].
Proof.
  intros Hs. unfold _in_chunks, py_range.
  destruct (size =? 0) eqn:E; [reflexivity|].
  apply Z.eqb_neq in E. simpl. unfold range_length.
  replace (0 <? size) with false by (symmetry; apply Z.ltb_ge; lia).
  replace (Z.of_nat (length l) <? 0) with false
    by (symmetry; apply Z.ltb_ge; lia).
  reflexivity.
Qed.

Lemma in_chunks_not_positive_witness :
  _in_chunks ["AAPL"; "GOOG"; "MSFT"] (-25) = Return [].
Proof.
  apply (in_chunks_not_positive ["AAPL"; "GOOG"; "MSFT"] (-25)). lia.
Defined.

(** * The names of the cache *)

Lemma str_append_assoc (a b c : string) :
  ((a ++ b) ++ c = a ++ (b ++ c))%string.
Proof. induction a as [|x a IH]; [reflexivity | exact (f_equal (String x) IH)]. Qed.

Lemma str_append_inj (a b c : string) :
  (a ++ b = a ++ c)%string -> b = c.
Proof.
  induction a as [|x a IH]; intros H; [exact H|].
  apply IH. change (String x (a ++ b) = String x (a ++ c))%string in H.
  injection H as H. exact H.
Qed.

Lemma pretty_N_go_app (x : N) (s : string) :
  pretty_N_go x s = (pretty_N_go x "" ++ s)%string.
Proof.
  revert s. induction (N.lt_wf_0 x) as [x _ IH]. intros s.
  destruct (N.eq_dec x 0%N) as [->|Hx].
  - rewrite !pretty_N_go_0. reflexivity.
  - rewrite !(pretty_N_go_step x) by lia.
    rewrite (IH (x / 10)%N) by (apply N.div_lt; lia).
    rewrite (IH (x / 10)%N ltac:(apply N.div_lt; lia) (String _ "")).
    rewrite str_append_assoc. reflexivity.
Qed.

(** The decimal text of a number of two digits or more ends with its last
    two digits. *)
Lemma str_of_Z_last_two (y : Z) :
  10 <= y ->
  PyStr.str_of_Z y
  = (pretty_N_go (Z.to_N (y / 100)) ""
     ++ String (pretty_N_char (Z.to_N ((y / 10) mod 10)))
          (String (pretty_N_char (Z.to_N (y mod 10))) ""))%string.
Proof.
  intros Hy. unfold PyStr.str_of_Z, pretty, pretty_Z.
  destruct y as [|p|p]; try lia.
  unfold pretty, pretty_positive, pretty, pretty_N.
  destruct (decide (N.pos p = 0%N)) as [H|_]; [discriminate H|].
  rewrite (pretty_N_go_step (N.pos p)) by lia.
  rewrite (pretty_N_go_step (N.pos p / 10)%N)
    by (apply N.div_str_pos; lia).
  rewrite pretty_N_go_app.
  replace (N.pos p / 10 / 10)%N with (Z.to_N (Z.pos p / 100)).
  2:{ rewrite N.Div0.div_div. change 100 with (Z.of_N 100).
      rewrite <- (N2Z.id (N.pos p / (10 * 10))). f_equal.
      rewrite N2Z.inj_div. reflexivity. }
  replace ((N.pos p / 10) mod 10)%N with (Z.to_N ((Z.pos p / 10) mod 10)).
  2:{ rewrite <- (N2Z.id ((N.pos p / 10) mod 10)). f_equal.
      rewrite N2Z.inj_mod, N2Z.inj_div. reflexivity. }
  replace (N.pos p mod 10)%N with (Z.to_N (Z.pos p mod 10)).
  2:{ rewrite <- (N2Z.id (N.pos p mod 10)). f_equal.
      rewrite N2Z.inj_mod. reflexivity. }
  reflexivity.
Qed.

Lemma list_ascii_of_string_app (a b : string) :
  list_ascii_of_string (a ++ b)
  = (list_ascii_of_string a ++ list_ascii_of_string b)%list.
Proof. induction a as [|c a IH]; simpl; [reflexivity | rewrite IH; reflexivity]. Qed.

Lemma str_slice_last_two (p : string) (c1 c0 : ascii) :
  PyStr.str_slice (Some (-2)) None (p ++ String c1 (String c0 ""))
  = String c1 (String c0 "").
Proof.
  unfold PyStr.str_slice, PyStr.slice, PyStr.slice_bound.
  rewrite list_ascii_of_string_app. simpl list_ascii_of_string.
  rewrite length_app. simpl length.
  replace (-2 <? 0) with true by reflexivity.
  set (n := length (list_ascii_of_string p)).
  replace (Z.to_nat (Z.max 0 (-2 + Z.of_nat (n + 2)))) with n by lia.
  replace (Z.to_nat (Z.of_nat (n + 2) - Z.max 0 (-2 + Z.of_nat (n + 2))))
    with 2%nat by lia.
  unfold n. rewrite drop_app_length. reflexivity.
Qed.

(** The two characters the names keep of a year. *)
Lemma year_suffix (y : Z) :
  10 <= y ->
  PyStr.str_slice (Some (-2)) None (PyStr.str_of_Z y)
  = String (pretty_N_char (Z.to_N ((y / 10) mod 10)))
      (String (pretty_N_char (Z.to_N (y mod 10))) "").
Proof.
  intros Hy. rewrite (str_of_Z_last_two y Hy). apply str_slice_last_two.
Qed.

Lemma year_suffix_inj (y y' : Z) :
  10 <= y -> 10 <= y' ->
  PyStr.str_slice (Some (-2)) None (PyStr.str_of_Z y)
  = PyStr.str_slice (Some (-2)) None (PyStr.str_of_Z y')
  <-> y mod 100 = y' mod 100.
Proof.
  intros Hy Hy'. rewrite !year_suffix by assumption.
  assert (D : forall z, 0 <= z ->
            z mod 100 = 10 * ((z / 10) mod 10) + z mod 10).
  { intros z Hz. pose proof (Z.div_mod z 10 ltac:(lia)).
    pose proof (Z.div_mod (z / 10) 10 ltac:(lia)).
    pose proof (Z.div_mod z 100 ltac:(lia)).
    pose proof (Z.mod_pos_bound z 10 ltac:(lia)).
    pose proof (Z.mod_pos_bound (z / 10) 10 ltac:(lia)).
    pose proof (Z.mod_pos_bound z 100 ltac:(lia)).
    assert (z / 10 / 10 = z / 100) by (rewrite Z.div_div by lia; reflexivity).
    lia. }
  pose proof (Z.mod_pos_bound y 10 ltac:(lia)).
  pose proof (Z.mod_pos_bound (y / 10) 10 ltac:(lia)).
  pose proof (Z.mod_pos_bound y' 10 ltac:(lia)).
  pose proof (Z.mod_pos_bound (y' / 10) 10 ltac:(lia)).
  split.
  - intros Heq. injection Heq as E1 E0.
    apply pretty_N_char_inj in E1; [|lia|lia].
    apply pretty_N_char_inj in E0; [|lia|lia].
    rewrite (D y), (D y') by lia. lia.
  - intros Heq. rewrite (D y), (D y') in Heq by lia.
    replace ((y' / 10) mod 10) with ((y / 10) mod 10) by lia.
    replace (y' mod 10) with (y mod 10) by lia. reflexivity.
Qed.

Lemma two_char_month_inj (m m' : Z) (a b : string) :
  1 <= m <= 12 -> 1 <= m' <= 12 ->
  (_two_char_month m ++ a)%string = (_two_char_month m' ++ b)%string ->
  m = m' /\ a = b.
Proof.
  intros Hm Hm'.
  assert (Cm : m = 1 \/ m = 2 \/ m = 3 \/ m = 4 \/ m = 5 \/ m = 6 \/ m = 7
               \/ m = 8 \/ m = 9 \/ m = 10 \/ m = 11 \/ m = 12) by lia.
  assert (Cm' : m' = 1 \/ m' = 2 \/ m' = 3 \/ m' = 4 \/ m' = 5 \/ m' = 6
                \/ m' = 7 \/ m' = 8 \/ m' = 9 \/ m' = 10 \/ m' = 11
                \/ m' = 12) by lia.
  clear Hm Hm'.
  repeat (destruct Cm as [->|Cm]); try subst m;
    repeat (destruct Cm' as [->|Cm']); try subst m';
    match goal with
    | |- (_two_char_month ?i ++ _ = _two_char_month ?j ++ _)%string -> _ =>
        let u := eval vm_compute in (_two_char_month i) in
        let v := eval vm_compute in (_two_char_month j) in
        change (_two_char_month i) with u;
        change (_two_char_month j) with v
    end;
    intros H; cbv beta iota delta [String.append] in H;
    first [ discriminate H
          | injection H as ->; split; reflexivity ].
Qed.

(** X15. Within the months 1 to 12 and the years of two digits or more, two
    requests share a cache name exactly when they have the same month and
    the same last two digits of the year: no two months of a century are
    confused, and the same month a century apart is. *)
Theorem table_name_collision (y m y' m' : Z) :
  1 <= m <= 12 -> 1 <= m' <= 12 -> 10 <= y -> 10 <= y' ->
  table_name y m = table_name y' m'
  <-> m = m' /\ y mod 100 = y' mod 100.
Proof.
  intros Hm Hm' Hy Hy'. unfold table_name. split.
  - intros H. apply str_append_inj in H.
    apply two_char_month_inj in H as [-> H]; try assumption.
    split; [reflexivity|]. apply year_suffix_inj; assumption.
  - intros [-> H]. f_equal. f_equal. apply year_suffix_inj; assumption.
Qed.

Lemma table_name_collision_witness :
  table_name 2014 5 = table_name 2114 5 <-> 5 = 5 /\ 2014 mod 100 = 2114 mod 100.
Proof. apply (table_name_collision 2014 5 2114 5); lia. Defined.

(** * The months ahead *)







(** * Both sides at once *)

Lemma accessor_requests_cases E month year expiry name s :
  requests (snd (_get_option_data E month year expiry name s)) = requests s
  \/ exists url,
       requests (snd (_get_option_data E month year expiry name s))
       = (requests s ++ [url])%list.
Proof.
  pose proof (keeps_try_parse_dates same_requests E year month expiry
                warn_same_requests s) as Kd.
  unfold same_requests in Kd.
  destruct (_try_parse_dates E year month expiry s) as [[[[y m] e]|err] s0]
    eqn:Hdates; simpl in Kd.
  2:{ left. rewrite get_option_data_unfold, (bind_Raise _ _ _ _ _ Hdates).
      exact Kd. }
  destruct (accessor_cases E month year expiry name s y m e s0 Hdates)
    as [(a & Hk & Hr) | [(Hk & ts & s1 & Hf & Hr) | (Hk & err & s1 & Hf & Hr)]];
    rewrite Hr.
  - left.
    pose proof (after_tables_same_requests E y m name a s0) as K.
    unfold same_requests in K. rewrite K. exact Kd.
  - pose proof (keeps_table_data same_requests E y m name ts
                  (setattr_same_requests _) (setattr_same_requests _) s1) as K.
    unfold same_requests in K. rewrite K.
    pose proof (get_option_tables_requests E e s0) as Hq.
    rewrite Hf in Hq. simpl in Hq. rewrite Hq, Kd.
    destruct (lxml_installed E); [right; eexists; reflexivity | left; reflexivity].
  - simpl.
    pose proof (get_option_tables_requests E e s0) as Hq.
    rewrite Hf in Hq. simpl in Hq. rewrite Hq, Kd.
    destruct (lxml_installed E); [right; eexists; reflexivity | left; reflexivity].
Qed.

(** A call that returns leaves the tables of its month in the cache. *)
Lemma accessor_Return_cached E month year expiry name s df s' :
  _get_option_data E month year expiry name s = (Return df, s') ->
  exists y m e s0 tables,
    _try_parse_dates E year month expiry s = (Return (y, m, e), s0)
    /\ dict (self s') !! table_name y m = Some (ATables tables).
Proof.
  intros H.
  destruct (_try_parse_dates E year month expiry s) as [[[[y m] e]|err] s0]
    eqn:Hdates.
  2:{ rewrite get_option_data_unfold, (bind_Raise _ _ _ _ _ Hdates) in H.
      discriminate H. }
  exists y, m, e, s0.
  destruct (try_parse_dates_expiry _ _ _ _ _ _ _ _ _ Hdates) as [Hy Hm].
  destruct (accessor_cases E month year expiry name s y m e s0 Hdates)
    as [(a & Hk & Hr) | [(Hk & ts & s1 & Hf & Hr) | (Hk & err & s1 & Hf & Hr)]];
    rewrite Hr in H.
  - apply bind_inv in H as (tables & s1 & Ha & H).
    apply as_tables_Return in Ha as [-> ->].
    exists tables. split; [reflexivity|].
    pose proof (table_data_same_table_name E y m name tables y m s0) as K.
    unfold same_attr in K. rewrite H in K. simpl in K. rewrite K. exact Hk.
  - exists ts. split; [reflexivity|].
    destruct (get_option_tables_Return _ _ _ _ _ Hf) as [Hc _].
    rewrite Hy, Hm in Hc.
    pose proof (table_data_same_table_name E y m name ts y m s1) as K.
    unfold same_attr in K. rewrite H in K. simpl in K. rewrite K. exact Hc.
  - discriminate H.
Qed.

(** With the tables of the month cached, a call for either side makes no
    request. *)
Lemma accessor_cached_no_request E month year expiry name s y m e s0 t tables :
  _try_parse_dates E year month expiry s = (Return (y, m, e), s0) ->
  dict (self t) !! table_name y m = Some (ATables tables) ->
  requests (snd (_get_option_data E month year expiry name t)) = requests t.
Proof.
  intros Hdates Hk.
  destruct (accessor_on_cached E month year expiry name s y m e s0 t tables
              Hdates Hk) as (t0 & Hrun & _ & Hreq).
  rewrite Hrun.
  pose proof (keeps_table_data same_requests E y m name tables
                (setattr_same_requests _) (setattr_same_requests _) t0) as K.
  unfold same_requests in K. rewrite K. exact Hreq.
Qed.

(** X17. Retrieving both sides costs at most one request, whether the call
    returns or raises: the puts are retrieved first, and once they are
    returned the calls are read from the tables the same page gave. *)
Theorem get_options_data_one_request (E : Env)
  (concat : list Frame.DataFrame -> outcome Frame.DataFrame)
  (month year : option Z) (expiry : option date) (s : State) :
  exists l,
    requests (snd (get_options_data E concat month year expiry s))
    = (requests s ++ l)%list
    /\ (length l <= 1)%nat.
Proof.
  unfold get_options_data, get_put_data, get_call_data.
  pose proof (accessor_requests_cases E month year expiry "puts" s) as Hputs.
  unfold bind at 1. unfold bind at 1.
  destruct (_get_option_data E month year expiry "puts" s) as [[puts|err] s1]
    eqn:H1; simpl in Hputs.
  - destruct (accessor_Return_cached _ _ _ _ _ _ _ _ H1)
      as (y & m & e & s0 & tables & Hdates & Hk).
    pose proof (accessor_cached_no_request E month year expiry "calls"
                  s y m e s0 s1 tables Hdates Hk) as Hcalls.
    unfold ret at 1. unfold bind at 1. unfold bind at 1.
    destruct (_get_option_data E month year expiry "calls" s1)
      as [[calls|err] s2]; simpl in Hcalls.
    + unfold ret at 1. unfold bind, lift, ret.
      destruct (concat _); simpl; rewrite Hcalls;
        destruct Hputs as [-> | [url ->]];
        first [ exists []; split; [symmetry; apply app_nil_r | simpl; lia]
              | exists [url]; split; [reflexivity | simpl; lia] ].
    + simpl. rewrite Hcalls.
      destruct Hputs as [-> | [url ->]];
        first [ exists []; split; [symmetry; apply app_nil_r | simpl; lia]
              | exists [url]; split; [reflexivity | simpl; lia] ].
  - simpl.
    destruct Hputs as [-> | [url ->]];
      first [ exists []; split; [symmetry; apply app_nil_r | simpl; lia]
            | exists [url]; split; [reflexivity | simpl; lia] ].
Qed.

Lemma chop_data_same_state df above_below price s :
  snd (chop_data df above_below price s) = s.
Proof.
  assert (K : keeps eq (chop_data df above_below price)).
  { unfold chop_data.
    apply keeps_bind; [typeclasses eauto | |].
    - destruct (negb (truthy price)); [|apply keeps_ret; typeclasses eauto].
      apply keeps_try_except; [typeclasses eauto | |].
      + apply keeps_getattr_value; typeclasses eauto.
      + intros e. apply keeps_ret; typeclasses eauto.
    - intros p. apply keeps_bind;
        [typeclasses eauto | apply keeps_lift; typeclasses eauto |].
      intros isnan. destruct (negb isnan); [|apply keeps_ret; typeclasses eauto].
      repeat (apply keeps_bind;
              [typeclasses eauto | apply keeps_lift; typeclasses eauto |];
              intros ?).
      apply keeps_ret; typeclasses eauto. }
  symmetry. exact (K s).
Qed.

Lemma getattr_value_same_state name s : snd (getattr_value name s) = s.
Proof.
  symmetry. exact (keeps_getattr_value eq name s).
Qed.

(** The loop over the sides asks nothing once the tables of the month are
    cached. *)
Lemma near_data_cached_no_request E above_below month year expiry names :
  forall s y m e s0 t tables,
    _try_parse_dates E year month expiry s = (Return (y, m, e), s0) ->
    dict (self t) !! table_name y m = Some (ATables tables) ->
    requests (snd (near_data E above_below month year expiry names t))
    = requests t.
Proof.
  induction names as [|nam names IH]; intros s y m e s0 t tables Hdates Hk.
  - reflexivity.
  - cbn [near_data]. unfold bind at 1.
    pose proof (accessor_cached_no_request E month year expiry nam
                  s y m e s0 t tables Hdates Hk) as Hreq.
    destruct (_get_option_data E month year expiry nam t) as [[df|err] t1]
      eqn:H1; simpl in Hreq; [|exact Hreq].
    destruct (accessor_Return_cached _ _ _ _ _ _ _ _ H1)
      as (y' & m' & e' & t0 & tables' & Hdates' & Hk').
    unfold bind at 1.
    pose proof (getattr_value_same_state "underlying_price" t1) as Hp.
    destruct (getattr_value "underlying_price" t1) as [[price|err] t2];
      simpl in Hp; subst t2; [|exact Hreq].
    unfold bind at 1.
    pose proof (chop_data_same_state df above_below price t1) as Hc.
    destruct (chop_data df above_below price t1) as [[chopped|err] t3];
      simpl in Hc; subst t3; [|exact Hreq].
    unfold bind at 1.
    pose proof (IH t y' m' e' t0 t1 tables' Hdates' Hk') as Hrest.
    destruct (near_data E above_below month year expiry names t1)
      as [[others|err] t4]; simpl in Hrest; simpl; rewrite Hrest; exact Hreq.
Qed.

Lemma near_data_requests E above_below month year expiry names s :
  exists l,
    requests (snd (near_data E above_below month year expiry names s))
    = (requests s ++ l)%list
    /\ (length l <= 1)%nat
    /\ (names = [] -> l = []).
Proof.
  destruct names as [|nam names].
  - exists []. split; [symmetry; apply app_nil_r|]. split; [simpl; lia | reflexivity].
  - assert (G : exists l,
               requests (snd (near_data E above_below month year expiry
                                (nam :: names) s))
               = (requests s ++ l)%list /\ (length l <= 1)%nat).
    2:{ destruct G as (l & H1 & H2). exists l.
        split; [exact H1|]. split; [exact H2 | discriminate]. }
    assert (F : forall t,
               (requests t = requests s
                \/ exists url, requests t = (requests s ++ [url])%list) ->
               exists l, requests t = (requests s ++ l)%list
                         /\ (length l <= 1)%nat).
    { intros t [Ht | [url Ht]]; rewrite Ht.
      - exists []. split; [symmetry; apply app_nil_r | simpl; lia].
      - exists [url]. split; [reflexivity | simpl; lia]. }
    cbn [near_data]. unfold bind at 1.
    pose proof (accessor_requests_cases E month year expiry nam s) as Hreq.
    destruct (_get_option_data E month year expiry nam s) as [[df|err] s1]
      eqn:H1; simpl in Hreq; [|apply F; exact Hreq].
    destruct (accessor_Return_cached _ _ _ _ _ _ _ _ H1)
      as (y & m & e & s0 & tables & Hdates & Hk).
    unfold bind at 1.
    pose proof (getattr_value_same_state "underlying_price" s1) as Hp.
    destruct (getattr_value "underlying_price" s1) as [[price|err] s2];
      simpl in Hp; subst s2; [|apply F; exact Hreq].
    unfold bind at 1.
    pose proof (chop_data_same_state df above_below price s1) as Hc.
    destruct (chop_data df above_below price s1) as [[chopped|err] s3];
      simpl in Hc; subst s3; [|apply F; exact Hreq].
    unfold bind at 1.
    pose proof (near_data_cached_no_request E above_below month year expiry
                  names s y m e s0 s1 tables Hdates Hk) as Hrest.
    destruct (near_data E above_below month year expiry names s1)
      as [[others|err] s4]; simpl in Hrest; simpl; apply F; rewrite Hrest;
      exact Hreq.
Qed.

(** X18. The options near the price cost at most one request for the two
    sides together, whether the call returns or raises, and none when no
    side is selected. *)
Theorem get_near_stock_price_one_request (E : Env)
  (concat : list Frame.DataFrame -> outcome Frame.DataFrame)
  (above_below : Z) (call put : bool) (month year : option Z)
  (expiry : option date) (s : State) :
  exists l,
    requests (snd (get_near_stock_price E concat above_below call put
                     month year expiry s))
    = (requests s ++ l)%list
    /\ (length l <= 1)%nat
    /\ (call = false -> put = false -> l = []).
Proof.
  destruct (near_data_requests E above_below month year expiry
              (selected call put) s) as (l & Hreq & Hlen & Hnil).
  exists l. split; [|split; [exact Hlen|]].
  - unfold get_near_stock_price. unfold bind at 1.
    destruct (near_data E above_below month year expiry (selected call put) s)
      as [[data|err] s1]; simpl in Hreq; [|exact Hreq].
    unfold bind, lift, ret. destruct (concat data); exact Hreq.
  - intros -> ->. apply Hnil. reflexivity.
Qed.

(** * Historical prices *)

Section RetryProperties.

Context {T : Type}.
Variable sleep : T -> outcome unit.
Variable urlopen : nat -> string -> response.
Variable read_csv : string -> outcome Frame.DataFrame.
Variable url : string.
Variable pause : T.
Hypothesis sleep_ok : sleep pause = Return tt.

Lemma retry_loop_made turns made :
  (made <= snd (retry_loop sleep urlopen read_csv turns url pause made)
   <= made + turns)%nat.
Proof.
  revert made. induction turns as [|turns IH]; intros made; simpl; [lia|].
  rewrite sleep_ok.
  destruct (urlopen made url) as [|e|lines].
  - specialize (IH (S made)). lia.
  - simpl. lia.
  - destruct (read_csv lines); simpl; lia.
Qed.

Lemma retry_loop_None turns made :
  fst (retry_loop sleep urlopen read_csv turns url pause made) = None
  <-> forall i, (i < turns)%nat -> urlopen (made + i)%nat url = NetworkError.
Proof.
  revert made. induction turns as [|turns IH]; intros made; simpl.
  - split; [intros _ i Hi; lia | reflexivity].
  - rewrite sleep_ok.
    destruct (urlopen made url) as [|e|lines] eqn:Hopen.
    + rewrite IH. split.
      * intros H [|i] Hi.
        -- rewrite Nat.add_0_r. exact Hopen.
        -- rewrite <- Nat.add_succ_comm. apply H. lia.
      * intros H i Hi. rewrite Nat.add_succ_comm. apply H. lia.
    + split; [discriminate|]. intros H.
      specialize (H 0%nat ltac:(lia)). rewrite Nat.add_0_r in H. congruence.
    + split.
      * destruct (read_csv lines); discriminate.
      * intros H.
        specialize (H 0%nat ltac:(lia)). rewrite Nat.add_0_r in H. congruence.
Qed.

Lemma retry_loop_None_made turns made :
  fst (retry_loop sleep urlopen read_csv turns url pause made) = None ->
  snd (retry_loop sleep urlopen read_csv turns url pause made)
  = (made + turns)%nat.
Proof.
  revert made. induction turns as [|turns IH]; intros made; simpl.
  - intros _. lia.
  - rewrite sleep_ok.
    destruct (urlopen made url) as [|e|lines].
    + intros H. rewrite (IH _ H). lia.
    + discriminate.
    + destruct (read_csv lines); discriminate.
Qed.

Lemma retry_loop_Some turns made o m :
  retry_loop sleep urlopen read_csv turns url pause made = (Some o, m) ->
  forall msg, o <> IOError msg.
Proof.
  revert made. induction turns as [|turns IH]; intros made; simpl;
    [discriminate|].
  rewrite sleep_ok. destruct (urlopen made url) as [|e|lines].
  - apply IH.
  - intros H. injection H as <- _. discriminate.
  - destruct (read_csv lines); intros H; injection H as <- _; discriminate.
Qed.

(** The loop skips the turns that meet a network error. *)
Lemma retry_loop_skip turns i made :
  (i <= turns)%nat ->
  (forall j, (j < i)%nat -> urlopen (made + j)%nat url = NetworkError) ->
  retry_loop sleep urlopen read_csv turns url pause made
  = retry_loop sleep urlopen read_csv (turns - i) url pause (made + i).
Proof.
  revert turns made. induction i as [|i IH]; intros turns made Hi Hfail.
  - rewrite Nat.sub_0_r, Nat.add_0_r. reflexivity.
  - destruct turns as [|turns]; [lia|]. simpl. rewrite sleep_ok.
    pose proof (Hfail 0%nat ltac:(lia)) as H0. rewrite Nat.add_0_r in H0.
    rewrite H0, (IH turns (S made)) by
      (try lia; intros j Hj; rewrite Nat.add_succ_comm; apply Hfail; lia).
    f_equal. lia.
Qed.

End RetryProperties.

(** X19. With a pause the clock accepts, [_retry_read_url] gives up with an
    [IOError] exactly when each of its [retry_count] attempts meets a
    network error, having made that many requests; in particular a count of
    zero or less gives up without asking. In no case does it make more
    requests than [retry_count]. *)
Theorem retry_read_url_gives_up {T : Type} (sleep : T -> outcome unit)
  (urlopen : nat -> string -> response)
  (read_csv : string -> outcome Frame.DataFrame)
  (url : string) (retry_count : Z) (pause : T) (name : string) (made : nat) :
  sleep pause = Return tt ->
  let r := _retry_read_url sleep urlopen read_csv url retry_count pause name
             made in
  ((exists msg, fst r = IOError msg)
   <-> forall i, (i < Z.to_nat retry_count)%nat ->
                 urlopen (made + i)%nat url = NetworkError)
  /\ ((exists msg, fst r = IOError msg) ->
      snd r = (made + Z.to_nat retry_count)%nat)
  /\ (made <= snd r <= made + Z.to_nat retry_count)%nat.
Proof.
  intros Hsleep r. unfold r, _retry_read_url. clear r.
  pose proof (retry_loop_None sleep urlopen read_csv url pause Hsleep
                (Z.to_nat retry_count) made) as Hnone.
  pose proof (retry_loop_None_made sleep urlopen read_csv url pause Hsleep
                (Z.to_nat retry_count) made) as Hall.
  pose proof (retry_loop_made sleep urlopen read_csv url pause Hsleep
                (Z.to_nat retry_count) made) as Hmade.
  pose proof (retry_loop_Some sleep urlopen read_csv url pause Hsleep
                (Z.to_nat retry_count) made) as Hkind.
  destruct (retry_loop sleep urlopen read_csv (Z.to_nat retry_count) url
              pause made) as [[o|] m]; simpl in *.
  - split; [|split; [|exact Hmade]].
    + split.
      * intros [msg Hmsg]. exfalso. exact (Hkind o m eq_refl msg Hmsg).
      * intros H. apply Hnone in H. discriminate H.
    + intros [msg Hmsg]. exfalso. exact (Hkind o m eq_refl msg Hmsg).
  - split; [|split; [|exact Hmade]].
    + split.
      * intros _. apply Hnone. reflexivity.
      * intros _. eexists. reflexivity.
    + intros _. apply Hall. reflexivity.
Qed.

Lemma retry_read_url_gives_up_witness :
  fst (_retry_read_url (fun _ : Z => Return tt) (fun _ _ => NetworkError)
         (fun _ => Return Sample.seven)
         "http://ichart.finance.yahoo.com/table.csv?s=GS" 3 0 "Yahoo!" 0)
  = IOError "after 3 tries, Yahoo! did not return a 200 for url 'http://ichart.finance.yahoo.com/table.csv?s=GS'"
  /\ snd (_retry_read_url (fun _ : Z => Return tt) (fun _ _ => NetworkError)
            (fun _ => Return Sample.seven)
            "http://ichart.finance.yahoo.com/table.csv?s=GS" 3 0 "Yahoo!" 0)
     = 3%nat.
Proof.
  pose proof (retry_read_url_gives_up (fun _ : Z => Return tt)
                (fun _ _ => NetworkError) (fun _ => Return Sample.seven)
                "http://ichart.finance.yahoo.com/table.csv?s=GS" 3 0 "Yahoo!"
                0%nat eq_refl) as (_ & H & _).
  split; [reflexivity|].
  apply H. eexists. reflexivity.
Defined.

(** X20. The first attempt that does not meet a network error decides the
    call, and nothing is asked after it: an exception of the request or of
    the reading of the table is raised as it is, without another try, and a
    table that reads is returned with its rows in reverse order. *)
Theorem retry_read_url_first_answer {T : Type} (sleep : T -> outcome unit)
  (urlopen : nat -> string -> response)
  (read_csv : string -> outcome Frame.DataFrame)
  (url : string) (retry_count : Z) (pause : T) (name : string) (made : nat)
  (i : nat) :
  sleep pause = Return tt ->
  (i < Z.to_nat retry_count)%nat ->
  (forall j, (j < i)%nat -> urlopen (made + j)%nat url = NetworkError) ->
  (forall e,
     urlopen (made + i)%nat url = OtherFailure e ->
     _retry_read_url sleep urlopen read_csv url retry_count pause name made
     = (Failed e, S (made + i)))
  /\ (forall lines,
        urlopen (made + i)%nat url = Body lines ->
        _retry_read_url sleep urlopen read_csv url retry_count pause name made
        = (match read_csv lines with
           | Return rs =>
               Retrieved (drop_repeated_last (Frame.map_rows (@rev value) rs))
           | Raise e => Failed e
           end,
           S (made + i))).
Proof.
  intros Hsleep Hi Hfail. unfold _retry_read_url.
  rewrite (retry_loop_skip sleep urlopen read_csv url pause Hsleep
             (Z.to_nat retry_count) i made ltac:(lia) Hfail).
  destruct (Z.to_nat retry_count - i)%nat as [|turns] eqn:Hturns; [lia|].
  simpl. rewrite Hsleep. split.
  - intros e ->. reflexivity.
  - intros lines ->. destruct (read_csv lines); reflexivity.
Qed.

Lemma retry_read_url_first_answer_witness :
  _retry_read_url (fun _ : Z => Return tt)
    (fun n _ => if (n <? 2)%nat then NetworkError else Body "Date,Close")
    (fun _ => Raise (Exn ValueError "no columns to parse"))
    "http://ichart.finance.yahoo.com/table.csv?s=GS" 5 0 "Yahoo!" 0
  = (Failed (Exn ValueError "no columns to parse"), 3%nat).
Proof.
  refine (proj2 (retry_read_url_first_answer (fun _ : Z => Return tt)
           (fun n _ => if (n <? 2)%nat then NetworkError else Body "Date,Close")
           (fun _ => Raise (Exn ValueError "no columns to parse"))
           "http://ichart.finance.yahoo.com/table.csv?s=GS" 5 0 "Yahoo!"
           0%nat 2%nat eq_refl _ _) "Date,Close" eq_refl).
  - simpl. lia.
  - intros [|[|j]] Hj; [reflexivity | reflexivity | lia].
Defined.

(** A loop over the chunks of a list is the loop over the list. *)
Lemma for_each_app {A S} (body : A -> S -> outcome S) (l1 l2 : list A) st :
  for_each body (l1 ++ l2)%list st
  = obind (for_each body l1 st) (for_each body l2).
Proof.
  revert st. induction l1 as [|x l1 IH]; intros st; simpl; [reflexivity|].
  destruct (body x st) as [st'|e]; simpl; [apply IH | reflexivity].
Qed.

Lemma for_each_concat {A S} (body : A -> S -> outcome S)
  (groups : list (list A)) st :
  for_each (for_each body) groups st = for_each body (concat groups) st.
Proof.
  revert st. induction groups as [|g groups IH]; intros st; simpl;
    [reflexivity|].
  rewrite for_each_app. destruct (for_each body g st); simpl;
    [apply IH | reflexivity].
Qed.

(** For a positive size of the chunks, the symbols are gone through one
    after the other. *)
Lemma dl_mult_symbols_flat {A P} (method : nat -> string -> retrieval A)
  (method_name : string) (Panel : gmap string (option A) -> outcome P)
  (symbols : list string) (chunksize : Z) (made : nat) :
  0 < chunksize ->
  _dl_mult_symbols method method_name Panel symbols chunksize made
  = obind (for_each (dl_symbol method) symbols
             {| dl_stocks := ∅; dl_warnings := []; dl_calls := made |})
      (dl_panel method_name Panel).
Proof.
  intros Hs. unfold _dl_mult_symbols, _in_chunks, py_range.
  replace (chunksize =? 0) with false by (symmetry; apply Z.eqb_neq; lia).
  cbn [obind]. rewrite for_each_concat.
  rewrite <- (Z2Nat.id chunksize) by lia.
  rewrite chunks_concat, take_ge; [reflexivity|].
  apply (range_length_positive (length symbols) (Z.to_nat chunksize)). lia.
Qed.

(** X21. The size of the chunks has no effect on what [_dl_mult_symbols]
    does: for any two positive sizes the same calls are made in the same
    order, with the same warnings and the same panel or exception. *)
Theorem dl_mult_symbols_chunksize {A P} (method : nat -> string -> retrieval A)
  (method_name : string) (Panel : gmap string (option A) -> outcome P)
  (symbols : list string) (chunksize chunksize' : Z) (made : nat) :
  0 < chunksize -> 0 < chunksize' ->
  _dl_mult_symbols method method_name Panel symbols chunksize made
  = _dl_mult_symbols method method_name Panel symbols chunksize' made.
Proof.
  intros H H'. rewrite !dl_mult_symbols_flat by assumption. reflexivity.
Qed.

Lemma dl_mult_symbols_chunksize_witness :
  _dl_mult_symbols
    (fun _ sym => if String.eqb sym "GOOG" then IOError "no answer"
                  else Retrieved sym)
    "_get_hist_yahoo" (fun stocks => Return (size stocks))
    ["AAPL"; "GOOG"; "MSFT"] 2 0
  = _dl_mult_symbols
      (fun _ sym => if String.eqb sym "GOOG" then IOError "no answer"
                    else Retrieved sym)
      "_get_hist_yahoo" (fun stocks => Return (size stocks))
      ["AAPL"; "GOOG"; "MSFT"] 25 0.
Proof.
  apply (dl_mult_symbols_chunksize
           (fun _ sym => if String.eqb sym "GOOG" then IOError "no answer"
                         else Retrieved sym)
           "_get_hist_yahoo" (fun stocks => Return (size stocks))
           ["AAPL"; "GOOG"; "MSFT"] 2 25 0%nat); lia.
Defined.

(** What the loop over the symbols has done when no call of the method
    fails with anything but an [IOError]. *)
Lemma dl_symbols_run {A} (method : nat -> string -> retrieval A)
  (symbols : list string) :
  (forall n sym e, method n sym = Failed e -> exn_cls e = RemoteDataError) ->
  forall st, exists st',
    for_each (dl_symbol method) symbols st = Return st'
    /\ dl_calls st' = (dl_calls st + length symbols)%nat
    /\ (forall sym, is_Some (dl_stocks st' !! sym)
                    <-> In sym symbols \/ is_Some (dl_stocks st !! sym))
    /\ (length (dl_warnings st') <= length (dl_warnings st) + length symbols)%nat.
Proof.
  intros Hok. induction symbols as [|sym symbols IH]; intros st.
  - exists st. split; [reflexivity|]. split; [simpl; lia|].
    split; [|simpl; lia]. intros x. simpl. tauto.
  - assert (Hstep : exists st1,
               dl_symbol method sym st = Return st1
               /\ dl_calls st1 = S (dl_calls st)
               /\ (forall x, is_Some (dl_stocks st1 !! x)
                             <-> sym = x \/ is_Some (dl_stocks st !! x))
               /\ (length (dl_warnings st1) <= S (length (dl_warnings st)))%nat).
    { assert (Hins : forall (v : option A) x,
                 is_Some (<[sym := v]> (dl_stocks st) !! x)
                 <-> sym = x \/ is_Some (dl_stocks st !! x)).
      { intros v x. destruct (decide (sym = x)) as [->|Hne].
        - rewrite lookup_insert_eq. split; [intros _; left; reflexivity|].
          intros _. eexists. reflexivity.
        - rewrite lookup_insert_ne by exact Hne. tauto. }
      unfold dl_symbol.
      destruct (method (dl_calls st) sym) as [a|msg|e] eqn:Hm.
      - eexists. split; [reflexivity|]. simpl.
        split; [reflexivity|]. split; [apply Hins | lia].
      - eexists. split; [reflexivity|]. simpl.
        split; [reflexivity|]. split; [apply Hins|].
        rewrite length_app. simpl. lia.
      - rewrite (Hok _ _ _ Hm). simpl.
        eexists. split; [reflexivity|]. simpl.
        split; [reflexivity|]. split; [apply Hins|].
        rewrite length_app. simpl. lia. }
    destruct Hstep as (st1 & Hrun1 & Hcalls1 & Hdom1 & Hwarn1).
    destruct (IH st1) as (st' & Hrun & Hcalls & Hdom & Hwarn).
    exists st'. cbn [for_each]. rewrite Hrun1. cbn [obind].
    split; [exact Hrun|]. simpl. split; [lia|]. split; [|lia].
    intros x. rewrite Hdom, Hdom1. tauto.
Qed.

(** X22. When no call of the method fails with anything but an [IOError]
    (a [RemoteDataError] is one), and the size of the chunks is positive, the panel is built from a
    dictionary with an entry for each of the symbols and for nothing else,
    the symbols that could not be read included: one that fails is never
    left out, and at most one warning a symbol is issued. *)
Theorem dl_mult_symbols_entries {A P} (method : nat -> string -> retrieval A)
  (method_name : string) (Panel : gmap string (option A) -> outcome P)
  (symbols : list string) (chunksize : Z) (made : nat) :
  0 < chunksize ->
  (forall n sym e, method n sym = Failed e -> exn_cls e = RemoteDataError) ->
  exists st,
    _dl_mult_symbols method method_name Panel symbols chunksize made
    = dl_panel method_name Panel st
    /\ (forall sym, is_Some (dl_stocks st !! sym) <-> In sym symbols)
    /\ dl_calls st = (made + length symbols)%nat
    /\ (length (dl_warnings st) <= length symbols)%nat.
Proof.
  intros Hs Hok. rewrite dl_mult_symbols_flat by exact Hs.
  destruct (dl_symbols_run method symbols Hok
              (@Build_Download A ∅ [] made))
    as (st & Hrun & Hcalls & Hdom & Hwarn).
  exists st. rewrite Hrun. split; [reflexivity|]. simpl in *.
  split; [|split; [exact Hcalls | exact Hwarn]].
  intros sym. rewrite Hdom, lookup_empty. split.
  - intros [H | [x Hx]]; [exact H | discriminate Hx].
  - intros H. left. exact H.
Qed.

Lemma dl_mult_symbols_entries_witness :
  exists st : @Download string,
    _dl_mult_symbols
      (fun _ sym => if String.eqb sym "GOOG" then IOError "no answer"
                    else Retrieved sym)
      "_get_hist_yahoo" (fun stocks => Return (size stocks))
      ["AAPL"; "GOOG"; "MSFT"] 2 0
    = dl_panel "_get_hist_yahoo" (fun stocks => Return (size stocks)) st
    /\ (forall sym, is_Some (dl_stocks st !! sym)
                    <-> In sym ["AAPL"; "GOOG"; "MSFT"])
    /\ dl_calls st = (0 + 3)%nat
    /\ (length (dl_warnings st) <= 3)%nat.
Proof.
  apply (dl_mult_symbols_entries
           (fun _ sym => if String.eqb sym "GOOG" then IOError "no answer"
                         else Retrieved sym)
           "_get_hist_yahoo" (fun stocks => Return (size stocks))
           ["AAPL"; "GOOG"; "MSFT"] 2 0%nat); [lia|].
  intros n sym e. destruct (String.eqb sym "GOOG"); discriminate.
Defined.
